(** * Verification of the auto-resume product scraper (main.py)

    A shallow embedding of [main.py]: the Python string helpers the code
    relies on, the block detector, the markup extractor, the browser
    session with its human-intervention wait and pagination loop, the CSV
    sink and the menu, followed by the properties proved about them.

    Python strings are modelled as [string] (sequences of one-byte
    characters); [str.lower] is the ASCII lowercasing, which is what Python
    does on ASCII text.

    The browser, the terminal and the files are the outside world: every
    call of the program to it is recorded in a trace, and the world
    answers each call (with a value or an exception) from the trace so
    far.  The program runs in a monad that threads the trace and the
    exceptions; the [while] loops take fuel, and that they end is
    proved, not assumed.  BeautifulSoup and the few functions of the
    Python library that the program calls are interfaces. *)

From Stdlib Require Import Strings.String Strings.Ascii Lists.List Bool.Bool.
From Stdlib Require Import ZArith.ZArith Arith.PeanoNat micromega.Lia.
Import ListNotations.

Local Open Scope string_scope.
Local Open Scope list_scope.

(* ===================================================================== *)
(** ** Python string primitives *)
(* ===================================================================== *)

Module PyStr.

(** [c.lower()] on one ASCII character: 'A'..'Z' are shifted by 32. *)
Definition lower_ascii (c : ascii) : ascii :=
  let n := nat_of_ascii c in
  if (65 <=? n)%nat && (n <=? 90)%nat then ascii_of_nat (n + 32) else c.

(** [s.lower()] *)
Fixpoint lower (s : string) : string :=
  match s with
  | EmptyString => EmptyString
  | String c r => String (lower_ascii c) (lower r)
  end.

(** [s.startswith(p)] *)
Fixpoint startswith (s p : string) {struct p} : bool :=
  match p, s with
  | EmptyString, _ => true
  | String _ _, EmptyString => false
  | String a p', String b s' => Ascii.eqb a b && startswith s' p'
  end.

(** [p in s] for two strings: [p] occurs in [s] at some offset. *)
Fixpoint contains (p s : string) : bool :=
  startswith s p ||
  match s with
  | EmptyString => false
  | String _ s' => contains p s'
  end.

(** The mathematical reading of [p in s]. *)
Definition occurs_in (p s : string) : Prop :=
  exists pre post, s = (pre ++ p ++ post)%string.

(** [s.replace(a, b)] for one-character [a] and [b]. *)
Fixpoint replace_char (a b : ascii) (s : string) : string :=
  match s with
  | EmptyString => EmptyString
  | String c r => String (if Ascii.eqb c a then b else c) (replace_char a b r)
  end.

(** [template.format(q=v)] for a template whose only replacement field is
    [{q}] and that has no doubled braces: every [{q}] is replaced by [v]. *)
Fixpoint format_q (template v : string) : string :=
  match template with
  | EmptyString => EmptyString
  | String c r =>
      if startswith template "{q}"
      then match r with
           | String _ (String _ r') => (v ++ format_q r' v)%string
           | _ => String c (format_q r v)
           end
      else String c (format_q r v)
  end.

(** [c.isspace()] on one ASCII character. *)
Definition is_space (c : ascii) : bool :=
  let n := nat_of_ascii c in
  ((9 <=? n)%nat && (n <=? 13)%nat) || ((28 <=? n)%nat && (n <=? 32)%nat).

Fixpoint lstrip (s : string) : string :=
  match s with
  | EmptyString => EmptyString
  | String c r => if is_space c then lstrip r else s
  end.

Fixpoint rstrip (s : string) : string :=
  match s with
  | EmptyString => EmptyString
  | String c r =>
      match rstrip r with
      | EmptyString => if is_space c then EmptyString else String c EmptyString
      | r' => String c r'
      end
  end.

(** [s.strip()] *)
Definition strip (s : string) : string := rstrip (lstrip s).

(** Python truthiness of an optional string: [None] and [''] are falsy. *)
Definition truthy (o : option string) : bool :=
  match o with
  | Some (String _ _) => true
  | _ => false
  end.

End PyStr.

(* ===================================================================== *)
(** ** Block detector (lines 67 and 129-136) *)
(* ===================================================================== *)

(** [BLOCK_INDICATORS] *)
Definition BLOCK_INDICATORS : list string :=
  ["captcha"; "verify"; "are you human"; "access denied"; "please verify";
   "sign in"; "login"; "blocked"].

(** The [for token in BLOCK_INDICATORS] loop, returning at the first hit. *)
Fixpoint any_token_in (tokens : list string) (low : string) : bool :=
  match tokens with
  | [] => false
  | token :: rest => if PyStr.contains token low then true
                     else any_token_in rest low
  end.

(** [looks_blocked(page_text)]; the argument may be [None]. *)
Definition looks_blocked (page_text : option string) : bool :=
  if negb (PyStr.truthy page_text) then false
  else match page_text with
       | Some t => any_token_in BLOCK_INDICATORS (PyStr.lower t)
       | None => false
       end.

(* ===================================================================== *)
(** ** External libraries, as interfaces *)
(* ===================================================================== *)

(** What the extractor uses of BeautifulSoup.  [Node] is a [Tag]; a [Tag]
    is always truthy, so [if el:] only tests for [None]. *)
Class Markup := {
  Node : Type;
  (** [BeautifulSoup(html, "lxml")] *)
  BeautifulSoup : string -> Node;
  (** [tag.select(sel)], in document order *)
  select : Node -> string -> list Node;
  (** [Tag.__eq__], which is what [b not in blocks] compares with *)
  tag_eqb : Node -> Node -> bool;
  (** [tag.get(attr)] *)
  get : Node -> string -> option string;
  (** [tag.get_text(" ", strip=True)] *)
  get_text : Node -> string
}.

(** What the program uses of the Python standard library and of the
    optional pandas import. *)
Class PyLib := {
  (** [urllib.parse.urljoin(base, url)] *)
  urljoin : string -> string -> string;
  (** [urllib.parse.quote_plus(s)] *)
  quote_plus : string -> string;
  (** [int(s)]; [None] stands for [ValueError] *)
  py_int : string -> option Z;
  (** whether [import pandas] succeeded *)
  PANDAS_AVAILABLE : bool
}.

(* ===================================================================== *)
(** ** Site profiles and product records *)
(* ===================================================================== *)

(** A site profile: a dict with the keys below.  [id] and [url] are
    optional because the code reads them both with and without a default;
    the selector lists are read with [cfg.get(key, [])]. *)
Record Cfg := mkCfg {
  cfg_id : option string;
  cfg_url : option string;
  cfg_product_block : list string;
  cfg_name : list string;
  cfg_price : list string;
  cfg_rating : list string;
  cfg_next_button : list string
}.

(** The dict appended to [items] at lines 179-184. *)
Record ProductRecord := mkRecord {
  product_name : option string;
  price : option string;
  rating : option string;
  product_url : option string
}.

(** [SITES]; in each dict literal the key ["name"] is given twice and the
    later value, the selector list, is the one that stays. *)
Definition flipkart : Cfg :=
  mkCfg (Some "flipkart") (Some "https://www.flipkart.com/search?q={q}")
        ["div._2kHMtA"; "div._1AtVbE._13oc-S"]
        ["div._4rR01T"; "a.s1Q9rs"]
        ["div._30jeq3"; "div._25b18c"]
        ["div._3LWZlK"]
        ["a._1LKTO3"; "a._1GTrmS"].

Definition amazon_in : Cfg :=
  mkCfg (Some "amazon_in") (Some "https://www.amazon.in/s?k={q}")
        ["div.s-result-item[data-component-type='s-search-result']"]
        ["h2 a span"]
        ["span.a-price > span.a-offscreen"]
        ["span.a-icon-alt"]
        ["a.s-pagination-next"].

Definition snapdeal : Cfg :=
  mkCfg (Some "snapdeal") (Some "https://www.snapdeal.com/search?keyword={q}")
        ["div.product-tuple-listing"]
        ["p.product-title"; "a.dp-widget-link"]
        ["span.product-price"]
        ["div.hotnessStars"]
        ["a[data-page]"].

Definition SITES (choice : string) : option Cfg :=
  if (choice =? "1")%string then Some flipkart
  else if (choice =? "2")%string then Some amazon_in
  else if (choice =? "3")%string then Some snapdeal
  else None.

(* ===================================================================== *)
(** ** Extractor (lines 142-185) *)
(* ===================================================================== *)

Section Extractor.
Context {MK : Markup} {PL : PyLib}.

(** [block.select_one(sel)] *)
Definition select_one (block : Node) (sel : string) : option Node :=
  hd_error (select block sel).

(** [first_match(block, selectors)] *)
Fixpoint first_match (block : Node) (selectors : list string) : option Node :=
  match selectors with
  | [] => None
  | sel :: rest =>
      match select_one block sel with
      | Some el => Some el
      | None => first_match block rest
      end
  end.

(** [b in blocks] *)
Definition node_in (b : Node) (blocks : list Node) : bool :=
  existsb (fun x => tag_eqb x b) blocks.

(** Lines 156-158: [for b in found: if b not in blocks: blocks.append(b)] *)
Fixpoint append_new (found blocks : list Node) : list Node :=
  match found with
  | [] => blocks
  | b :: rest =>
      if negb (node_in b blocks) then append_new rest (blocks ++ [b])
      else append_new rest blocks
  end.

(** Lines 153-158: the loop over the [product_block] selectors. *)
Fixpoint collect_blocks (soup : Node) (sels : list string)
                        (blocks : list Node) : list Node :=
  match sels with
  | [] => blocks
  | sel :: rest =>
      let found := select soup sel in
      match found with
      | [] => collect_blocks soup rest blocks
      | _ :: _ => collect_blocks soup rest (append_new found blocks)
      end
  end.

(** Line 164 *)
Definition title_of (name_el : option Node) : option string :=
  match name_el with
  | Some el =>
      if PyStr.truthy (get el "title") then get el "title"
      else Some (get_text el)
  | None => None
  end.

(** Lines 170-175, for an [href] that passed the test of line 167. *)
Definition absolute_href (cfg : Cfg) (href : string) : string :=
  if PyStr.startswith href "//" then ("https:" ++ href)%string
  else if PyStr.startswith href "/" then
    let base := match cfg_url cfg with Some u => u | None => "https://" end in
    urljoin (PyStr.format_q base "") href
  else href.

(** Lines 165-175 *)
Definition href_of (b : Node) (cfg : Cfg) : option string :=
  match select_one b "a" with
  | Some a =>
      if PyStr.truthy (get a "href") then
        match get a "href" with
        | Some href => Some (absolute_href cfg href)
        | None => None
        end
      else None
  | None => None
  end.

(** [el.get_text(" ", strip=True) if el else None] *)
Definition text_or_none (el : option Node) : option string :=
  match el with
  | Some e => Some (get_text e)
  | None => None
  end.

(** The body of the loop of lines 160-184 for one container: the record
    it appends, if any. *)
Definition record_of_block (b : Node) (cfg : Cfg) : option ProductRecord :=
  let name_el := first_match b (cfg_name cfg) in
  let price_el := first_match b (cfg_price cfg) in
  let rating_el := first_match b (cfg_rating cfg) in
  let title := title_of name_el in
  let href := href_of b cfg in
  let price_txt := text_or_none price_el in
  let rating_txt := text_or_none rating_el in
  if PyStr.truthy title || PyStr.truthy price_txt
  then Some (mkRecord title price_txt rating_txt href)
  else None.

(** Lines 159-185 *)
Fixpoint items_of_blocks (blocks : list Node) (cfg : Cfg) : list ProductRecord :=
  match blocks with
  | [] => []
  | b :: rest =>
      match record_of_block b cfg with
      | Some r => r :: items_of_blocks rest cfg
      | None => items_of_blocks rest cfg
      end
  end.

(** [parse_products_from_html(html, cfg)] *)
Definition parse_products_from_html (html : string) (cfg : Cfg)
  : list ProductRecord :=
  let soup := BeautifulSoup html in
  let blocks := collect_blocks soup (cfg_product_block cfg) [] in
  items_of_blocks blocks cfg.

End Extractor.

(* ===================================================================== *)
(** ** The outside world: browser, terminal, files *)
(* ===================================================================== *)

(** The exception classes the handlers of the program tell apart.
    [KeyboardInterrupt] is not a subclass of [Exception]. *)
Inductive exn :=
| WebDriverException
| KeyboardInterrupt
| KeyError
| OtherError.

Definition exn_eqb (a b : exn) : bool :=
  match a, b with
  | WebDriverException, WebDriverException
  | KeyboardInterrupt, KeyboardInterrupt
  | KeyError, KeyError
  | OtherError, OtherError => true
  | _, _ => false
  end.

(** [except Exception] *)
Definition is_Exception (e : exn) : bool := negb (exn_eqb e KeyboardInterrupt).
(** [except WebDriverException] *)
Definition is_WebDriverException (e : exn) : bool := exn_eqb e WebDriverException.
(** [except KeyboardInterrupt] *)
Definition is_KeyboardInterrupt (e : exn) : bool := exn_eqb e KeyboardInterrupt.
(** bare [except:] *)
Definition any_exn (e : exn) : bool := true.

(** A [WebElement] handle. *)
Definition Elt := nat.

Inductive Script :=
| ScrollBy (steps : nat)      (* window.scrollBy(0, document.body.scrollHeight/steps) *)
| DispatchEscape.             (* the keydown Escape event of line 115 *)

Inductive Level := INFO | WARNING | ERROR.

(** One constructor per logging call of the program. *)
Inductive LogMsg :=
| MsgSavedDebug (prefix : string)
| MsgDebugFailed
| MsgOpening (url : string)
| MsgPageLoadWarning
| MsgBlocked
| MsgDetected
| MsgInterrupted
| MsgStillBlocked
| MsgContinuing
| MsgParsingPage (n : Z)
| MsgExtracted (n : nat)
| MsgNoNext
| MsgCsvSaved (filename : string) (rows : nat)
| MsgExcelSaved (filename : string)
| MsgExcelFailed.

(** What [print] shows: the fixed texts (without their leading and
    trailing newlines), and the three formatted lines. *)
Inductive Printed :=
| Text (s : string)
| WaitNotice (manual_timeout : Z)
| Done (n : nat) (csv_name : string)
| NoItems (csv_name : string).

Inductive Prompt := AskChoice | AskKeyword | AskPages | AskHeadless.

(** Every interaction of the program with the outside. *)
Inductive Call :=
| StartDriver (headless : bool)
| Get (url : string)
| PageSource
| FindElements (sel : string)
| IsDisplayed (n : Elt)
| Click (n : Elt)
| GetAttribute (n : Elt) (attr : string)
| ExecuteScript (s : Script)
| SaveScreenshot (file : string)
| WriteFile (file : string) (content : string)
| Sleep (ms : Z)
| Quit
| Input (p : Prompt)
| Print (m : Printed)
| Log (l : Level) (m : LogMsg)
| CsvOpen (filename : string)
| CsvHeader (filename : string) (fieldnames : list string)
| CsvRow (filename : string) (cells : list (option string))
| ToExcel (filename : string) (items : list ProductRecord).

(** A call together with the exception it raised, if any. *)
Inductive Event := Ev (c : Call) (raised : option exn).

Definition History := list Event.

(** What a call answers: a value, or an exception. *)
Inductive reply (A : Type) :=
| Returns (a : A)
| Throws (e : exn).
Arguments Returns {A} a.
Arguments Throws {A} e.

(** The outside world answers each call from everything that happened so
    far.  Sleeping has no answer but may be cut short by Ctrl+C. *)
Record Env := mkEnv {
  env_start_driver : History -> bool -> reply unit;
  env_get : History -> string -> reply unit;
  env_page_source : History -> reply string;
  env_find_elements : History -> string -> reply (list Elt);
  env_is_displayed : History -> Elt -> reply bool;
  env_click : History -> Elt -> reply unit;
  env_get_attribute : History -> Elt -> string -> reply (option string);
  env_execute_script : History -> Script -> reply unit;
  env_save_screenshot : History -> string -> reply unit;
  env_write_file : History -> string -> string -> reply unit;
  env_sleep_interrupted : History -> Z -> bool;
  env_quit : History -> reply unit;
  env_input : History -> Prompt -> reply string;
  env_csv_open : History -> string -> reply unit;
  env_to_excel : History -> string -> list ProductRecord -> reply unit
}.

(* ===================================================================== *)
(** ** The monad of the program: history, exceptions, fuel *)
(* ===================================================================== *)

Inductive outcome (A : Type) :=
| Ok (a : A)
| Raise (e : exn)
| OutOfFuel.
Arguments Ok {A} a.
Arguments Raise {A} e.
Arguments OutOfFuel {A}.

(** A computation is given the world and the history so far; it yields
    its outcome and the events it added, oldest first. *)
Definition M (A : Type) : Type := Env -> History -> outcome A * History.

Definition run {A} (m : M A) (env : Env) (h : History) : outcome A * History :=
  m env h.

Definition ret {A} (a : A) : M A := fun _ _ => (Ok a, []).

Definition bind {A B} (m : M A) (k : A -> M B) : M B :=
  fun env h =>
    match m env h with
    | (Ok a, t) => let (r, t') := k a env (h ++ t) in (r, t ++ t')
    | (Raise e, t) => (Raise e, t)
    | (OutOfFuel, t) => (OutOfFuel, t)
    end.

Declare Scope monad_scope.
Delimit Scope monad_scope with monad.
Notation "x <- m ;; k" := (bind m (fun x => k))
  (at level 61, m at next level, right associativity) : monad_scope.
Notation "m ;; k" := (bind m (fun _ => k))
  (at level 61, right associativity) : monad_scope.
Local Open Scope monad_scope.

Definition raise {A} (e : exn) : M A := fun _ _ => (Raise e, []).
Definition out_of_fuel {A} : M A := fun _ _ => (OutOfFuel, []).

(** [try: m  except <catches>: handler] *)
Definition try_except {A} (m : M A) (catches : exn -> bool)
                      (handler : exn -> M A) : M A :=
  fun env h =>
    match m env h with
    | (Raise e, t) =>
        if catches e
        then let (r, t') := handler e env (h ++ t) in (r, t ++ t')
        else (Raise e, t)
    | r => r
    end.

(** [try: m  finally: fin]; an exception of [fin] replaces the outcome
    of [m]. *)
Definition try_finally {A} (m : M A) (fin : M unit) : M A :=
  fun env h =>
    match m env h with
    | (OutOfFuel, t) => (OutOfFuel, t)
    | (r, t) =>
        match fin env (h ++ t) with
        | (Ok _, t') => (r, t ++ t')
        | (Raise e, t') => (Raise e, t ++ t')
        | (OutOfFuel, t') => (OutOfFuel, t ++ t')
        end
    end.

Definition raised_of {A} (r : reply A) : option exn :=
  match r with
  | Returns _ => None
  | Throws e => Some e
  end.

(** A call: ask the world, record the call and how it ended. *)
Definition call {A} (c : Call) (answer : Env -> History -> reply A) : M A :=
  fun env h =>
    let r := answer env h in
    (match r with Returns a => Ok a | Throws e => Raise e end,
     [Ev c (raised_of r)]).

Definition start_driver (headless : bool) : M unit :=
  call (StartDriver headless) (fun env h => env_start_driver env h headless).
Definition driver_get (url : string) : M unit :=
  call (Get url) (fun env h => env_get env h url).
Definition page_source : M string :=
  call PageSource env_page_source.
Definition find_elements (sel : string) : M (list Elt) :=
  call (FindElements sel) (fun env h => env_find_elements env h sel).
Definition is_displayed (n : Elt) : M bool :=
  call (IsDisplayed n) (fun env h => env_is_displayed env h n).
Definition click (n : Elt) : M unit :=
  call (Click n) (fun env h => env_click env h n).
Definition get_attribute (n : Elt) (attr : string) : M (option string) :=
  call (GetAttribute n attr) (fun env h => env_get_attribute env h n attr).
Definition execute_script (s : Script) : M unit :=
  call (ExecuteScript s) (fun env h => env_execute_script env h s).
Definition save_screenshot (file : string) : M unit :=
  call (SaveScreenshot file) (fun env h => env_save_screenshot env h file).
Definition write_file (file content : string) : M unit :=
  call (WriteFile file content) (fun env h => env_write_file env h file content).
Definition driver_quit : M unit :=
  call Quit env_quit.
Definition input (p : Prompt) : M string :=
  call (Input p) (fun env h => env_input env h p).
Definition csv_open (filename : string) : M unit :=
  call (CsvOpen filename) (fun env h => env_csv_open env h filename).
Definition to_excel (filename : string) (items : list ProductRecord) : M unit :=
  call (ToExcel filename items) (fun env h => env_to_excel env h filename items).

(** [time.sleep(ms / 1000)]: only Ctrl+C can make it raise. *)
Definition sleep (ms : Z) : M unit :=
  call (Sleep ms)
       (fun env h => if env_sleep_interrupted env h ms
                     then Throws KeyboardInterrupt else Returns tt).

(** Calls that always return. *)
Definition emit (c : Call) : M unit := call c (fun _ _ => Returns tt).
Definition print (m : Printed) : M unit := emit (Print m).
Definition log (l : Level) (m : LogMsg) : M unit := emit (Log l m).

(* ===================================================================== *)
(** ** Selenium helpers (lines 88-126) *)
(* ===================================================================== *)

(** [save_debug_files(driver, prefix)] *)
Definition save_debug_files (prefix : string) : M unit :=
  try_except
    (html <- page_source ;;
     write_file (prefix ++ ".html")%string html ;;
     save_screenshot (prefix ++ ".png")%string ;;
     log INFO (MsgSavedDebug prefix))
    is_Exception
    (fun _ => log WARNING MsgDebugFailed).

(** The loop of lines 103-110; the result says whether line 108 returned
    from the function. *)
Fixpoint close_buttons (btns : list Elt) : M bool :=
  match btns with
  | [] => ret false
  | b :: rest =>
      returned <- try_except
                    (shown <- is_displayed b ;;
                     if shown then click b ;; sleep 400 ;; ret true
                     else ret false)
                    any_exn
                    (fun _ => ret false) ;;
      if returned then ret true else close_buttons rest
  end.

(** [close_login_popup_best_effort(driver)] *)
Definition close_login_popup_best_effort : M unit :=
  returned <- try_except
                (btns <- find_elements "button._2KpZ6l._2doB4z" ;;
                 close_buttons btns)
                any_exn
                (fun _ => ret false) ;;
  if returned then ret tt
  else try_except (execute_script DispatchEscape) any_exn (fun _ => ret tt).

(** The [for _ in range(steps)] loop of lines 122-124; [n] counts the
    iterations left. *)
Fixpoint scroll_steps (n steps : nat) (pause : Z) : M unit :=
  match n with
  | O => ret tt
  | S k => execute_script (ScrollBy steps) ;; sleep pause ;;
           scroll_steps k steps pause
  end.

(** [gradual_scroll(driver, steps, pause)], [pause] in milliseconds. *)
Definition gradual_scroll (steps : nat) (pause : Z) : M unit :=
  try_except (scroll_steps steps steps pause) is_Exception (fun _ => ret tt).

(* ===================================================================== *)
(** ** The scrape session (lines 191-302) *)
(* ===================================================================== *)

Section Session.
Context {MK : Markup} {PL : PyLib}.

(** Lines 236-242: [for psel in cfg.get("product_block", [])] with its
    [break]; the result says whether the loop was left by [break]. *)
Fixpoint selector_text_found (psels : list string) (page_src : string) : M bool :=
  match psels with
  | [] => ret false
  | psel :: rest =>
      if PyStr.contains psel page_src
      then log INFO MsgDetected ;; ret true
      else selector_text_found rest page_src
  end.

(** Lines 230-243: [while waited < manual_timeout]. *)
Fixpoint poll_loop (fuel : nat) (cfg : Cfg) (manual_timeout waited : Z) : M unit :=
  match fuel with
  | O => out_of_fuel
  | S fuel' =>
      if (waited <? manual_timeout)%Z then
        sleep 2000 ;;
        let waited := (waited + 2)%Z in
        page_src <- page_source ;;
        found <- selector_text_found (cfg_product_block cfg) page_src ;;
        if found then ret tt
        else poll_loop fuel' cfg manual_timeout waited
      else ret tt
  end.

(** Lines 220-248: [while True] around the poll loop.  The body leaves
    the loop by [break] when it ends normally (line 244) and when it is
    interrupted (line 248). *)
Fixpoint resume_wait (fuel : nat) (cfg : Cfg) (manual_timeout : Z) : M unit :=
  match fuel with
  | O => out_of_fuel
  | S fuel' =>
      leave <- try_except
                 (print (Text "Press ENTER to continue immediately after login/CAPTCHA (or wait).") ;;
                  poll_loop fuel' cfg manual_timeout 0 ;;
                  ret true)
                 is_KeyboardInterrupt
                 (fun _ => log INFO MsgInterrupted ;; ret true) ;;
      if (leave : bool) then ret tt else resume_wait fuel' cfg manual_timeout
  end.

(** Lines 197-211: navigation, cleanup, and the first block detection;
    the result is that of [looks_blocked]. *)
Definition navigate_and_detect (keyword : string) (cfg : Cfg) : M bool :=
  template <- match cfg_url cfg with
              | Some u => ret u
              | None => raise KeyError
              end ;;
  let start_url := PyStr.format_q template (quote_plus keyword) in
  log INFO (MsgOpening start_url) ;;
  try_except (driver_get start_url) is_WebDriverException
             (fun _ => log WARNING MsgPageLoadWarning) ;;
  sleep 1000 ;;
  close_login_popup_best_effort ;;
  gradual_scroll 6 600 ;;
  sleep 800 ;;
  page_src <- page_source ;;
  ret (looks_blocked (Some page_src)).

(** The prefix of line 213. *)
Definition debug_prefix (keyword : string) (cfg : Cfg) : string :=
  ("blocked_" ++ match cfg_id cfg with Some i => i | None => "site" end
   ++ "_" ++ PyStr.replace_char " " "_" keyword)%string.

(** Lines 212-248: the notice and the wait for the human. *)
Definition await_human (fuel : nat) (keyword : string) (cfg : Cfg)
                       (manual_timeout : Z) : M unit :=
  log WARNING MsgBlocked ;;
  save_debug_files (debug_prefix keyword cfg) ;;
  print (Text "ACTION REQUIRED: The site appears blocked (CAPTCHA/login).") ;;
  print (Text "-> In the Chrome window that opened, please sign in to the site or solve the CAPTCHA.") ;;
  print (Text "-> After you complete that, either press ENTER here OR wait; the script will auto-detect when product content appears.") ;;
  print (WaitNotice manual_timeout) ;;
  resume_wait fuel cfg manual_timeout.

(** Lines 250-254: the re-check; [true] is the [return []] of line 253. *)
Definition recheck : M bool :=
  page_src <- page_source ;;
  if looks_blocked (Some page_src)
  then log ERROR MsgStillBlocked ;; ret true
  else log INFO MsgContinuing ;; ret false.

(** Lines 274-286: the attempt on one node: click it if it is shown,
    and when that raises, navigate to its [href] if it has one; the result
    is [clicked]. *)
Definition click_or_navigate (n : Elt) : M bool :=
  try_except
    (shown <- is_displayed n ;;
     if shown then click n ;; sleep 1200 ;; ret true
     else ret false)
    is_Exception
    (fun _ =>
       href <- get_attribute n "href" ;;
       match href with
       | Some (String c u) => driver_get (String c u) ;; sleep 1200 ;; ret true
       | _ => ret false
       end).

(** Lines 273-286: the loop over the nodes one selector found, left by
    [break] once [clicked]. *)
Fixpoint try_nodes (nodes : list Elt) : M bool :=
  match nodes with
  | [] => ret false
  | n :: rest =>
      clicked <- click_or_navigate n ;;
      if clicked then ret true else try_nodes rest
  end.

(** Lines 270-290: the loop over the [next_button] selectors; the result
    is [clicked]. *)
Fixpoint try_selectors (sels : list string) : M bool :=
  match sels with
  | [] => ret false
  | sel :: rest =>
      clicked <- try_except
                   (nodes <- find_elements sel ;; try_nodes nodes)
                   is_Exception
                   (fun _ => ret false) ;;
      if clicked then ret true else try_selectors rest
  end.

(** Lines 260-267: scroll, read and extract one page. *)
Definition extract_page (cfg : Cfg) (current_page : Z) : M (list ProductRecord) :=
  log INFO (MsgParsingPage (current_page + 1)) ;;
  gradual_scroll 6 500 ;;
  sleep 1000 ;;
  html <- page_source ;;
  let items := parse_products_from_html html cfg in
  log INFO (MsgExtracted (length items)) ;;
  ret items.

(** Lines 259-294: [while current_page < pages]. *)
Fixpoint paginate (fuel : nat) (cfg : Cfg) (pages current_page : Z)
                  (collected : list ProductRecord) : M (list ProductRecord) :=
  match fuel with
  | O => out_of_fuel
  | S fuel' =>
      if (current_page <? pages)%Z then
        items <- extract_page cfg current_page ;;
        let collected := match items with
                         | [] => collected
                         | _ :: _ => collected ++ items
                         end in
        clicked <- try_selectors (cfg_next_button cfg) ;;
        if negb clicked then log INFO MsgNoNext ;; ret collected
        else paginate fuel' cfg pages (current_page + 1) collected
      else ret collected
  end.

(** Lines 197-296: the body of the [try]. *)
Definition session_body (fuel : nat) (keyword : string) (cfg : Cfg)
                        (pages manual_timeout : Z) : M (list ProductRecord) :=
  blocked <- navigate_and_detect keyword cfg ;;
  still_blocked <- (if (blocked : bool)
                    then await_human fuel keyword cfg manual_timeout ;; recheck
                    else ret false) ;;
  if (still_blocked : bool) then ret []
  else paginate fuel cfg pages 0 [].

(** Lines 298-302 *)
Definition release_driver : M unit :=
  try_except driver_quit any_exn (fun _ => ret tt).

(** [scrape_keyword_on_site_auto_resume(keyword, cfg, pages, headless,
    manual_timeout)]; [fuel] bounds the iterations of each [while]. *)
Definition scrape_keyword_on_site_auto_resume
    (fuel : nat) (keyword : string) (cfg : Cfg) (pages : Z)
    (headless : bool) (manual_timeout : Z) : M (list ProductRecord) :=
  start_driver headless ;;
  try_finally (session_body fuel keyword cfg pages manual_timeout)
              release_driver.

(* ===================================================================== *)
(** ** Sinks and menu (lines 308-371) *)
(* ===================================================================== *)

Definition headers : list string :=
  ["product_name"; "price"; "rating"; "product_url"].

(** [it.get(h)] for a record dict. *)
Definition field (it : ProductRecord) (h : string) : option string :=
  if (h =? "product_name")%string then product_name it
  else if (h =? "price")%string then price it
  else if (h =? "rating")%string then rating it
  else if (h =? "product_url")%string then product_url it
  else None.

(** The row [{h: it.get(h) for h in headers}], in [fieldnames] order. *)
Definition row_of (it : ProductRecord) : list (option string) :=
  map (field it) headers.

(** Lines 313-314 *)
Fixpoint write_rows (filename : string) (items : list ProductRecord) : M unit :=
  match items with
  | [] => ret tt
  | it :: rest => emit (CsvRow filename (row_of it)) ;; write_rows filename rest
  end.

(** [save_to_csv(items, filename)] *)
Definition save_to_csv (items : list ProductRecord) (filename : string) : M unit :=
  csv_open filename ;;
  emit (CsvHeader filename headers) ;;
  write_rows filename items ;;
  log INFO (MsgCsvSaved filename (length items)).

(** [save_to_excel(items, filename)] *)
Definition save_to_excel (items : list ProductRecord) (filename : string) : M unit :=
  if negb PANDAS_AVAILABLE then ret tt
  else try_except
         (to_excel filename items ;; log INFO (MsgExcelSaved filename))
         is_Exception
         (fun _ => log WARNING MsgExcelFailed).

(** [x or default] on strings *)
Definition or_default (x default : string) : string :=
  match x with
  | EmptyString => default
  | _ => x
  end.

(** [s.replace(".csv", ".xlsx")] *)
Fixpoint replace_csv_xlsx (s : string) : string :=
  match s with
  | EmptyString => EmptyString
  | String c r =>
      if PyStr.startswith s ".csv"
      then match r with
           | String _ (String _ (String _ r')) => (".xlsx" ++ replace_csv_xlsx r')%string
           | _ => String c (replace_csv_xlsx r)
           end
      else String c (replace_csv_xlsx r)
  end.

(** Lines 359-371: what [main] does once the operator's answers are in. *)
Definition scrape_and_save (fuel : nat) (keyword : string) (cfg : Cfg)
                           (pages : Z) (headless : bool) : M unit :=
  print (Text "Starting scraper. A Chrome window will open. If site shows CAPTCHA or login, please solve it in the browser.") ;;
  items <- scrape_keyword_on_site_auto_resume fuel keyword cfg pages headless 300 ;;
  let safe_kw := PyStr.replace_char " " "_" keyword in
  site_id <- match cfg_id cfg with
             | Some i => ret i
             | None => raise KeyError
             end ;;
  let csv_name := (site_id ++ "_" ++ safe_kw ++ ".csv")%string in
  save_to_csv items csv_name ;;
  (if PANDAS_AVAILABLE then save_to_excel items (replace_csv_xlsx csv_name)
   else ret tt) ;;
  match items with
  | _ :: _ => print (Done (length items) csv_name)
  | [] => print (NoItems csv_name)
  end.

(** [main()] *)
Definition main (fuel : nat) : M unit :=
  print (Text "==============================") ;;
  print (Text "   INDIA MULTI-SITE SCRAPER (AUTO-RESUME SAFE)") ;;
  print (Text "==============================") ;;
  print (Text "Choose Website:") ;;
  print (Text "1. Flipkart") ;;
  print (Text "2. Amazon India") ;;
  print (Text "3. Snapdeal") ;;
  answer <- input AskChoice ;;
  let choice := PyStr.strip answer in
  match SITES choice with
  | None => print (Text "Invalid choice. Exiting.")
  | Some cfg =>
      print (Text "Example keywords: mobile, shoes, laptop, saree, watch, headphones, bags") ;;
      answer <- input AskKeyword ;;
      let keyword := PyStr.strip answer in
      match keyword with
      | EmptyString => print (Text "No keyword. Exiting.")
      | _ =>
          answer <- input AskPages ;;
          let pages := match py_int (or_default (PyStr.strip answer) "2") with
                       | Some n => n
                       | None => 2%Z
                       end in
          answer <- input AskHeadless ;;
          let headless_answer := or_default (PyStr.lower (PyStr.strip answer)) "n" in
          let headless := (headless_answer =? "y")%string in
          scrape_and_save fuel keyword cfg pages headless
      end
  end.

End Session.

(* ===================================================================== *)
(** ** Observations on records and traces *)
(* ===================================================================== *)

(** The inclusion invariant as the specification words it. *)
Definition included (r : ProductRecord) : Prop :=
  product_name r <> None \/ price r <> None.

(** The invariant the truthiness test gives. *)
Definition has_text (r : ProductRecord) : Prop :=
  (exists s, product_name r = Some s /\ s <> "") \/
  (exists s, price r = Some s /\ s <> "").

(** The base a root-relative [href] is resolved against: the URL
    template of the profile with [q] left empty. *)
Definition base_url (cfg : Cfg) : string :=
  PyStr.format_q (match cfg_url cfg with Some u => u | None => "https://" end) "".


(** An advance interaction: a click, or a direct navigation. *)
Definition is_advance_attempt (e : Event) : bool :=
  match e with
  | Ev (Click _) _ | Ev (Get _) _ => true
  | _ => false
  end.

(** An advance interaction that went through. *)
Definition is_advance (e : Event) : bool :=
  match e with
  | Ev (Click _) None | Ev (Get _) None => true
  | _ => false
  end.

(** The start of the extraction of a page. *)
Definition is_page_extraction (e : Event) : bool :=
  match e with
  | Ev (Log INFO (MsgParsingPage _)) _ => true
  | _ => false
  end.

Definition is_sleep (e : Event) : bool :=
  match e with
  | Ev (Sleep _) _ => true
  | _ => false
  end.

Definition count (p : Event -> bool) (t : History) : nat :=
  length (filter p t).

(** Milliseconds a trace asks to sleep. *)
Fixpoint slept (t : History) : Z :=
  match t with
  | [] => 0
  | Ev (Sleep ms) _ :: r => ms + slept r
  | _ :: r => slept r
  end.

(** The driver was released: [quit] was called. *)
Definition released (t : History) : Prop :=
  exists q, In (Ev Quit q) t.

(** A row was written to, or a file opened as, [filename]. *)
Definition is_csv_event (e : Event) : bool :=
  match e with
  | Ev (CsvOpen _) _ | Ev (CsvHeader _ _) _ | Ev (CsvRow _ _) _ => true
  | _ => false
  end.

(** The operator was shown an outcome line. *)
Definition is_outcome_line (e : Event) : bool :=
  match e with
  | Ev (Print (Done _ _)) _ | Ev (Print (NoItems _)) _ => true
  | _ => false
  end.

(** The rows a trace wrote to [filename], header included, in order. *)
Fixpoint rows_written (filename : string) (t : History) : list (list (option string)) :=
  match t with
  | [] => []
  | Ev (CsvHeader f cols) None :: r =>
      if (f =? filename)%string then map Some cols :: rows_written filename r
      else rows_written filename r
  | Ev (CsvRow f cells) None :: r =>
      if (f =? filename)%string then cells :: rows_written filename r
      else rows_written filename r
  | _ :: r => rows_written filename r
  end.

(** Ticks of the wait loop still needed to bring [waited] up to
    [manual_timeout], two seconds a tick. *)
Definition ticks_left (manual_timeout waited : Z) : nat :=
  Z.to_nat ((manual_timeout - waited + 1) / 2).

(** Ticks needed from the start of the wait. *)
Definition ticks_to_ceiling (manual_timeout : Z) : nat :=
  ticks_left manual_timeout 0.

(** The event of line 225. *)
Definition press_enter : Event :=
  Ev (Print (Text "Press ENTER to continue immediately after login/CAPTCHA (or wait).")) None.

(** The events the poll loop can add. *)
Definition is_poll_event (e : Event) : bool :=
  match e with
  | Ev (Sleep 2000) _ | Ev PageSource _ | Ev (Log INFO MsgDetected) None => true
  | _ => false
  end.

(** The events the whole wait can add. *)
Definition is_wait_event (e : Event) : bool :=
  match e with
  | Ev (Print (Text _)) None | Ev (Log INFO MsgInterrupted) None => true
  | _ => is_poll_event e
  end.

(** Why a wait that started at history [h] and added [t] ended normally:
    (a) the ceiling was reached, (b) the markup read in the last tick
    holds the text of a [product_block] selector, or (c) Ctrl+C. *)
Definition wait_exit_reason (env : Env) (cfg : Cfg) (manual_timeout : Z)
                            (h t : History) : Prop :=
  count is_sleep t = ticks_to_ceiling manual_timeout
  \/ (exists t0 src psel,
        t = t0 ++ [Ev PageSource None; Ev (Log INFO MsgDetected) None] /\
        env_page_source env (h ++ t0) = Returns src /\
        In psel (cfg_product_block cfg) /\
        PyStr.occurs_in psel src)
  \/ (exists t0 c,
        t = t0 ++ [Ev c (Some KeyboardInterrupt);
                   Ev (Log INFO MsgInterrupted) None]).

(** What [gradual_scroll] adds when nothing fails. *)
Fixpoint scroll_trace (n steps : nat) (pause : Z) : History :=
  match n with
  | O => []
  | S k => Ev (ExecuteScript (ScrollBy steps)) None :: Ev (Sleep pause) None
           :: scroll_trace k steps pause
  end.

(** What the poll loop adds in [n] ticks when nothing fails and no
    selector text shows up. *)
Fixpoint idle_ticks (n : nat) : History :=
  match n with
  | O => []
  | S k => Ev (Sleep 2000) None :: Ev PageSource None :: idle_ticks k
  end.

(** An element that cannot take the session to a next page: it is not
    shown, or looking at it or clicking it raises; and it has no [href]
    to navigate to. *)
Definition cannot_advance (env : Env) (n : Elt) : Prop :=
  (forall h,
      env_is_displayed env h n = Returns false \/
      exists e, is_Exception e = true /\
                (env_is_displayed env h n = Throws e \/
                 (env_is_displayed env h n = Returns true /\
                  env_click env (h ++ [Ev (IsDisplayed n) None]) n = Throws e))) /\
  (forall h, env_get_attribute env h n "href" = Returns None \/
             env_get_attribute env h n "href" = Returns (Some "")).

(** No [next_button] selector finds an element that can advance. *)
Definition no_next_control (env : Env) (cfg : Cfg) : Prop :=
  forall h sel,
    In sel (cfg_next_button cfg) ->
    match env_find_elements env h sel with
    | Returns nodes => forall n, In n nodes -> cannot_advance env n
    | Throws e => is_Exception e = true
    end.

(** The attempt of lines 275-276 on [n] fails with [e], having added
    [t]: the visibility test raises, or the element is shown and the
    click raises. *)
Definition click_fails (env : Env) (h : History) (n : Elt) (e : exn)
                       (t : History) : Prop :=
  (env_is_displayed env h n = Throws e /\ t = [Ev (IsDisplayed n) (Some e)]) \/
  (env_is_displayed env h n = Returns true /\
   env_click env (h ++ [Ev (IsDisplayed n) None]) n = Throws e /\
   t = [Ev (IsDisplayed n) None; Ev (Click n) (Some e)]).

(** Line 282 finds no [href] to navigate to. *)
Definition no_href (env : Env) (h : History) (n : Elt) : Prop :=
  env_get_attribute env h n "href" = Returns None \/
  env_get_attribute env h n "href" = Returns (Some "").

(** The fallback of lines 281-283 on [n] fails with [e], having added
    [t]: reading the [href] raises, or navigating to it does. *)
Definition fallback_fails (env : Env) (h : History) (n : Elt) (e : exn)
                          (t : History) : Prop :=
  (env_get_attribute env h n "href" = Throws e /\
   t = [Ev (GetAttribute n "href") (Some e)]) \/
  (exists u, u <> "" /\
             env_get_attribute env h n "href" = Returns (Some u) /\
             env_get env (h ++ [Ev (GetAttribute n "href") None]) u = Throws e /\
             t = [Ev (GetAttribute n "href") None; Ev (Get u) (Some e)]).

(** What the search for a next page may leave behind: when it reports
    [clicked], one advance went through and only the settle delay follows
    it; when it does not, none went through. *)
Definition advance_shape (r : outcome bool) (t : History) : Prop :=
  match r with
  | Ok true => exists t0 a, t = t0 ++ [a; Ev (Sleep 1200) None] /\
                            is_advance a = true /\
                            count is_advance t0 = O
  | Ok false => count is_advance t = O
  | Raise e => if is_Exception e then count is_advance t = O
               else (count is_advance t <= 1)%nat
  | OutOfFuel => False
  end.

(** The events scrolling can add. *)
Definition is_scroll_event (e : Event) : bool :=
  match e with
  | Ev (ExecuteScript _) _ | Ev (Sleep _) _ => true
  | _ => false
  end.

(** The events the search for a next page can add. *)
Definition is_search_event (e : Event) : bool :=
  match e with
  | Ev (FindElements _) _ | Ev (IsDisplayed _) _ | Ev (Click _) _
  | Ev (GetAttribute _ _) _ | Ev (Get _) _ | Ev (Sleep _) _ => true
  | _ => false
  end.

(** The events reading a page can add after its first log line. *)
Definition is_reading_event (e : Event) : bool :=
  match e with
  | Ev PageSource _ | Ev (Log INFO (MsgExtracted _)) _ => true
  | _ => is_scroll_event e
  end.

(** [m] only ever adds events that satisfy [P]. *)
Definition emits {A} (P : Event -> bool) (m : M A) : Prop :=
  forall env h, forallb P (snd (run m env h)) = true.

(** The run of [m] from [h] has that shape. *)
Definition shaped (m : M bool) (env : Env) (h : History) : Prop :=
  advance_shape (fst (run m env h)) (snd (run m env h)).

(** C5 as the specification words it: the search for a next page makes
    at most one advance interaction, failed ones included. *)
Definition one_attempt_per_page : Prop :=
  forall env cfg h,
    (count is_advance_attempt
       (snd (run (try_selectors (cfg_next_button cfg)) env h)) <= 1)%nat.

(** The events a session can add: anything but writing the CSV file and
    showing the outcome line. *)
Definition is_session_event (e : Event) : bool :=
  negb (is_csv_event e || is_outcome_line e).

(** The events a session can add before it starts paginating: none of
    the above, and no page extraction either. *)
Definition is_prelude_event (e : Event) : bool :=
  is_session_event e && negb (is_page_extraction e).

(** The line of line 359. *)
Definition starting : Event :=
  Ev (Print (Text "Starting scraper. A Chrome window will open. If site shows CAPTCHA or login, please solve it in the browser.")) None.

(** What [save_to_csv] adds when the file can be opened. *)
Definition csv_trace (items : list ProductRecord) (filename : string) : History :=
  Ev (CsvOpen filename) None :: Ev (CsvHeader filename headers) None ::
  map (fun it => Ev (CsvRow filename (row_of it)) None) items ++
  [Ev (Log INFO (MsgCsvSaved filename (length items))) None].

(** The outcome line of lines 368-371. *)
Definition outcome_line (items : list ProductRecord) (csv_name : string) : Event :=
  match items with
  | _ :: _ => Ev (Print (Done (length items) csv_name)) None
  | [] => Ev (Print (NoItems csv_name)) None
  end.

(** The name of line 363. *)
Definition csv_name_of (site_id keyword : string) : string :=
  (site_id ++ "_" ++ PyStr.replace_char " " "_" keyword ++ ".csv")%string.

(** [m] never runs out of fuel. *)
Definition total {A} (m : M A) : Prop :=
  forall env h, fst (run m env h) <> OutOfFuel.

(** A world in which the calls of a session all return and no Ctrl+C
    arrives. *)
Record never_fails (env : Env) : Prop := {
  nf_start : forall h b, env_start_driver env h b = Returns tt;
  nf_get : forall h u, env_get env h u = Returns tt;
  nf_page : forall h, exists src, env_page_source env h = Returns src;
  nf_find : forall h sel, exists l, env_find_elements env h sel = Returns l;
  nf_shown : forall h n, exists b, env_is_displayed env h n = Returns b;
  nf_click : forall h n, env_click env h n = Returns tt;
  nf_script : forall h s, env_execute_script env h s = Returns tt;
  nf_shot : forall h f, env_save_screenshot env h f = Returns tt;
  nf_write : forall h f c, env_write_file env h f c = Returns tt;
  nf_sleep : forall h ms, env_sleep_interrupted env h ms = false
}.

(** The block persists and no container text ever appears: whenever the
    page is read it looks blocked and holds no [product_block] selector
    text. *)
Definition stays_walled (env : Env) (cfg : Cfg) : Prop :=
  forall h src,
    env_page_source env h = Returns src ->
    looks_blocked (Some src) = true /\
    forall psel, In psel (cfg_product_block cfg) ->
                 PyStr.contains psel src = false.

(* ===================================================================== *)
(** ** A miniature markup library and sample worlds, for the examples *)
(* ===================================================================== *)

Module Toy.

(** An element: tag name, class, attributes, own text, children. *)
#[local] Unset Elimination Schemes.
Inductive Tag :=
| Elem (name cls : string) (attrs : list (string * string))
       (text : string) (children : list Tag).
#[local] Set Elimination Schemes.

Fixpoint eqb (a b : Tag) : bool :=
  match a, b with
  | Elem n1 c1 at1 t1 ch1, Elem n2 c2 at2 t2 ch2 =>
      (n1 =? n2)%string && (c1 =? c2)%string && (t1 =? t2)%string &&
      (fix attrs_eqb (l1 l2 : list (string * string)) : bool :=
         match l1, l2 with
         | [], [] => true
         | (k1, v1) :: r1, (k2, v2) :: r2 =>
             (k1 =? k2)%string && (v1 =? v2)%string && attrs_eqb r1 r2
         | _, _ => false
         end) at1 at2 &&
      (fix all_eqb (l1 l2 : list Tag) : bool :=
         match l1, l2 with
         | [], [] => true
         | x :: r1, y :: r2 => eqb x y && all_eqb r1 r2
         | _, _ => false
         end) ch1 ch2
  end.

(** Selectors of the miniature: [tag], [.class] and [tag.class]. *)
Definition matches (sel : string) (t : Tag) : bool :=
  match t with
  | Elem n c _ _ _ =>
      (sel =? n)%string || (sel =? "." ++ c)%string || (sel =? n ++ "." ++ c)%string
  end.

(** Descendants in document order. *)
Fixpoint descendants (t : Tag) : list Tag :=
  match t with
  | Elem _ _ _ _ ch =>
      (fix over (l : list Tag) : list Tag :=
         match l with
         | [] => []
         | x :: r => (x :: descendants x) ++ over r
         end) ch
  end.

Definition select_in (t : Tag) (sel : string) : list Tag :=
  filter (matches sel) (descendants t).

Fixpoint lookup (k : string) (l : list (string * string)) : option string :=
  match l with
  | [] => None
  | (k', v) :: r => if (k' =? k)%string then Some v else lookup k r
  end.

Definition attr (t : Tag) (attr : string) : option string :=
  match t with
  | Elem _ _ attrs _ _ => lookup attr attrs
  end.

(** Own text only, stripped: enough for the leaves of the samples. *)
Definition own_text (t : Tag) : string :=
  match t with
  | Elem _ _ _ text _ => PyStr.strip text
  end.

(** A listing page: one complete product, one with only a title, one
    container with an empty title and no price, and anchors of the three
    kinds. *)
Definition item_a : Tag :=
  Elem "div" "item" [] ""
    [Elem "a" "" [("href", "//cdn.example/shoe-a")] "" [];
     Elem "span" "title" [] "Shoe A" [];
     Elem "span" "price" [] "999" []].

Definition item_b : Tag :=
  Elem "div" "item" [] ""
    [Elem "a" "" [("href", "/p/shoe-b")] "" [];
     Elem "span" "title" [] "Shoe B" []].

Definition item_c : Tag :=
  Elem "div" "item" [] ""
    [Elem "a" "" [("href", "https://other.example/c")] "" [];
     Elem "span" "price" [] "10" []].

Definition item_blank : Tag :=
  Elem "div" "item" [] ""
    [Elem "span" "title" [("title", "")] "   " []].

Definition listing : Tag :=
  Elem "html" "" [] "" [item_a; item_b; item_blank; item_c].

Definition empty_page : Tag := Elem "html" "" [] "" [].

(** The miniature parser knows one page by name. *)
Definition parse (html : string) : Tag :=
  if PyStr.contains "div.item" html then listing else empty_page.

#[local] Instance markup : Markup :=
  {| Node := Tag;
     BeautifulSoup := parse;
     select := select_in;
     tag_eqb := eqb;
     get := attr;
     get_text := own_text |}.

(** Scheme and authority of an absolute URL: up to the third slash. *)
Fixpoint origin (slashes : nat) (url : string) : string :=
  match url with
  | EmptyString => EmptyString
  | String c r =>
      if Ascii.eqb c "/" then
        match slashes with
        | O => EmptyString
        | S k => String c (origin k r)
        end
      else String c (origin slashes r)
  end.

(** Decimal digits only. *)
Fixpoint digits (s : string) (acc : Z) : option Z :=
  match s with
  | EmptyString => Some acc
  | String c r =>
      let n := nat_of_ascii c in
      if (48 <=? n)%nat && (n <=? 57)%nat
      then digits r (10 * acc + Z.of_nat (n - 48))
      else None
  end.

#[local] Instance pylib : PyLib :=
  {| urljoin := fun base ref => (origin 2 base ++ ref)%string;
     quote_plus := PyStr.replace_char " " "+";
     py_int := fun s => match s with
                        | EmptyString => None
                        | _ => digits s 0
                        end;
     PANDAS_AVAILABLE := false |}.

Definition site : Cfg :=
  mkCfg (Some "toy") (Some "https://site.example/search?q={q}")
        ["div.item"] [".title"] [".price"] [".rating"] ["a.next"].

(** The operator picks Flipkart, asks for shoes, and takes the
    defaults. *)
Definition answers (h : History) (p : Prompt) : reply string :=
  match p with
  | AskChoice => Returns " 1 "
  | AskKeyword => Returns "running shoes"
  | AskPages | AskHeadless => Returns ""
  end.

(** A world in which nothing fails: the page is always [page], the
    elements found for the next-page selector are [nexts], and [shown]
    says whether elements are displayed. *)
Definition calm (page : string) (nexts : list Elt) (shown : bool) : Env :=
  {| env_start_driver := fun _ _ => Returns tt;
     env_get := fun _ _ => Returns tt;
     env_page_source := fun _ => Returns page;
     env_find_elements := fun _ sel =>
       if (sel =? "a.next")%string then Returns nexts else Returns [];
     env_is_displayed := fun _ _ => Returns shown;
     env_click := fun _ _ => Returns tt;
     env_get_attribute := fun _ _ _ => Returns None;
     env_execute_script := fun _ _ => Returns tt;
     env_save_screenshot := fun _ _ => Returns tt;
     env_write_file := fun _ _ _ => Returns tt;
     env_sleep_interrupted := fun _ _ => false;
     env_quit := fun _ => Returns tt;
     env_input := answers;
     env_csv_open := fun _ _ => Returns tt;
     env_to_excel := fun _ _ _ => Returns tt |}.

(** A block interstitial that never clears and never mentions a
    container selector. *)
Definition walled : Env := calm "Please solve the CAPTCHA" [] true.

(** A listing whose only next-page control is hidden and has no
    [href]. *)
Definition single_page : Env := calm "<div.item> listing" [7] false.

(** Two next-page elements are found; clicking the first one fails and
    it has no [href], clicking the second one works. *)
Definition sticky_next : Env :=
  {| env_start_driver := fun _ _ => Returns tt;
     env_get := fun _ _ => Returns tt;
     env_page_source := fun _ => Returns "<div.item> listing";
     env_find_elements := fun _ sel =>
       if (sel =? "a.next")%string then Returns [1; 2] else Returns [];
     env_is_displayed := fun _ _ => Returns true;
     env_click := fun _ n =>
       if (n =? 1)%nat then Throws WebDriverException else Returns tt;
     env_get_attribute := fun _ _ _ => Returns None;
     env_execute_script := fun _ _ => Returns tt;
     env_save_screenshot := fun _ _ => Returns tt;
     env_write_file := fun _ _ _ => Returns tt;
     env_sleep_interrupted := fun _ _ => false;
     env_quit := fun _ => Returns tt;
     env_input := answers;
     env_csv_open := fun _ _ => Returns tt;
     env_to_excel := fun _ _ _ => Returns tt |}.

(** The browser dies right after the start: reading the page raises. *)
Definition crashed_browser : Env :=
  {| env_start_driver := fun _ _ => Returns tt;
     env_get := fun _ _ => Returns tt;
     env_page_source := fun _ => Throws WebDriverException;
     env_find_elements := fun _ _ => Returns [];
     env_is_displayed := fun _ _ => Returns true;
     env_click := fun _ _ => Returns tt;
     env_get_attribute := fun _ _ _ => Returns None;
     env_execute_script := fun _ _ => Returns tt;
     env_save_screenshot := fun _ _ => Returns tt;
     env_write_file := fun _ _ _ => Returns tt;
     env_sleep_interrupted := fun _ _ => false;
     env_quit := fun _ => Returns tt;
     env_input := answers;
     env_csv_open := fun _ _ => Returns tt;
     env_to_excel := fun _ _ _ => Returns tt |}.

(** The operator solves the CAPTCHA during the wait: the first two
    reads of the page show the wall, every later one the listing. *)
Definition solved_in_time : Env :=
  {| env_start_driver := fun _ _ => Returns tt;
     env_get := fun _ _ => Returns tt;
     env_page_source := fun h =>
       if (count (fun e => match e with Ev PageSource _ => true | _ => false end) h
           <? 2)%nat
       then Returns "Please solve the CAPTCHA"
       else Returns "<div.item> listing";
     env_find_elements := fun _ _ => Returns [];
     env_is_displayed := fun _ _ => Returns true;
     env_click := fun _ _ => Returns tt;
     env_get_attribute := fun _ _ _ => Returns None;
     env_execute_script := fun _ _ => Returns tt;
     env_save_screenshot := fun _ _ => Returns tt;
     env_write_file := fun _ _ _ => Returns tt;
     env_sleep_interrupted := fun _ _ => false;
     env_quit := fun _ => Returns tt;
     env_input := answers;
     env_csv_open := fun _ _ => Returns tt;
     env_to_excel := fun _ _ _ => Returns tt |}.

(** The wall stays, and the operator presses Ctrl+C during the second
    sleep. *)
Definition impatient_operator : Env :=
  {| env_start_driver := fun _ _ => Returns tt;
     env_get := fun _ _ => Returns tt;
     env_page_source := fun _ => Returns "Please solve the CAPTCHA";
     env_find_elements := fun _ _ => Returns [];
     env_is_displayed := fun _ _ => Returns true;
     env_click := fun _ _ => Returns tt;
     env_get_attribute := fun _ _ _ => Returns None;
     env_execute_script := fun _ _ => Returns tt;
     env_save_screenshot := fun _ _ => Returns tt;
     env_write_file := fun _ _ _ => Returns tt;
     env_sleep_interrupted := fun h _ => (1 <=? count is_sleep h)%nat;
     env_quit := fun _ => Returns tt;
     env_input := answers;
     env_csv_open := fun _ _ => Returns tt;
     env_to_excel := fun _ _ _ => Returns tt |}.

(** The first selector finds two elements, the second selector one.
    Clicking element 1 fails, and so does the navigation to its [href];
    the other elements can be clicked. *)
Definition broken_link : Env :=
  {| env_start_driver := fun _ _ => Returns tt;
     env_get := fun _ _ => Throws WebDriverException;
     env_page_source := fun _ => Returns "<div.item> listing";
     env_find_elements := fun _ sel =>
       if (sel =? "a.next")%string then Returns [1; 2]
       else if (sel =? "a.more")%string then Returns [3]
       else Returns [];
     env_is_displayed := fun _ _ => Returns true;
     env_click := fun _ n =>
       if (n =? 1)%nat then Throws WebDriverException else Returns tt;
     env_get_attribute := fun _ _ _ => Returns (Some "/page2");
     env_execute_script := fun _ _ => Returns tt;
     env_save_screenshot := fun _ _ => Returns tt;
     env_write_file := fun _ _ _ => Returns tt;
     env_sleep_interrupted := fun _ _ => false;
     env_quit := fun _ => Returns tt;
     env_input := answers;
     env_csv_open := fun _ _ => Returns tt;
     env_to_excel := fun _ _ _ => Returns tt |}.

End Toy.

(* ===================================================================== *)
(** ** Further observations and sample worlds *)
(* ===================================================================== *)

(** The events the popup cleanup can add. *)
Definition is_popup_event (e : Event) : bool :=
  match e with
  | Ev (FindElements _) _ | Ev (IsDisplayed _) _ | Ev (Click _) _
  | Ev (Sleep 400) _ | Ev (ExecuteScript DispatchEscape) _ => true
  | _ => false
  end.

Definition is_script (e : Event) : bool :=
  match e with
  | Ev (ExecuteScript _) _ => true
  | _ => false
  end.

(** Looking for elements without touching them. *)
Definition is_look_event (e : Event) : bool :=
  match e with
  | Ev (FindElements _) _ | Ev (IsDisplayed _) _ => true
  | _ => false
  end.

Definition is_quit (e : Event) : bool :=
  match e with
  | Ev Quit _ => true
  | _ => false
  end.

Definition is_start (e : Event) : bool :=
  match e with
  | Ev (StartDriver _) _ => true
  | _ => false
  end.

(** The events the body of the session's [try] can add: it does not
    start or quit the driver, ask the operator, or touch the sinks. *)
Definition is_body_event (e : Event) : bool :=
  match e with
  | Ev (StartDriver _) _ | Ev Quit _ | Ev (Input _) _
  | Ev (CsvOpen _) _ | Ev (CsvHeader _ _) _ | Ev (CsvRow _ _) _
  | Ev (ToExcel _ _) _
  | Ev (Print (Done _ _)) _ | Ev (Print (NoItems _)) _ => false
  | _ => true
  end.

(** No entry of the list equals a later one, as [Tag.__eq__] sees it. *)
Fixpoint distinct {MK : Markup} (l : list Node) : Prop :=
  match l with
  | [] => True
  | x :: r => (forall y, In y r -> tag_eqb x y = false) /\ distinct r
  end.

(** [BLOCK_INDICATORS] without ["please verify"]. *)
Definition indicators_without_please_verify : list string :=
  ["captcha"; "verify"; "are you human"; "access denied";
   "sign in"; "login"; "blocked"].

(** What [main] prints before it asks for the site. *)
Definition menu : History :=
  [Ev (Print (Text "==============================")) None;
   Ev (Print (Text "   INDIA MULTI-SITE SCRAPER (AUTO-RESUME SAFE)")) None;
   Ev (Print (Text "==============================")) None;
   Ev (Print (Text "Choose Website:")) None;
   Ev (Print (Text "1. Flipkart")) None;
   Ev (Print (Text "2. Amazon India")) None;
   Ev (Print (Text "3. Snapdeal")) None].

(** The line of line 346. *)
Definition examples_line : Event :=
  Ev (Print (Text "Example keywords: mobile, shoes, laptop, saree, watch, headphones, bags")) None.

(** The page budget [main] takes from the operator's answer. *)
Definition pages_of {PL : PyLib} (answer : string) : Z :=
  match py_int (or_default (PyStr.strip answer) "2") with
  | Some n => n
  | None => 2%Z
  end.

(** The browser mode [main] takes from the operator's answer. *)
Definition headless_of (answer : string) : bool :=
  (or_default (PyStr.lower (PyStr.strip answer)) "n" =? "y")%string.

(** [m] always returns: it neither raises nor runs out of fuel. *)
Definition returns {A} (m : M A) : Prop :=
  forall env h, exists a, fst (run m env h) = Ok a.

(** [m] never adds more than [n] events that satisfy [P]. *)
Definition at_most {A} (P : Event -> bool) (n : nat) (m : M A) : Prop :=
  forall env h, (count P (snd (run m env h)) <= n)%nat.

(** [".csv"] occurs in [name ++ ".csv"] at the end only. *)
Definition csv_only_at_end (name : string) : Prop :=
  forall pre post, (name ++ ".csv" = pre ++ ".csv" ++ post)%string -> post = "".

(** The first [next_button] selector always finds an element, and
    elements are always displayed. *)
Definition always_next (env : Env) (cfg : Cfg) : Prop :=
  (exists sel rest,
      cfg_next_button cfg = sel :: rest /\
      forall h, exists n ns, env_find_elements env h sel = Returns (n :: ns)) /\
  (forall h n, env_is_displayed env h n = Returns true).

Module Worlds.

(** As [Toy.calm], but the world is given piece by piece. *)
Definition world (page : History -> reply string)
                 (get_url : History -> string -> reply unit)
                 (shown : History -> Elt -> reply bool)
                 (href : option string)
                 (open_csv : reply unit)
                 (answer : History -> Prompt -> reply string) : Env :=
  {| env_start_driver := fun _ _ => Returns tt;
     env_get := get_url;
     env_page_source := page;
     env_find_elements := fun _ sel =>
       if (sel =? "a.next")%string then Returns [7] else Returns [];
     env_is_displayed := shown;
     env_click := fun _ _ => Returns tt;
     env_get_attribute := fun _ _ _ => Returns href;
     env_execute_script := fun _ _ => Returns tt;
     env_save_screenshot := fun _ _ => Returns tt;
     env_write_file := fun _ _ _ => Returns tt;
     env_sleep_interrupted := fun _ _ => false;
     env_quit := fun _ => Returns tt;
     env_input := answer;
     env_csv_open := fun _ _ => open_csv;
     env_to_excel := fun _ _ _ => Throws OtherError |}.

Definition listing_page : History -> reply string :=
  fun _ => Returns "<div.item> listing".

(** The first navigation times out; the page is there all the same. *)
Definition slow_site : Env :=
  world listing_page (fun _ _ => Throws WebDriverException)
        (fun _ _ => Returns false) None (Returns tt) Toy.answers.

(** The next-page link is in the page, with an [href], but not shown. *)
Definition hidden_link : Env :=
  world listing_page (fun _ _ => Returns tt)
        (fun _ _ => Returns false) (Some "https://site.example/page2")
        (Returns tt) Toy.answers.

(** The output file cannot be opened. *)
Definition read_only_disk : Env :=
  world listing_page (fun _ _ => Returns tt)
        (fun _ _ => Returns false) None (Throws OtherError) Toy.answers.

(** The operator picks a site that is not on the menu. *)
Definition wrong_choice : Env :=
  world listing_page (fun _ _ => Returns tt)
        (fun _ _ => Returns false) None (Returns tt)
        (fun _ _ => Returns "4").

(** The operator picks Snapdeal and gives no keyword. *)
Definition no_keyword : Env :=
  world listing_page (fun _ _ => Returns tt)
        (fun _ _ => Returns false) None (Returns tt)
        (fun _ p => match p with
                    | AskChoice => Returns "3"
                    | _ => Returns "   "
                    end).

(** The operator asks for "lots" of pages and answers "Y" to headless. *)
Definition vague_operator : Env :=
  world listing_page (fun _ _ => Returns tt)
        (fun _ _ => Returns false) None (Returns tt)
        (fun _ p => match p with
                    | AskChoice => Returns "2"
                    | AskKeyword => Returns " usb cable "
                    | AskPages => Returns "lots"
                    | AskHeadless => Returns " Y "
                    end).

(** The library of the miniature, with pandas installed. *)
Definition with_pandas : PyLib :=
  {| urljoin := urljoin (PyLib := Toy.pylib);
     quote_plus := quote_plus (PyLib := Toy.pylib);
     py_int := py_int (PyLib := Toy.pylib);
     PANDAS_AVAILABLE := true |}.

(** A listing that always has a working next-page link. *)
Definition endless : Env := Toy.calm "<div.item> listing" [7] true.

(** A profile without the [url] key. *)
Definition no_url : Cfg :=
  mkCfg (Some "toy") None ["div.item"] [".title"] [".price"] [".rating"] ["a.next"].

(** A profile without the [id] key. *)
Definition no_id : Cfg :=
  mkCfg None (Some "https://site.example/search?q={q}")
        ["div.item"] [".title"] [".price"] [".rating"] ["a.next"].

End Worlds.

(* ===================================================================== *)
(** * Properties *)
(* ===================================================================== *)

(** ** Strings *)

Lemma startswith_iff (s p : string) :
  PyStr.startswith s p = true <-> exists post, s = (p ++ post)%string.
Proof.
  revert s; induction p as [|a p IH]; intros s; simpl.
  - split; [intros _; exists s; reflexivity | reflexivity].
  - destruct s as [|b s].
    + split; [discriminate | intros [post H]; discriminate].
    + rewrite andb_true_iff, Ascii.eqb_eq, IH. split.
      * intros [-> [post ->]]. exists post. reflexivity.
      * intros [post H]. injection H as -> ->. split; eauto.
Qed.

Lemma contains_iff (p s : string) :
  PyStr.contains p s = true <-> PyStr.occurs_in p s.
Proof.
  unfold PyStr.occurs_in.
  induction s as [|c s IH].
  - simpl. rewrite orb_false_r, startswith_iff. split.
    + intros [post H]. exists EmptyString, post. exact H.
    + intros [pre [post H]]. destruct pre; simpl in H.
      * exists post. exact H.
      * discriminate.
  - cbn [PyStr.contains]. rewrite orb_true_iff, startswith_iff, IH. split.
    + intros [[post H] | [pre [post H]]].
      * exists EmptyString, post. exact H.
      * exists (String c pre), post. simpl. rewrite H. reflexivity.
    + intros [pre [post H]]. destruct pre as [|c' pre]; simpl in H.
      * left. exists post. exact H.
      * right. injection H as _ H. exists pre, post. exact H.
Qed.

Lemma startswith_double_slash (s : string) :
  PyStr.startswith s "//" = true -> PyStr.startswith s "/" = true.
Proof.
  rewrite !startswith_iff. intros [post ->]. exists (String "/" post).
  reflexivity.
Qed.

Lemma any_token_in_iff (tokens : list string) (low : string) :
  any_token_in tokens low = true <->
  exists token, In token tokens /\ PyStr.occurs_in token low.
Proof.
  induction tokens as [|tok rest IH]; simpl.
  - split; [discriminate | intros [t [[] _]]].
  - destruct (PyStr.contains tok low) eqn:E.
    + split; [intros _ | reflexivity].
      exists tok. split; [now left | now apply contains_iff].
    + rewrite IH. split.
      * intros [t [Hin Hocc]]. exists t. split; [now right | exact Hocc].
      * intros [t [[<- | Hin] Hocc]].
        -- apply contains_iff in Hocc. congruence.
        -- exists t. split; assumption.
Qed.

Lemma lower_empty (t : string) : PyStr.lower t = EmptyString -> t = EmptyString.
Proof. destruct t; simpl; [reflexivity | discriminate]. Qed.

Lemma looks_blocked_unfold (t : string) :
  looks_blocked (Some t) = any_token_in BLOCK_INDICATORS (PyStr.lower t).
Proof. destruct t; reflexivity. Qed.

(** ** Block detector *)

(** C7: [looks_blocked] answers true exactly when one of the
    [BLOCK_INDICATORS] occurs in the lowercased page text; it answers
    false for [None] and for the empty text; its answer depends on the
    text only through its lowercasing (case-insensitivity); and both
    sample sentences of the specification are detected. *)
Theorem looks_blocked_spec :
  (forall t, looks_blocked (Some t) = true <->
             exists token, In token BLOCK_INDICATORS /\
                           PyStr.occurs_in token (PyStr.lower t)) /\
  looks_blocked None = false /\
  looks_blocked (Some "") = false /\
  (forall t u, PyStr.lower t = PyStr.lower u ->
               looks_blocked (Some t) = looks_blocked (Some u)) /\
  looks_blocked (Some "Please Verify you are human") = true /\
  looks_blocked (Some "please verify you are human") = true.
Proof.
  repeat split; try reflexivity.
  - rewrite looks_blocked_unfold. apply any_token_in_iff.
  - rewrite looks_blocked_unfold. apply any_token_in_iff.
  - intros t u H. rewrite !looks_blocked_unfold, H. reflexivity.
Qed.

Lemma looks_blocked_spec_witness :
  PyStr.lower "ACCESS denied" = PyStr.lower "Access Denied" /\
  looks_blocked (Some "ACCESS denied") = looks_blocked (Some "Access Denied").
Proof.
  split; [reflexivity |].
  apply (proj1 (proj2 (proj2 (proj2 looks_blocked_spec)))). reflexivity.
Defined.

(** ** Extractor *)

Lemma truthy_iff (o : option string) :
  PyStr.truthy o = true <-> exists s, o = Some s /\ s <> "".
Proof.
  destruct o as [[|c s]|]; simpl; split; try discriminate.
  - intros [s [H Hne]]. injection H as <-. congruence.
  - intros _. eexists. split; [reflexivity | discriminate].
  - reflexivity.
  - intros [s [H _]]. discriminate.
Qed.

Section ExtractorFacts.
Context {MK : Markup} {PL : PyLib}.

Lemma record_of_block_fields (b : Node) (cfg : Cfg) (r : ProductRecord) :
  record_of_block b cfg = Some r ->
  product_name r = title_of (first_match b (cfg_name cfg)) /\
  price r = text_or_none (first_match b (cfg_price cfg)) /\
  rating r = text_or_none (first_match b (cfg_rating cfg)) /\
  product_url r = href_of b cfg /\
  (PyStr.truthy (product_name r) = true \/ PyStr.truthy (price r) = true).
Proof.
  unfold record_of_block.
  destruct (PyStr.truthy (title_of _) || PyStr.truthy (text_or_none _)) eqn:E;
    [| discriminate].
  intros H. injection H as <-. simpl.
  apply orb_true_iff in E. auto.
Qed.

Lemma items_of_blocks_from (blocks : list Node) (cfg : Cfg) (r : ProductRecord) :
  In r (items_of_blocks blocks cfg) ->
  exists b, In b blocks /\ record_of_block b cfg = Some r.
Proof.
  induction blocks as [|b rest IH]; simpl; [intros [] |].
  destruct (record_of_block b cfg) as [r0|] eqn:E.
  - intros [<- | Hin].
    + exists b. auto.
    + destruct (IH Hin) as [b' [Hb' Hr]]. exists b'. auto.
  - intros Hin. destruct (IH Hin) as [b' [Hb' Hr]]. exists b'. auto.
Qed.

Lemma parsed_has_text (html : string) (cfg : Cfg) :
  Forall has_text (parse_products_from_html html cfg).
Proof.
  apply Forall_forall. intros r Hin.
  apply items_of_blocks_from in Hin. destruct Hin as [b [_ Hr]].
  apply record_of_block_fields in Hr.
  destruct Hr as (_ & _ & _ & _ & [H | H]); apply truthy_iff in H;
    [left | right]; exact H.
Qed.

Lemma has_text_included (r : ProductRecord) : has_text r -> included r.
Proof.
  intros [[s [H _]] | [s [H _]]]; [left | right]; rewrite H; discriminate.
Qed.

End ExtractorFacts.

(** C3: every record [parse_products_from_html] returns has a
    [product_name] or a [price] that is not [None], and a container in
    which no name selector and no price selector matches appends no
    record. *)
Theorem inclusion_invariant {MK : Markup} {PL : PyLib} :
  (forall html cfg, Forall included (parse_products_from_html html cfg)) /\
  (forall b cfg,
      first_match b (cfg_name cfg) = None ->
      first_match b (cfg_price cfg) = None ->
      record_of_block b cfg = None).
Proof.
  split.
  - intros html cfg. eapply Forall_impl; [| apply parsed_has_text].
    intros r. apply has_text_included.
  - intros b cfg Hn Hp. unfold record_of_block. rewrite Hn, Hp. reflexivity.
Qed.

Lemma inclusion_invariant_witness :
  let bare := Toy.Elem "div" "item" [] "" [Toy.Elem "span" "rating" [] "4.5" []] in
  Forall included (parse_products_from_html (MK := Toy.markup) (PL := Toy.pylib)
                     "<div.item> listing" Toy.site) /\
  record_of_block (MK := Toy.markup) (PL := Toy.pylib) bare Toy.site = None.
Proof.
  split.
  - apply (proj1 (inclusion_invariant (MK := Toy.markup) (PL := Toy.pylib))).
  - apply (proj2 (inclusion_invariant (MK := Toy.markup) (PL := Toy.pylib)));
      reflexivity.
Defined.

(** C10: every record [parse_products_from_html] returns has a non-empty
    [product_name] or a non-empty [price]; a container whose matched name
    element has no usable title and the empty text, and in which no price
    selector matches, appends no record; and this invariant is strictly
    stronger than the not-[None] one. *)
Theorem truthiness_invariant {MK : Markup} {PL : PyLib} :
  (forall html cfg, Forall has_text (parse_products_from_html html cfg)) /\
  (forall b cfg el,
      first_match b (cfg_name cfg) = Some el ->
      PyStr.truthy (get el "title") = false ->
      get_text el = "" ->
      first_match b (cfg_price cfg) = None ->
      record_of_block b cfg = None) /\
  (forall r, has_text r -> included r) /\
  (exists r, included r /\ ~ has_text r).
Proof.
  split; [| split; [| split]].
  - apply parsed_has_text.
  - intros b cfg el Hn Ht Htxt Hp. unfold record_of_block.
    rewrite Hn, Hp. simpl. rewrite Ht, Htxt. reflexivity.
  - apply has_text_included.
  - exists (mkRecord (Some "") None None None). split.
    + left. discriminate.
    + intros [[s [H Hne]] | [s [H _]]]; simpl in H.
      * injection H as <-. congruence.
      * discriminate.
Qed.

Lemma truthiness_invariant_witness :
  record_of_block (MK := Toy.markup) (PL := Toy.pylib) Toy.item_blank Toy.site
  = None.
Proof.
  apply (proj1 (proj2 (truthiness_invariant (MK := Toy.markup) (PL := Toy.pylib)))
           Toy.item_blank Toy.site
           (Toy.Elem "span" "title" [("title", "")] "   " []));
    reflexivity.
Defined.

(** C6: for a container that yields a record and whose first anchor has
    an [href] (present and not empty, which is what line 167 tests): an
    [href] starting with [//] is emitted with [https:] in front; another
    one starting with [/] is emitted as [urljoin] resolves it against the
    URL template with [q] left empty; any other is emitted unchanged. *)
Theorem product_url_resolution {MK : Markup} {PL : PyLib}
    (b : Node) (cfg : Cfg) (a : Node) (href : string) (r : ProductRecord) :
  select_one b "a" = Some a ->
  get a "href" = Some href ->
  href <> "" ->
  record_of_block b cfg = Some r ->
  (PyStr.startswith href "//" = true ->
     product_url r = Some ("https:" ++ href)%string) /\
  (PyStr.startswith href "//" = false -> PyStr.startswith href "/" = true ->
     product_url r = Some (urljoin (base_url cfg) href)) /\
  (PyStr.startswith href "/" = false ->
     product_url r = Some href).
Proof.
  intros Ha Hh Hne Hr.
  apply record_of_block_fields in Hr. destruct Hr as (_ & _ & _ & Hu & _).
  rewrite Hu. unfold href_of. rewrite Ha, Hh.
  destruct href as [|c href]; [congruence |]. cbn [PyStr.truthy].
  unfold absolute_href, base_url.
  repeat split.
  - intros ->. reflexivity.
  - intros -> ->. reflexivity.
  - intros H.
    destruct (PyStr.startswith (String c href) "//") eqn:E.
    + apply startswith_double_slash in E. congruence.
    + rewrite H. reflexivity.
Qed.

Lemma product_url_resolution_witness :
  product_url (mkRecord (Some "Shoe B") None None
                        (Some "https://site.example/p/shoe-b"))
  = Some "https://site.example/p/shoe-b".
Proof.
  exact (proj1 (proj2
           (product_url_resolution (MK := Toy.markup) (PL := Toy.pylib)
              Toy.item_b Toy.site
              (Toy.Elem "a" "" [("href", "/p/shoe-b")] "" [])
              "/p/shoe-b"
              (mkRecord (Some "Shoe B") None None
                        (Some "https://site.example/p/shoe-b"))
              eq_refl eq_refl ltac:(discriminate) eq_refl))
           eq_refl eq_refl).
Defined.

(** Without a usable [href] (no anchor, no attribute, or an empty one)
    the record carries no URL. *)
Lemma product_url_without_href {MK : Markup} {PL : PyLib}
    (b : Node) (cfg : Cfg) (r : ProductRecord) :
  match select_one b "a" with
  | Some a => PyStr.truthy (get a "href") = false
  | None => True
  end ->
  record_of_block b cfg = Some r ->
  product_url r = None.
Proof.
  intros H Hr. apply record_of_block_fields in Hr.
  destruct Hr as (_ & _ & _ & Hu & _). rewrite Hu. unfold href_of.
  destruct (select_one b "a"); [rewrite H |]; reflexivity.
Qed.

(** The URL rules on the samples of the specification, for any profile. *)
Example absolute_href_samples {PL : PyLib} (cfg : Cfg) :
  absolute_href cfg "//x/y" = "https://x/y" /\
  absolute_href cfg "/x/y" = urljoin (base_url cfg) "/x/y" /\
  absolute_href cfg "https://site.example/x/y" = "https://site.example/x/y".
Proof. repeat split. Qed.

(** The bases of the three configured profiles. *)
Example configured_bases :
  map base_url [flipkart; amazon_in; snapdeal]
  = ["https://www.flipkart.com/search?q=";
     "https://www.amazon.in/s?k=";
     "https://www.snapdeal.com/search?keyword="].
Proof. reflexivity. Qed.

(** The three sample anchors of the miniature listing. *)
Example toy_listing_urls :
  map product_url (parse_products_from_html (MK := Toy.markup) (PL := Toy.pylib)
                     "<div.item> listing" Toy.site)
  = [Some "https://cdn.example/shoe-a";
     Some "https://site.example/p/shoe-b";
     Some "https://other.example/c"].
Proof. reflexivity. Qed.

(** ** The monad *)

Local Open Scope monad_scope.

Lemma run_bind {A B} (m : M A) (k : A -> M B) (env : Env) (h : History) :
  run (bind m k) env h =
  match run m env h with
  | (Ok a, t) => let (r, t') := run (k a) env (h ++ t) in (r, t ++ t')
  | (Raise e, t) => (Raise e, t)
  | (OutOfFuel, t) => (OutOfFuel, t)
  end.
Proof. reflexivity. Qed.

Lemma run_bind_ok {A B} (m : M A) (k : A -> M B) env h a t :
  run m env h = (Ok a, t) ->
  run (bind m k) env h = (fst (run (k a) env (h ++ t)), t ++ snd (run (k a) env (h ++ t))).
Proof.
  intros H. rewrite run_bind, H. destruct (run (k a) env (h ++ t)). reflexivity.
Qed.

Lemma run_bind_raise {A B} (m : M A) (k : A -> M B) env h e t :
  run m env h = (Raise e, t) -> run (bind m k) env h = (Raise e, t).
Proof. intros H. rewrite run_bind, H. reflexivity. Qed.

Lemma run_emit (c : Call) env h : run (emit c) env h = (Ok tt, [Ev c None]).
Proof. reflexivity. Qed.

Lemma run_release_driver env h :
  run release_driver env h = (Ok tt, [Ev Quit (raised_of (env_quit env h))]).
Proof.
  unfold release_driver, try_except, driver_quit, call, run.
  destruct (env_quit env h) as [[]|e]; reflexivity.
Qed.

Lemma run_try_finally_release {A} (m : M A) env h (r : outcome A) t :
  run m env h = (r, t) ->
  r <> OutOfFuel ->
  run (try_finally m release_driver) env h
  = (r, t ++ [Ev Quit (raised_of (env_quit env (h ++ t)))]).
Proof.
  intros Hm Hr. pose proof (run_release_driver env (h ++ t)) as Hq.
  unfold run, try_finally in *. rewrite Hm, Hq.
  destruct r; [reflexivity | reflexivity | congruence].
Qed.

Lemma count_app p (t u : History) : count p (t ++ u) = (count p t + count p u)%nat.
Proof. unfold count. rewrite filter_app, length_app. reflexivity. Qed.

Lemma slept_app (t u : History) : (slept (t ++ u) = slept t + slept u)%Z.
Proof.
  induction t as [|[c q] t IH]; simpl; [reflexivity |].
  destruct c; rewrite IH; lia.
Qed.

(** ** Still blocked after the wait *)

Section SessionFacts.
Context {MK : Markup} {PL : PyLib}.

(** The run of a session whose re-check at line 250 finds the page still
    blocked. *)
Lemma session_still_blocked
    (fuel : nat) (env : Env) (keyword : string) (cfg : Cfg) (pages : Z)
    (headless : bool) (manual_timeout : Z) (h0 t1 t2 : History) (src : string) :
  let h1 := h0 ++ [Ev (StartDriver headless) None] in
  env_start_driver env h0 headless = Returns tt ->
  run (navigate_and_detect keyword cfg) env h1 = (Ok true, t1) ->
  run (await_human fuel keyword cfg manual_timeout) env (h1 ++ t1) = (Ok tt, t2) ->
  env_page_source env ((h1 ++ t1) ++ t2) = Returns src ->
  looks_blocked (Some src) = true ->
  exists q,
    run (scrape_keyword_on_site_auto_resume fuel keyword cfg pages headless
                                            manual_timeout) env h0
    = (Ok [], Ev (StartDriver headless) None :: t1 ++ t2 ++
              [Ev PageSource None; Ev (Log ERROR MsgStillBlocked) None;
               Ev Quit q]).
Proof.
  intros h1 Hstart Hnav Hwait Hsrc Hblocked.
  assert (Hre : run recheck env ((h1 ++ t1) ++ t2)
                = (Ok true, [Ev PageSource None; Ev (Log ERROR MsgStillBlocked) None])).
  { unfold recheck, run, bind, page_source, call. rewrite Hsrc. simpl.
    rewrite Hblocked. reflexivity. }
  assert (Hbody : run (session_body fuel keyword cfg pages manual_timeout) env h1
                  = (Ok [], t1 ++ t2 ++
                            [Ev PageSource None; Ev (Log ERROR MsgStillBlocked) None])).
  { unfold session_body.
    rewrite (run_bind_ok _ _ _ _ _ _ Hnav).
    rewrite (run_bind_ok _ _ _ _ true
               (t2 ++ [Ev PageSource None; Ev (Log ERROR MsgStillBlocked) None])).
    - simpl. rewrite !app_nil_r. reflexivity.
    - rewrite (run_bind_ok _ _ _ _ _ _ Hwait), Hre. reflexivity. }
  eexists.
  unfold scrape_keyword_on_site_auto_resume.
  rewrite (run_bind_ok _ _ _ _ tt [Ev (StartDriver headless) None]).
  - cbv beta. fold h1.
    rewrite (run_try_finally_release _ _ _ _ _ Hbody) by discriminate.
    simpl. rewrite <- !app_assoc. reflexivity.
  - unfold start_driver, call, run. rewrite Hstart. reflexivity.
Qed.

End SessionFacts.

(** ** The wait for the human *)

Lemma ticks_left_done (T waited : Z) :
  (waited <? T)%Z = false -> ticks_left T waited = O.
Proof.
  intros H. apply Z.ltb_ge in H. unfold ticks_left.
  assert ((T - waited + 1) / 2 <= 0)%Z.
  { apply Z.lt_succ_r. apply Z.div_lt_upper_bound; lia. }
  lia.
Qed.

Lemma ticks_left_step (T waited : Z) :
  (waited <? T)%Z = true ->
  ticks_left T waited = S (ticks_left T (waited + 2)).
Proof.
  intros H. apply Z.ltb_lt in H. unfold ticks_left.
  replace (T - waited + 1)%Z with ((T - (waited + 2) + 1) + 1 * 2)%Z by lia.
  rewrite Z.div_add by lia.
  assert (0 <= (T - (waited + 2) + 1) / 2)%Z.
  { apply Z.div_pos; lia. }
  lia.
Qed.


Lemma run_selector_text_found (psels : list string) (src : string) env h :
  run (selector_text_found psels src) env h =
  if existsb (fun psel => PyStr.contains psel src) psels
  then (Ok true, [Ev (Log INFO MsgDetected) None])
  else (Ok false, []).
Proof.
  induction psels as [|psel rest IH]; simpl; [reflexivity |].
  destruct (PyStr.contains psel src); [reflexivity | exact IH].
Qed.

Section WaitFacts.
Variables (env : Env) (cfg : Cfg) (T : Z).

Let has_selector_text (src : string) : bool :=
  existsb (fun psel => PyStr.contains psel src) (cfg_product_block cfg).

(** One tick of the poll loop. *)
Lemma poll_loop_step (fuel : nat) (waited : Z) (h : History) :
  (waited <? T)%Z = true ->
  run (poll_loop (S fuel) cfg T waited) env h =
  if env_sleep_interrupted env h 2000
  then (Raise KeyboardInterrupt, [Ev (Sleep 2000) (Some KeyboardInterrupt)])
  else match env_page_source env (h ++ [Ev (Sleep 2000) None]) with
       | Throws e => (Raise e, [Ev (Sleep 2000) None; Ev PageSource (Some e)])
       | Returns src =>
           if has_selector_text src
           then (Ok tt, [Ev (Sleep 2000) None; Ev PageSource None;
                         Ev (Log INFO MsgDetected) None])
           else let (r, t) := run (poll_loop fuel cfg T (waited + 2)) env
                                  (h ++ [Ev (Sleep 2000) None; Ev PageSource None]) in
                (r, Ev (Sleep 2000) None :: Ev PageSource None :: t)
       end.
Proof.
  intros E. cbn [poll_loop]. rewrite E.
  rewrite run_bind. unfold sleep at 1, call at 1, run at 1.
  destruct (env_sleep_interrupted env h 2000); [reflexivity |].
  cbn [raised_of]. rewrite run_bind.
  unfold page_source at 1, call at 1, run at 1.
  destruct (env_page_source env (h ++ [Ev (Sleep 2000) None])) as [src|e];
    [| reflexivity].
  cbn [raised_of]. rewrite run_bind, run_selector_text_found.
  fold (has_selector_text src).
  destruct (has_selector_text src); [reflexivity |].
  rewrite app_nil_r, <- app_assoc. cbn [app].
  destruct (run (poll_loop fuel cfg T (waited + 2)) env _) as [r t].
  reflexivity.
Qed.

Lemma poll_loop_stop (fuel : nat) (waited : Z) (h : History) :
  (waited <? T)%Z = false ->
  run (poll_loop (S fuel) cfg T waited) env h = (Ok tt, []).
Proof. intros E. cbn [poll_loop]. rewrite E. reflexivity. Qed.

Lemma has_selector_text_occurs (src : string) :
  has_selector_text src = true ->
  exists psel, In psel (cfg_product_block cfg) /\ PyStr.occurs_in psel src.
Proof.
  unfold has_selector_text. rewrite existsb_exists.
  intros [psel [Hin Hc]]. exists psel. split; [exact Hin |].
  apply contains_iff. exact Hc.
Qed.

(** The poll loop ends within [ticks_left] ticks, whatever the world
    answers, and says why. *)
Lemma poll_loop_total :
  forall (n : nat) (waited : Z) (h : History),
    ticks_left T waited = n ->
    exists r t,
      r <> OutOfFuel /\
      (forall fuel, (n < fuel)%nat ->
                    run (poll_loop fuel cfg T waited) env h = (r, t)) /\
      forallb is_poll_event t = true /\
      (count is_sleep t <= n)%nat /\
      (r = Ok tt ->
       count is_sleep t = n \/
       exists t0 src psel,
         t = t0 ++ [Ev PageSource None; Ev (Log INFO MsgDetected) None] /\
         env_page_source env (h ++ t0) = Returns src /\
         In psel (cfg_product_block cfg) /\
         PyStr.occurs_in psel src) /\
      (forall e, r = Raise e -> exists t0 c, t = t0 ++ [Ev c (Some e)]).
Proof.
  induction n as [|n IH]; intros waited h Hn.
  - destruct (waited <? T)%Z eqn:E;
      [rewrite ticks_left_step in Hn by exact E; discriminate |].
    exists (Ok tt), []. repeat split; try discriminate; auto.
    intros [|fuel] Hf; [lia |]. apply poll_loop_stop. exact E.
  - destruct (waited <? T)%Z eqn:E;
      [| rewrite ticks_left_done in Hn by exact E; discriminate].
    rewrite ticks_left_step in Hn by exact E. injection Hn as Hn.
    destruct (env_sleep_interrupted env h 2000) eqn:Es.
    { exists (Raise KeyboardInterrupt), [Ev (Sleep 2000) (Some KeyboardInterrupt)].
      repeat split; try discriminate.
      - intros [|fuel] Hf; [lia |]. rewrite poll_loop_step, Es by exact E.
        reflexivity.
      - cbn. lia.
      - intros e He. injection He as <-. exists [], (Sleep 2000). reflexivity. }
    destruct (env_page_source env (h ++ [Ev (Sleep 2000) None])) as [src|e] eqn:Ep.
    2:{ exists (Raise e), [Ev (Sleep 2000) None; Ev PageSource (Some e)].
        repeat split; try discriminate.
        - intros [|fuel] Hf; [lia |]. rewrite poll_loop_step, Es, Ep by exact E.
          reflexivity.
        - cbn. lia.
        - intros e' He. injection He as <-.
          exists [Ev (Sleep 2000) None], PageSource. reflexivity. }
    destruct (has_selector_text src) eqn:Ex.
    { exists (Ok tt), [Ev (Sleep 2000) None; Ev PageSource None;
                       Ev (Log INFO MsgDetected) None].
      repeat split; try discriminate.
      - intros [|fuel] Hf; [lia |].
        rewrite poll_loop_step, Es, Ep, Ex by exact E. reflexivity.
      - cbn. lia.
      - intros _. right.
        destruct (has_selector_text_occurs src Ex) as [psel [Hin Hocc]].
        exists [Ev (Sleep 2000) None], src, psel. auto. }
    destruct (IH (waited + 2)%Z (h ++ [Ev (Sleep 2000) None; Ev PageSource None]) Hn)
      as (r & t & Hr & Hrun & Hev & Hcnt & Hok & Hraise).
    exists r, (Ev (Sleep 2000) None :: Ev PageSource None :: t).
    repeat split.
    + exact Hr.
    + intros [|fuel] Hf; [lia |].
      rewrite poll_loop_step, Es, Ep, Ex by exact E.
      rewrite Hrun by lia. reflexivity.
    + cbn. exact Hev.
    + unfold count in *. cbn. lia.
    + intros Hrok. destruct (Hok Hrok) as [Hc | (t0 & src' & psel & Ht & Hp & Hin & Hocc)].
      * left. unfold count in *. cbn. lia.
      * right. exists (Ev (Sleep 2000) None :: Ev PageSource None :: t0), src', psel.
        repeat split; auto.
        -- rewrite Ht. reflexivity.
        -- rewrite <- Hp. f_equal. rewrite <- app_assoc. reflexivity.
    + intros e He. destruct (Hraise e He) as (t0 & c & Ht).
      exists (Ev (Sleep 2000) None :: Ev PageSource None :: t0), c.
      rewrite Ht. reflexivity.
Qed.



End WaitFacts.

(** One pass of the [while True] of line 220. *)
Lemma resume_wait_step (env : Env) (cfg : Cfg) (T : Z) (fuel : nat) (h : History) :
  run (resume_wait (S fuel) cfg T) env h =
  let (r, t) := run (poll_loop fuel cfg T 0) env (h ++ [press_enter]) in
  match r with
  | Ok _ => (Ok tt, press_enter :: t)
  | Raise e =>
      if is_KeyboardInterrupt e
      then (Ok tt, press_enter :: t ++ [Ev (Log INFO MsgInterrupted) None])
      else (Raise e, press_enter :: t)
  | OutOfFuel => (OutOfFuel, press_enter :: t)
  end.
Proof.
  cbn [resume_wait]. rewrite run_bind.
  unfold try_except at 1, run at 1.
  change (bind (print ?m) ?k env h) with (run (bind (print m) k) env h).
  rewrite run_bind. unfold print at 1. rewrite run_emit. fold press_enter.
  rewrite run_bind.
  destruct (run (poll_loop fuel cfg T 0) env (h ++ [press_enter])) as [[[]|e|] t];
    cbn [run ret app].
  - rewrite !app_nil_r. reflexivity.
  - destruct (is_KeyboardInterrupt e); cbn; [| reflexivity].
    rewrite !app_nil_r. reflexivity.
  - reflexivity.
Qed.

Lemma is_poll_wait_event (t : History) :
  forallb is_poll_event t = true -> forallb is_wait_event t = true.
Proof.
  rewrite !forallb_forall. intros H e He. specialize (H e He).
  destruct e as [[] [e|]]; try discriminate; try exact H;
    cbn in H |- *; try exact H;
    match goal with
    | l : Level, m : LogMsg |- _ => destruct l, m; try discriminate; reflexivity
    end.
Qed.

Lemma count_snoc_other p (t : History) (e : Event) :
  p e = false -> count p (t ++ [e]) = count p t.
Proof. intros H. rewrite count_app. unfold count. cbn. rewrite H. cbn. lia. Qed.

(** The wait ends, whatever the world answers, within the ticks that
    reach the ceiling, and says why. *)
Lemma resume_wait_total (env : Env) (cfg : Cfg) (T : Z) (h : History) :
  exists r t,
    r <> OutOfFuel /\
    (forall fuel, (S (ticks_to_ceiling T) < fuel)%nat ->
                  run (resume_wait fuel cfg T) env h = (r, t)) /\
    forallb is_wait_event t = true /\
    (count is_sleep t <= ticks_to_ceiling T)%nat /\
    (r = Ok tt -> wait_exit_reason env cfg T h t) /\
    (forall e, r = Raise e ->
               e <> KeyboardInterrupt /\ exists t0 c, t = t0 ++ [Ev c (Some e)]).
Proof.
  destruct (poll_loop_total env cfg T (ticks_to_ceiling T) 0 (h ++ [press_enter])
              eq_refl)
    as (r & t & Hr & Hrun & Hev & Hcnt & Hok & Hraise).
  apply is_poll_wait_event in Hev.
  destruct r as [[]|e|]; [| | congruence].
  - exists (Ok tt), (press_enter :: t). repeat split; try discriminate.
    + intros [|fuel] Hf; [lia |]. rewrite resume_wait_step, Hrun by lia.
      reflexivity.
    + exact Hev.
    + exact Hcnt.
    + intros _. destruct (Hok eq_refl) as [Hc | (t0 & src & psel & Ht & Hp & Hin & Hocc)].
      * left. exact Hc.
      * right. left. exists (press_enter :: t0), src, psel.
        repeat split; auto.
        -- rewrite Ht. reflexivity.
        -- rewrite <- Hp. f_equal. rewrite <- app_assoc. reflexivity.
  - destruct (is_KeyboardInterrupt e) eqn:Ek.
    + exists (Ok tt), (press_enter :: t ++ [Ev (Log INFO MsgInterrupted) None]).
      repeat split; try discriminate.
      * intros [|fuel] Hf; [lia |]. rewrite resume_wait_step, Hrun, Ek by lia.
        reflexivity.
      * cbn [forallb is_wait_event is_poll_event press_enter andb].
        rewrite forallb_app, Hev. reflexivity.
      * change (count is_sleep (press_enter :: t ++ [Ev (Log INFO MsgInterrupted) None]))
          with (count is_sleep (t ++ [Ev (Log INFO MsgInterrupted) None])).
        rewrite count_snoc_other by reflexivity. exact Hcnt.
      * intros _. right. right.
        destruct (Hraise e eq_refl) as (t0 & c & Ht).
        destruct e; try discriminate.
        exists (press_enter :: t0), c. rewrite Ht, <- app_assoc. reflexivity.
    + exists (Raise e), (press_enter :: t). repeat split; try discriminate.
      * intros [|fuel] Hf; [lia |]. rewrite resume_wait_step, Hrun, Ek by lia.
        reflexivity.
      * exact Hev.
      * exact Hcnt.
      * injection H as <-. intros ->. discriminate.
      * injection H as <-.
        destruct (Hraise e eq_refl) as (t0 & c & Ht).
        exists (press_enter :: t0), c. rewrite Ht. reflexivity.
Qed.





(** ** A wall that never clears *)

Section Walled.
Context {MK : Markup} {PL : PyLib}.
Variables (env : Env) (cfg : Cfg).
Hypothesis NF : never_fails env.

Lemma run_sleep_nf (ms : Z) (h : History) :
  run (sleep ms) env h = (Ok tt, [Ev (Sleep ms) None]).
Proof. unfold sleep, call, run. rewrite (nf_sleep env NF). reflexivity. Qed.

Lemma run_scroll_steps_nf (n steps : nat) (pause : Z) (h : History) :
  run (scroll_steps n steps pause) env h = (Ok tt, scroll_trace n steps pause).
Proof.
  revert h. induction n as [|n IH]; intros h; [reflexivity |].
  cbn [scroll_steps scroll_trace].
  rewrite (run_bind_ok _ _ _ _ tt [Ev (ExecuteScript (ScrollBy steps)) None])
    by (unfold execute_script, call, run; rewrite (nf_script env NF); reflexivity).
  rewrite (run_bind_ok _ _ _ _ _ _ (run_sleep_nf pause _)).
  rewrite IH. reflexivity.
Qed.

Lemma run_gradual_scroll_nf (steps : nat) (pause : Z) (h : History) :
  run (gradual_scroll steps pause) env h = (Ok tt, scroll_trace steps steps pause).
Proof.
  pose proof (run_scroll_steps_nf steps steps pause h) as H.
  unfold gradual_scroll, try_except, run in *. rewrite H. reflexivity.
Qed.

Lemma slept_scroll_trace (n steps : nat) (pause : Z) :
  slept (scroll_trace n steps pause) = (Z.of_nat n * pause)%Z.
Proof. induction n as [|n IH]; [reflexivity |]. cbn [scroll_trace slept]. lia. Qed.

Lemma no_extraction_scroll_trace (n steps : nat) (pause : Z) :
  count is_page_extraction (scroll_trace n steps pause) = O.
Proof. induction n as [|n IH]; [reflexivity | exact IH]. Qed.

(** The popup loop clicks at most one button. *)
Lemma run_close_buttons_nf (btns : list Elt) (h : History) :
  exists r t, run (close_buttons btns) env h = (Ok r, t) /\
              (0 <= slept t <= 400)%Z /\ count is_page_extraction t = O.
Proof.
  revert h. induction btns as [|b rest IH]; intros h.
  - exists false, []. repeat split; cbn; lia.
  - cbn [close_buttons]. rewrite run_bind.
    unfold try_except at 1, run at 1.
    change (bind (is_displayed b) ?k env h) with (run (bind (is_displayed b) k) env h).
    rewrite run_bind. unfold is_displayed at 1, call at 1, run at 1.
    destruct (nf_shown env NF h b) as [shown ->]. cbn [raised_of].
    destruct shown.
    + rewrite (run_bind_ok _ _ _ _ tt [Ev (Click b) None])
        by (unfold click, call, run; rewrite (nf_click env NF); reflexivity).
      rewrite (run_bind_ok _ _ _ _ _ _ (run_sleep_nf 400 _)).
      cbn. exists true. eexists. split; [reflexivity |]. cbn. split; [lia | reflexivity].
    + cbn [run ret app]. destruct (IH ((h ++ [Ev (IsDisplayed b) None]))) as (r & t & Hrun & Hs & Hc).
      unfold run in Hrun. rewrite Hrun. exists r. eexists. split; [reflexivity |].
      split; [exact Hs | exact Hc].
Qed.

Lemma run_close_login_popup_nf (h : History) :
  exists t, run close_login_popup_best_effort env h = (Ok tt, t) /\
            (0 <= slept t <= 400)%Z /\ count is_page_extraction t = O.
Proof.
  unfold close_login_popup_best_effort. rewrite run_bind.
  unfold try_except at 1, run at 1.
  change (bind (find_elements ?s) ?k env h) with (run (bind (find_elements s) k) env h).
  rewrite run_bind. unfold find_elements at 1, call at 1, run at 1.
  destruct (nf_find env NF h "button._2KpZ6l._2doB4z") as [btns ->]. cbn [raised_of].
  destruct (run_close_buttons_nf btns (h ++ [Ev (FindElements "button._2KpZ6l._2doB4z") None]))
    as (r & t & Hrun & Hs & Hc).
  rewrite Hrun. destruct r.
  - eexists. split; [reflexivity |]. rewrite app_nil_r.
    change (Ev ?c None :: t) with ([Ev c None] ++ t).
    rewrite slept_app, count_app, Hc. cbn. split; [lia | reflexivity].
  - unfold try_except, execute_script, call, run.
    rewrite (nf_script env NF). cbn [raised_of].
    eexists. split; [reflexivity |].
    rewrite !slept_app, !count_app, Hc. cbn. split; [lia | reflexivity].
Qed.

End Walled.

Lemma run_try_except_ok {A} (m : M A) catches handler env h (a : A) t :
  run m env h = (Ok a, t) -> run (try_except m catches handler) env h = (Ok a, t).
Proof. unfold try_except, run. intros ->. reflexivity. Qed.

Lemma slept_idle_ticks (n : nat) : slept (idle_ticks n) = (2000 * Z.of_nat n)%Z.
Proof. induction n as [|n IH]; [reflexivity |]. cbn [idle_ticks slept]. lia. Qed.

Lemma no_extraction_idle_ticks (n : nat) :
  count is_page_extraction (idle_ticks n) = O.
Proof. induction n as [|n IH]; [reflexivity | exact IH]. Qed.

Section WalledSession.
Context {MK : Markup} {PL : PyLib}.
Variables (env : Env) (cfg : Cfg).
Hypothesis NF : never_fails env.
Hypothesis WALL : stays_walled env cfg.

Lemma run_page_source_walled (h : History) :
  exists src, env_page_source env h = Returns src /\
              run page_source env h = (Ok src, [Ev PageSource None]) /\
              looks_blocked (Some src) = true /\
              existsb (fun psel => PyStr.contains psel src) (cfg_product_block cfg)
              = false.
Proof.
  destruct (nf_page env NF h) as [src Hsrc]. exists src.
  destruct (WALL h src Hsrc) as [Hb Hn].
  repeat split; auto.
  - unfold page_source, call, run. rewrite Hsrc. reflexivity.
  - destruct (existsb _ _) eqn:E; [| reflexivity].
    apply existsb_exists in E. destruct E as [psel [Hin Hc]].
    rewrite (Hn psel Hin) in Hc. discriminate.
Qed.

(** With the wall up, the poll loop runs all its ticks. *)
Lemma poll_loop_walled (T : Z) :
  forall (n : nat) (waited : Z) (h : History) (fuel : nat),
    ticks_left T waited = n -> (n < fuel)%nat ->
    run (poll_loop fuel cfg T waited) env h = (Ok tt, idle_ticks n).
Proof.
  induction n as [|n IH]; intros waited h [|fuel] Hn Hf; try lia.
  - destruct (waited <? T)%Z eqn:E;
      [rewrite ticks_left_step in Hn by exact E; discriminate |].
    apply poll_loop_stop. exact E.
  - destruct (waited <? T)%Z eqn:E;
      [| rewrite ticks_left_done in Hn by exact E; discriminate].
    rewrite ticks_left_step in Hn by exact E. injection Hn as Hn.
    rewrite poll_loop_step by exact E. rewrite (nf_sleep env NF).
    destruct (run_page_source_walled (h ++ [Ev (Sleep 2000) None]))
      as (src & -> & _ & _ & ->).
    rewrite (IH (waited + 2)%Z _ fuel Hn) by lia. reflexivity.
Qed.

Lemma resume_wait_walled (T : Z) (h : History) (fuel : nat) :
  (S (ticks_to_ceiling T) < fuel)%nat ->
  run (resume_wait fuel cfg T) env h
  = (Ok tt, press_enter :: idle_ticks (ticks_to_ceiling T)).
Proof.
  destruct fuel as [|fuel]; [lia |]. intros Hf.
  rewrite resume_wait_step.
  rewrite (poll_loop_walled T (ticks_to_ceiling T) 0 _ fuel eq_refl) by lia.
  reflexivity.
Qed.

Lemma run_save_debug_files_nf (prefix : string) (h : History) :
  exists t, run (save_debug_files prefix) env h = (Ok tt, t) /\
            slept t = 0%Z /\ count is_page_extraction t = O.
Proof.
  destruct (nf_page env NF h) as [src Hsrc].
  exists [Ev PageSource None; Ev (WriteFile (prefix ++ ".html") src) None;
          Ev (SaveScreenshot (prefix ++ ".png")) None;
          Ev (Log INFO (MsgSavedDebug prefix)) None].
  split; [| split; reflexivity].
  unfold save_debug_files. apply run_try_except_ok.
  rewrite (run_bind_ok _ _ _ _ src [Ev PageSource None])
    by (unfold page_source, call, run; rewrite Hsrc; reflexivity).
  rewrite (run_bind_ok _ _ _ _ tt [Ev (WriteFile (prefix ++ ".html") src) None])
    by (unfold write_file, call, run; rewrite (nf_write env NF); reflexivity).
  rewrite (run_bind_ok _ _ _ _ tt [Ev (SaveScreenshot (prefix ++ ".png")) None])
    by (unfold save_screenshot, call, run; rewrite (nf_shot env NF); reflexivity).
  reflexivity.
Qed.

Lemma await_human_walled (keyword : string) (T : Z) (h : History) (fuel : nat) :
  (S (ticks_to_ceiling T) < fuel)%nat ->
  exists t, run (await_human fuel keyword cfg T) env h = (Ok tt, t) /\
            slept t = (2000 * Z.of_nat (ticks_to_ceiling T))%Z /\
            count is_page_extraction t = O.
Proof.
  intros Hf. unfold await_human, log, print.
  rewrite (run_bind_ok _ _ _ _ _ _ (run_emit _ _ _)).
  destruct (run_save_debug_files_nf (debug_prefix keyword cfg)
              (h ++ [Ev (Log WARNING MsgBlocked) None])) as (td & Hd & Hds & Hdc).
  rewrite (run_bind_ok _ _ _ _ _ _ Hd).
  do 4 rewrite (run_bind_ok _ _ _ _ _ _ (run_emit _ _ _)).
  rewrite resume_wait_walled by exact Hf.
  eexists. split; [reflexivity |].
  cbn [fst snd]. rewrite !slept_app, !count_app, Hds, Hdc.
  change (press_enter :: ?t) with ([press_enter] ++ t).
  rewrite slept_app, count_app, slept_idle_ticks, no_extraction_idle_ticks.
  split; reflexivity.
Qed.

Lemma navigate_and_detect_walled (keyword : string) (h : History) :
  cfg_url cfg <> None ->
  exists t, run (navigate_and_detect keyword cfg) env h = (Ok true, t) /\
            (0 <= slept t <= 5800)%Z /\ count is_page_extraction t = O.
Proof.
  intros Hurl. unfold navigate_and_detect.
  destruct (cfg_url cfg) as [u|]; [| congruence].
  rewrite (run_bind_ok _ _ _ _ u []) by reflexivity.
  unfold log.
  rewrite (run_bind_ok _ _ _ _ _ _ (run_emit _ _ _)).
  rewrite (run_bind_ok _ _ _ _ tt
             [Ev (Get (PyStr.format_q u (quote_plus keyword))) None])
    by (apply run_try_except_ok; unfold driver_get, call, run;
        rewrite (nf_get env NF); reflexivity).
  rewrite (run_bind_ok _ _ _ _ _ _ (run_sleep_nf env NF 1000 _)).
  match goal with
  | |- context [run (bind close_login_popup_best_effort _) env ?h'] =>
      destruct (run_close_login_popup_nf env NF h') as (tp & Hp & Hps & Hpc)
  end.
  rewrite (run_bind_ok _ _ _ _ _ _ Hp).
  rewrite (run_bind_ok _ _ _ _ _ _ (run_gradual_scroll_nf env NF 6 600 _)).
  rewrite (run_bind_ok _ _ _ _ _ _ (run_sleep_nf env NF 800 _)).
  match goal with
  | |- context [run (bind page_source _) env ?h'] =>
      destruct (run_page_source_walled h') as (src & _ & Hsrc & Hb & _)
  end.
  rewrite (run_bind_ok _ _ _ _ _ _ Hsrc).
  cbn [run ret fst snd]. rewrite Hb.
  eexists. split; [reflexivity |].
  rewrite !slept_app, !count_app, slept_scroll_trace, no_extraction_scroll_trace, Hpc.
  split; [| reflexivity].
  cbn [slept]. change (Z.of_nat 6) with 6%Z. lia.
Qed.

(** With the wall up for the whole ceiling, the session gives up: it
    returns the empty list, having slept the ticks of the wait on top of
    at most 5.8 seconds of settling, and having extracted no page. *)
Lemma session_walled (fuel : nat) (keyword : string) (pages : Z)
                     (headless : bool) (T : Z) (h : History) :
  cfg_url cfg <> None ->
  (S (ticks_to_ceiling T) < fuel)%nat ->
  exists t,
    run (scrape_keyword_on_site_auto_resume fuel keyword cfg pages headless T) env h
    = (Ok [], t) /\
    (2000 * Z.of_nat (ticks_to_ceiling T) <= slept t
     <= 5800 + 2000 * Z.of_nat (ticks_to_ceiling T))%Z /\
    count is_page_extraction t = O /\
    released t.
Proof.
  intros Hurl Hf.
  set (h1 := h ++ [Ev (StartDriver headless) None]).
  destruct (navigate_and_detect_walled keyword h1 Hurl) as (t1 & H1 & H1s & H1c).
  destruct (await_human_walled keyword T (h1 ++ t1) fuel Hf) as (t2 & H2 & H2s & H2c).
  destruct (run_page_source_walled ((h1 ++ t1) ++ t2)) as (src & Hsrc & _ & Hb & _).
  destruct (session_still_blocked fuel env keyword cfg pages headless T h t1 t2 src
              (nf_start env NF h headless) H1 H2 Hsrc Hb) as [q Hrun].
  eexists. split; [exact Hrun |].
  change (Ev ?c None :: ?t) with ([Ev c None] ++ t).
  rewrite !slept_app, !count_app, H2s, H1c, H2c.
  repeat split.
  - cbn [slept]. lia.
  - cbn [slept]. lia.
  - exists q. apply in_or_app. right. apply in_or_app. right.
    apply in_or_app. right. cbn. auto.
Qed.

End WalledSession.


Lemma toy_walled_never_fails : never_fails Toy.walled.
Proof.
  constructor; intros; try reflexivity; cbn;
    try (eexists; reflexivity).
  destruct (sel =? "a.next")%string; eexists; reflexivity.
Qed.

Lemma toy_walled_stays_walled : stays_walled Toy.walled Toy.site.
Proof.
  intros h src H. injection H as <-. split; [reflexivity |].
  intros psel [<- | []]. reflexivity.
Qed.


(** The two early exits, run: the wall clears at the third read of the
    wait, and Ctrl+C arrives in the second sleep. *)
Example toy_wait_exits_early :
  run (resume_wait 200 Toy.site 300) Toy.solved_in_time []
  = (Ok tt, [press_enter;
             Ev (Sleep 2000) None; Ev PageSource None;
             Ev (Sleep 2000) None; Ev PageSource None;
             Ev (Sleep 2000) None; Ev PageSource None;
             Ev (Log INFO MsgDetected) None]) /\
  run (resume_wait 200 Toy.site 300) Toy.impatient_operator []
  = (Ok tt, [press_enter;
             Ev (Sleep 2000) None; Ev PageSource None;
             Ev (Sleep 2000) (Some KeyboardInterrupt);
             Ev (Log INFO MsgInterrupted) None]).
Proof. split; vm_compute; reflexivity. Qed.

(** The walled session, run: 150 ticks of 2 seconds after 5.4 seconds of
    settling (no popup button is found in this world). *)
Example toy_walled_run :
  let r := run (scrape_keyword_on_site_auto_resume (MK := Toy.markup) (PL := Toy.pylib)
                  200 "running shoes" Toy.site 2 false 300) Toy.walled [] in
  fst r = Ok [] /\ slept (snd r) = 305400%Z /\ count is_sleep (snd r) = 158.
Proof. vm_compute. repeat split. Qed.

(** ** The search for a next page *)

Lemma advance_shape_prepend (r : outcome bool) (ta tb : History) :
  count is_advance ta = O -> advance_shape r tb -> advance_shape r (ta ++ tb).
Proof.
  intros Ha. destruct r as [[|]|e|]; cbn [advance_shape].
  - intros (t0 & a & -> & Hadv & H0). exists (ta ++ t0), a.
    rewrite count_app, Ha, H0, <- app_assoc. auto.
  - intros H. rewrite count_app, Ha, H. reflexivity.
  - destruct (is_Exception e); intros H; rewrite count_app, Ha; exact H.
  - auto.
Qed.

Ltac split_ends :=
  first [ exists []; eexists; split; [reflexivity |]
        | eexists [_]; eexists; split; [reflexivity |]
        | eexists [_; _]; eexists; split; [reflexivity |]
        | eexists [_; _; _]; eexists; split; [reflexivity |] ].

Lemma click_or_navigate_shaped (n : Elt) (env : Env) (h : History) :
  shaped (click_or_navigate n) env h.
Proof.
  unfold shaped, click_or_navigate, try_except, bind, is_displayed, click,
    sleep, get_attribute, driver_get, call, run, ret.
  destruct (env_is_displayed env h n) as [[|]|e1]; cbn.
  - destruct (env_click env _ n) as [[]|e2]; cbn.
    + destruct (env_sleep_interrupted env _ 1200); cbn.
      * auto.
      * split_ends. split; reflexivity.
    + destruct (is_Exception e2) eqn:E2; cbn; [| rewrite E2; cbn; auto].
      destruct (env_get_attribute env _ n "href") as [[[|c u]|]|e3]; cbn;
        try reflexivity.
      * destruct (env_get env _ _) as [[]|e4]; cbn.
        -- destruct (env_sleep_interrupted env _ 1200); cbn.
           ++ auto.
           ++ split_ends. split; reflexivity.
        -- destruct (is_Exception e4); cbn; auto.
      * destruct (is_Exception e3); cbn; auto.
  - reflexivity.
  - destruct (is_Exception e1) eqn:E1; cbn; [| rewrite E1; cbn; auto].
    destruct (env_get_attribute env _ n "href") as [[[|c u]|]|e3]; cbn;
      try reflexivity.
    + destruct (env_get env _ _) as [[]|e4]; cbn.
      * destruct (env_sleep_interrupted env _ 1200); cbn.
        -- auto.
        -- split_ends. split; reflexivity.
      * destruct (is_Exception e4); cbn; auto.
    + destruct (is_Exception e3); cbn; auto.
Qed.

(** One round of a loop that is left once [clicked]. *)
Lemma shaped_until_clicked (m rest : M bool) (env : Env) (h : History) :
  shaped m env h ->
  (forall h', shaped rest env h') ->
  shaped (clicked <- m ;; if clicked then ret true else rest) env h.
Proof.
  unfold shaped. intros Hm Hrest. rewrite run_bind.
  destruct (run m env h) as [[[|]|e|] t]; cbn [fst snd] in Hm.
  - cbn. rewrite app_nil_r. exact Hm.
  - specialize (Hrest (h ++ t)).
    destruct (run rest env (h ++ t)) as [r' t']. cbn [fst snd] in *.
    apply advance_shape_prepend; assumption.
  - exact Hm.
  - exact Hm.
Qed.

Lemma try_nodes_shaped (nodes : list Elt) (env : Env) (h : History) :
  shaped (try_nodes nodes) env h.
Proof.
  revert h. induction nodes as [|n rest IH]; intros h.
  - reflexivity.
  - cbn [try_nodes]. apply shaped_until_clicked.
    + apply click_or_navigate_shaped.
    + exact IH.
Qed.

Lemma run_try_except {A} (m : M A) catches handler env h :
  run (try_except m catches handler) env h =
  match run m env h with
  | (Raise e, t) =>
      if catches e
      then let (r, t') := run (handler e) env (h ++ t) in (r, t ++ t')
      else (Raise e, t)
  | r => r
  end.
Proof. reflexivity. Qed.

Lemma shaped_try_except (m : M bool) (env : Env) (h : History) :
  shaped m env h ->
  shaped (try_except m is_Exception (fun _ => ret false)) env h.
Proof.
  unfold shaped. rewrite run_try_except.
  destruct (run m env h) as [[[|]|e|] t]; cbn [fst snd]; auto.
  cbn [advance_shape]. destruct (is_Exception e) eqn:E.
  - cbn. rewrite app_nil_r. auto.
  - cbn. rewrite E. auto.
Qed.

Lemma shaped_find_elements (sel : string) (k : list Elt -> M bool)
                           (env : Env) (h : History) :
  (forall nodes h', shaped (k nodes) env h') ->
  shaped (nodes <- find_elements sel ;; k nodes) env h.
Proof.
  unfold shaped. intros Hk. rewrite run_bind.
  assert (Hf : run (find_elements sel) env h =
               (match env_find_elements env h sel with
                | Returns a => Ok a
                | Throws e => Raise e
                end,
                [Ev (FindElements sel) (raised_of (env_find_elements env h sel))]))
    by reflexivity.
  rewrite Hf. clear Hf.
  destruct (env_find_elements env h sel) as [nodes|e]; cbn [raised_of].
  - specialize (Hk nodes (h ++ [Ev (FindElements sel) None])).
    destruct (run (k nodes) env _) as [r t]. cbn [fst snd] in *.
    apply advance_shape_prepend; [reflexivity | exact Hk].
  - cbn. destruct (is_Exception e); cbn; lia.
Qed.

(** Lines 271-290 for one selector. *)
Lemma try_selector_shaped (sel : string) (env : Env) (h : History) :
  shaped (try_except (nodes <- find_elements sel ;; try_nodes nodes)
                     is_Exception (fun _ => ret false)) env h.
Proof.
  apply shaped_try_except, shaped_find_elements.
  intros nodes h'. apply try_nodes_shaped.
Qed.

Lemma try_selectors_shaped (sels : list string) (env : Env) (h : History) :
  shaped (try_selectors sels) env h.
Proof.
  revert h. induction sels as [|sel rest IH]; intros h.
  - reflexivity.
  - cbn [try_selectors]. apply shaped_until_clicked.
    + apply try_selector_shaped.
    + exact IH.
Qed.

Lemma advance_shape_at_most_one (r : outcome bool) (t : History) :
  advance_shape r t -> (count is_advance t <= 1)%nat.
Proof.
  destruct r as [[|]|e|]; cbn [advance_shape].
  - intros (t0 & a & -> & Hadv & H0). rewrite count_app, H0.
    unfold count. cbn. rewrite Hadv. cbn. lia.
  - lia.
  - destruct (is_Exception e); lia.
  - intros [].
Qed.

(** ** Which events a computation can add *)

Lemma emits_ret {A} P (a : A) : emits P (ret a).
Proof. intros env h. reflexivity. Qed.

Lemma emits_bind {A B} P (m : M A) (k : A -> M B) :
  emits P m -> (forall a, emits P (k a)) -> emits P (bind m k).
Proof.
  intros Hm Hk env h. rewrite run_bind. specialize (Hm env h).
  destruct (run m env h) as [[a|e|] t]; cbn [snd] in *; try exact Hm.
  specialize (Hk a env (h ++ t)). destruct (run (k a) env (h ++ t)) as [r t'].
  cbn [snd] in *. rewrite forallb_app, Hm, Hk. reflexivity.
Qed.

Lemma emits_try_except {A} P (m : M A) catches handler :
  emits P m -> (forall e, emits P (handler e)) ->
  emits P (try_except m catches handler).
Proof.
  intros Hm Hh env h. rewrite run_try_except. specialize (Hm env h).
  destruct (run m env h) as [[a|e|] t]; cbn [snd] in *; try exact Hm.
  destruct (catches e); [| exact Hm].
  specialize (Hh e env (h ++ t)). destruct (run (handler e) env (h ++ t)) as [r t'].
  cbn [snd] in *. rewrite forallb_app, Hm, Hh. reflexivity.
Qed.

Lemma emits_call {A} (P : Event -> bool) (c : Call) (answer : Env -> History -> reply A) :
  (forall q, P (Ev c q) = true) -> emits P (call c answer).
Proof. intros H env h. cbn. rewrite H. reflexivity. Qed.

Lemma emits_weaken {A} (P Q : Event -> bool) (m : M A) :
  (forall e, P e = true -> Q e = true) -> emits P m -> emits Q m.
Proof.
  intros HPQ Hm env h. specialize (Hm env h).
  rewrite forallb_forall in *. auto.
Qed.

Lemma count_none (P Q : Event -> bool) (t : History) :
  (forall e, P e = true -> Q e = false) ->
  forallb P t = true -> count Q t = O.
Proof.
  intros HPQ. induction t as [|e t IH]; [reflexivity |].
  cbn [forallb]. rewrite andb_true_iff. intros [He Ht].
  unfold count in *. cbn [filter]. rewrite (HPQ e He). auto.
Qed.

Ltac emits_calls :=
  repeat first
    [ apply emits_ret
    | apply emits_bind; [| intros ?]
    | apply emits_try_except; [| intros ?]
    | apply emits_call; intros ?; reflexivity
    | match goal with |- emits _ (if ?b then _ else _) => destruct b end
    | match goal with |- emits _ (match ?x with _ => _ end) => destruct x end ].

Lemma emits_scroll_steps (n steps : nat) (pause : Z) :
  emits is_scroll_event (scroll_steps n steps pause).
Proof.
  induction n as [|n IH]; cbn [scroll_steps]; [apply emits_ret |].
  unfold execute_script, sleep. emits_calls. exact IH.
Qed.

Lemma emits_gradual_scroll (steps : nat) (pause : Z) :
  emits is_scroll_event (gradual_scroll steps pause).
Proof.
  unfold gradual_scroll. emits_calls. apply emits_scroll_steps.
Qed.

Lemma emits_click_or_navigate (n : Elt) :
  emits is_search_event (click_or_navigate n).
Proof.
  unfold click_or_navigate, is_displayed, click, sleep, get_attribute, driver_get.
  emits_calls.
Qed.

Lemma emits_try_nodes (nodes : list Elt) : emits is_search_event (try_nodes nodes).
Proof.
  induction nodes as [|n rest IH]; cbn [try_nodes]; [apply emits_ret |].
  apply emits_bind; [apply emits_click_or_navigate |].
  intros [|]; [apply emits_ret | exact IH].
Qed.

Lemma emits_try_selectors (sels : list string) :
  emits is_search_event (try_selectors sels).
Proof.
  induction sels as [|sel rest IH]; cbn [try_selectors]; [apply emits_ret |].
  apply emits_bind.
  - apply emits_try_except; [| intros; apply emits_ret].
    apply emits_bind; [apply emits_call; reflexivity |].
    intros nodes. apply emits_try_nodes.
  - intros [|]; [apply emits_ret | exact IH].
Qed.

Section PaginationFacts.
Context {MK : Markup} {PL : PyLib}.

(** Reading a page starts with its log line and adds no other one, and
    no advance. *)
Lemma extract_page_trace (cfg : Cfg) (current_page : Z) (env : Env) (h : History) :
  exists t,
    snd (run (extract_page cfg current_page) env h)
    = Ev (Log INFO (MsgParsingPage (current_page + 1))) None :: t /\
    forallb is_reading_event t = true.
Proof.
  unfold extract_page, log at 1. rewrite run_bind, run_emit.
  match goal with
  | |- context [run ?m env (h ++ ?t)] =>
      assert (He : emits is_reading_event m)
  end.
  { apply emits_bind.
    - eapply emits_weaken; [| apply emits_gradual_scroll].
      intros [[] q]; try discriminate; reflexivity.
    - intros _. unfold sleep, page_source, log, emit. emits_calls. }
  specialize (He env (h ++ [Ev (Log INFO (MsgParsingPage (current_page + 1))) None])).
  match goal with
  | H : forallb _ (snd ?x) = true |- _ => destruct x as [r t]
  end.
  exists t. split; [reflexivity | exact He].
Qed.

Lemma reading_no_extraction (t : History) :
  forallb is_reading_event t = true ->
  count is_page_extraction t = O /\ count is_advance t = O.
Proof.
  intros H. split; apply (count_none is_reading_event); auto;
    intros [[] [e|]]; try discriminate; try reflexivity;
    cbn; destruct l, m; try discriminate; reflexivity.
Qed.

Lemma search_no_extraction (t : History) :
  forallb is_search_event t = true -> count is_page_extraction t = O.
Proof.
  apply count_none. intros [[] [e|]]; try discriminate; reflexivity.
Qed.

End PaginationFacts.

(** ** No way to a next page *)

Lemma click_or_navigate_dead (env : Env) (n : Elt) (h : History) :
  cannot_advance env n ->
  exists t, run (click_or_navigate n) env h = (Ok false, t).
Proof.
  intros [Hclick Hhref].
  unfold click_or_navigate, try_except, bind, is_displayed, click, sleep,
    get_attribute, driver_get, call, run, ret.
  destruct (Hclick h) as [Hd | (e & He & [Hd | [Hd Hc]])]; rewrite Hd; cbn.
  - eexists. reflexivity.
  - rewrite He.
    destruct (Hhref (h ++ [Ev (IsDisplayed n) (Some e)])) as [-> | ->]; cbn;
      eexists; reflexivity.
  - rewrite Hc. cbn. rewrite He.
    destruct (Hhref (h ++ [Ev (IsDisplayed n) None; Ev (Click n) (Some e)]))
      as [-> | ->]; cbn; eexists; reflexivity.
Qed.

Lemma try_nodes_dead (env : Env) (nodes : list Elt) :
  (forall n, In n nodes -> cannot_advance env n) ->
  forall h, exists t, run (try_nodes nodes) env h = (Ok false, t).
Proof.
  induction nodes as [|n rest IH]; intros Hdead h.
  - exists []. reflexivity.
  - cbn [try_nodes].
    destruct (click_or_navigate_dead env n h (Hdead n (or_introl eq_refl)))
      as [t Ht].
    rewrite (run_bind_ok _ _ _ _ _ _ Ht).
    destruct (IH (fun m Hm => Hdead m (or_intror Hm)) (h ++ t)) as [t' Ht'].
    rewrite Ht'. eexists. reflexivity.
Qed.

Lemma try_selectors_dead (env : Env) (sels : list string) :
  (forall h sel, In sel sels ->
                 match env_find_elements env h sel with
                 | Returns nodes => forall n, In n nodes -> cannot_advance env n
                 | Throws e => is_Exception e = true
                 end) ->
  forall h, exists t, run (try_selectors sels) env h = (Ok false, t).
Proof.
  induction sels as [|sel rest IH]; intros Hdead h.
  - exists []. reflexivity.
  - cbn [try_selectors].
    assert (Hone : exists t,
               run (try_except (nodes <- find_elements sel ;; try_nodes nodes)
                               is_Exception (fun _ => ret false)) env h
               = (Ok false, t)).
    { rewrite run_try_except, run_bind.
      assert (Hf : run (find_elements sel) env h =
                   (match env_find_elements env h sel with
                    | Returns a => Ok a
                    | Throws e => Raise e
                    end,
                    [Ev (FindElements sel) (raised_of (env_find_elements env h sel))]))
        by reflexivity.
      rewrite Hf. clear Hf.
      specialize (Hdead h sel (or_introl eq_refl)).
      destruct (env_find_elements env h sel) as [nodes|e]; cbn [raised_of].
      - destruct (try_nodes_dead env nodes Hdead (h ++ [Ev (FindElements sel) None]))
          as [t Ht].
        rewrite Ht. eexists. reflexivity.
      - rewrite Hdead. eexists. reflexivity. }
    destruct Hone as [t Ht].
    rewrite (run_bind_ok _ _ _ _ _ _ Ht).
    destruct (IH (fun h' s Hs => Hdead h' s (or_intror Hs)) (h ++ t)) as [t' Ht'].
    rewrite Ht'. eexists. reflexivity.
Qed.

Section PaginationEnd.
Context {MK : Markup} {PL : PyLib}.

(** C4: with a positive page budget, when no [next_button] selector finds
    an element that can advance (none is shown and clickable, none has an
    [href]) and the first page is read, the pagination loop returns the
    records of that one page, having extracted exactly one page and
    advanced never, and it ends with the log line of line 292, not with an
    exception; the size of the budget plays no part. *)
Theorem pagination_stops_without_next
    (fuel : nat) (env : Env) (cfg : Cfg) (pages : Z) (h t1 : History)
    (items : list ProductRecord) :
  (0 < pages)%Z ->
  no_next_control env cfg ->
  run (extract_page cfg 0) env h = (Ok items, t1) ->
  exists t2,
    let t := t1 ++ t2 ++ [Ev (Log INFO MsgNoNext) None] in
    run (paginate (S fuel) cfg pages 0 []) env h = (Ok items, t) /\
    count is_page_extraction t = 1 /\
    count is_advance t = O.
Proof.
  intros Hpages Hdead Hextract.
  destruct (try_selectors_dead env (cfg_next_button cfg) Hdead (h ++ t1)) as [t2 Ht2].
  exists t2. cbn zeta. split; [| split].
  - cbn [paginate]. replace (0 <? pages)%Z with true by (symmetry; apply Z.ltb_lt; exact Hpages).
    rewrite (run_bind_ok _ _ _ _ _ _ Hextract).
    rewrite (run_bind_ok _ _ _ _ _ _ Ht2).
    cbn [negb]. unfold log. rewrite (run_bind_ok _ _ _ _ _ _ (run_emit _ _ _)).
    cbn [run ret fst snd]. rewrite app_nil_r.
    destruct items; reflexivity.
  - destruct (extract_page_trace cfg 0 env h) as (t' & Ht' & Hread).
    rewrite Hextract in Ht'. cbn [snd] in Ht'. subst t1.
    pose proof (emits_try_selectors (cfg_next_button cfg) env
                  (h ++ Ev (Log INFO (MsgParsingPage (0 + 1))) None :: t')) as Hs.
    rewrite Ht2 in Hs. cbn [snd] in Hs.
    change (Ev ?c None :: t') with ([Ev c None] ++ t').
    rewrite !count_app.
    rewrite (proj1 (reading_no_extraction t' Hread)).
    rewrite (search_no_extraction t2 Hs). reflexivity.
  - destruct (extract_page_trace cfg 0 env h) as (t' & Ht' & Hread).
    rewrite Hextract in Ht'. cbn [snd] in Ht'. subst t1.
    pose proof (try_selectors_shaped (cfg_next_button cfg) env
                  (h ++ Ev (Log INFO (MsgParsingPage (0 + 1))) None :: t')) as Hs.
    unfold shaped in Hs. rewrite Ht2 in Hs. cbn [fst snd advance_shape] in Hs.
    change (Ev ?c None :: t') with ([Ev c None] ++ t').
    rewrite !count_app.
    rewrite (proj2 (reading_no_extraction t' Hread)), Hs. reflexivity.
Qed.

End PaginationEnd.

Lemma toy_single_page_no_next : no_next_control Toy.single_page Toy.site.
Proof.
  intros h sel [<- | []]. cbn. intros n [<- | []].
  split; intros h'; left; reflexivity.
Qed.

Lemma pagination_stops_without_next_witness :
  exists t2,
    let t1 := snd (run (extract_page (MK := Toy.markup) (PL := Toy.pylib) Toy.site 0)
                       Toy.single_page []) in
    let t := t1 ++ t2 ++ [Ev (Log INFO MsgNoNext) None] in
    run (paginate (MK := Toy.markup) (PL := Toy.pylib) 1 Toy.site 50 0 [])
        Toy.single_page []
    = (Ok (parse_products_from_html (MK := Toy.markup) (PL := Toy.pylib)
             "<div.item> listing" Toy.site), t) /\
    count is_page_extraction t = 1 /\
    count is_advance t = O.
Proof.
  apply (pagination_stops_without_next (MK := Toy.markup) (PL := Toy.pylib)
           0 Toy.single_page Toy.site 50 []).
  - lia.
  - exact toy_single_page_no_next.
  - vm_compute. reflexivity.
Defined.

(** ** One advance a page *)

(** C5 as the specification words it fails: in this world the search clicks the
    first element, which raises, finds no [href] on it, and clicks the
    second one: two advance interactions on one page. *)
Lemma two_clicks_on_one_page :
  snd (run (try_selectors (cfg_next_button Toy.site)) Toy.sticky_next [])
  = [Ev (FindElements "a.next") None;
     Ev (IsDisplayed 1) None; Ev (Click 1) (Some WebDriverException);
     Ev (GetAttribute 1 "href") None;
     Ev (IsDisplayed 2) None; Ev (Click 2) None; Ev (Sleep 1200) None] /\
  ~ one_attempt_per_page.
Proof.
  split; [reflexivity |].
  intros H. specialize (H Toy.sticky_next Toy.site []).
  vm_compute in H. lia.
Qed.

(** The [try] of lines 274-279 when the attempt fails. *)
Lemma run_click_fails (n : Elt) (env : Env) (h : History) (e : exn) (t1 : History) :
  click_fails env h n e t1 ->
  run (shown <- is_displayed n ;;
       if shown then click n ;; sleep 1200 ;; ret true else ret false) env h
  = (Raise e, t1).
Proof.
  intros [[Hd ->] | (Hd & Hc & ->)];
    unfold bind, is_displayed, click, call, run; rewrite Hd; cbn [raised_of].
  - reflexivity.
  - rewrite Hc. reflexivity.
Qed.

(** A failed attempt on an element without [href]: not clicked, and the
    loop over the elements goes on. *)
Lemma run_click_or_navigate_no_href
    (n : Elt) (env : Env) (h : History) (e : exn) (t1 : History) :
  click_fails env h n e t1 ->
  is_Exception e = true ->
  no_href env (h ++ t1) n ->
  run (click_or_navigate n) env h
  = (Ok false, t1 ++ [Ev (GetAttribute n "href") None]).
Proof.
  intros Hc He Hh. unfold click_or_navigate.
  rewrite run_try_except, (run_click_fails n env h e t1 Hc), He.
  unfold bind, get_attribute, call, run, ret.
  destruct Hh as [Hh | Hh]; rewrite Hh; reflexivity.
Qed.

(** A failed attempt whose fallback fails too: the fault of the fallback
    leaves the attempt. *)
Lemma run_click_or_navigate_fallback_fails
    (n : Elt) (env : Env) (h : History) (e e' : exn) (t1 t2 : History) :
  click_fails env h n e t1 ->
  is_Exception e = true ->
  fallback_fails env (h ++ t1) n e' t2 ->
  run (click_or_navigate n) env h = (Raise e', t1 ++ t2).
Proof.
  intros Hc He Hf. unfold click_or_navigate.
  rewrite run_try_except, (run_click_fails n env h e t1 Hc), He.
  unfold bind, get_attribute, driver_get, call, run, ret.
  destruct Hf as [[Hg ->] | (u & Hu & Hg & Hn & ->)]; rewrite Hg; cbn [raised_of].
  - reflexivity.
  - destruct u as [|c u]; [congruence |]. rewrite Hn. reflexivity.
Qed.

Lemma try_nodes_after_failed_click
    (n : Elt) (rest : list Elt) (env : Env) (h : History) (e : exn) (t1 : History) :
  click_fails env h n e t1 ->
  is_Exception e = true ->
  no_href env (h ++ t1) n ->
  let ta := t1 ++ [Ev (GetAttribute n "href") None] in
  run (try_nodes (n :: rest)) env h
  = (fst (run (try_nodes rest) env (h ++ ta)),
     ta ++ snd (run (try_nodes rest) env (h ++ ta))).
Proof.
  intros Hc He Hh ta. cbn [try_nodes].
  rewrite (run_bind_ok _ _ _ _ false ta
             (run_click_or_navigate_no_href n env h e t1 Hc He Hh)).
  reflexivity.
Qed.

Lemma try_selectors_after_failed_fallback
    (sel : string) (sels : list string) (n : Elt) (rest : list Elt)
    (env : Env) (h : History) (e e' : exn) (t1 t2 : History) :
  env_find_elements env h sel = Returns (n :: rest) ->
  click_fails env (h ++ [Ev (FindElements sel) None]) n e t1 ->
  is_Exception e = true ->
  fallback_fails env ((h ++ [Ev (FindElements sel) None]) ++ t1) n e' t2 ->
  is_Exception e' = true ->
  let ta := Ev (FindElements sel) None :: t1 ++ t2 in
  run (try_selectors (sel :: sels)) env h
  = (fst (run (try_selectors sels) env (h ++ ta)),
     ta ++ snd (run (try_selectors sels) env (h ++ ta))).
Proof.
  intros Hfind Hc He Hf He' ta. cbn [try_selectors].
  assert (Hsel : run (try_except (nodes <- find_elements sel ;; try_nodes nodes)
                                 is_Exception (fun _ => ret false)) env h
                 = (Ok false, ta)).
  { rewrite run_try_except.
    assert (Hn : run (nodes <- find_elements sel ;; try_nodes nodes) env h
                 = (Raise e', ta)).
    { rewrite (run_bind_ok _ _ _ _ (n :: rest) [Ev (FindElements sel) None])
        by (unfold find_elements, call, run; rewrite Hfind; reflexivity).
      cbn [try_nodes].
      rewrite (run_bind_raise _ _ _ _ e' (t1 ++ t2)
                 (run_click_or_navigate_fallback_fails n env _ e e' t1 t2 Hc He Hf)).
      reflexivity. }
    rewrite Hn, He'. cbn [run ret]. rewrite app_nil_r. reflexivity. }
  rewrite (run_bind_ok _ _ _ _ false ta Hsel). reflexivity.
Qed.

Section Advances.
Context {MK : Markup} {PL : PyLib}.

Lemma paginate_advances (fuel : nat) (env : Env) (cfg : Cfg) (pages : Z) :
  forall (current_page : Z) (collected : list ProductRecord) (h : History),
    (count is_advance (snd (run (paginate fuel cfg pages current_page collected) env h))
     <= count is_page_extraction
          (snd (run (paginate fuel cfg pages current_page collected) env h)))%nat.
Proof.
  induction fuel as [|fuel IH]; intros current_page collected h; [cbn; lia |].
  cbn [paginate]. destruct (current_page <? pages)%Z; [| cbn; lia].
  rewrite run_bind.
  destruct (extract_page_trace cfg current_page env h) as (t' & Ht' & Hread).
  destruct (reading_no_extraction t' Hread) as [Hx Ha].
  destruct (run (extract_page cfg current_page) env h) as [[items|e|] t1];
    cbn [snd] in Ht'; subst t1;
    change (Ev ?c None :: t') with ([Ev c None] ++ t');
    try (cbn [snd]; rewrite !count_app, Hx, Ha; cbn; lia).
  set (h1 := h ++ [Ev (Log INFO (MsgParsingPage (current_page + 1))) None] ++ t').
  rewrite run_bind.
  pose proof (try_selectors_shaped (cfg_next_button cfg) env h1) as Hshape.
  pose proof (emits_try_selectors (cfg_next_button cfg) env h1) as Hsearch.
  apply search_no_extraction in Hsearch.
  pose proof (advance_shape_at_most_one _ _ Hshape) as Hone.
  unfold shaped in Hshape.
  destruct (run (try_selectors (cfg_next_button cfg)) env h1) as [[[|]|e|] t2];
    cbn [fst snd negb] in *.
  - match goal with
    | |- context [run (paginate fuel cfg pages ?c ?l) env ?h'] =>
        specialize (IH c l h'); destruct (run (paginate fuel cfg pages c l) env h')
          as [r3 t3]
    end.
    cbn [snd] in *. rewrite !count_app, Hx, Ha, Hsearch. cbn. lia.
  - unfold log. rewrite run_bind, run_emit. cbn [run ret snd].
    rewrite !count_app, Hx, Ha, Hsearch. cbn. lia.
  - rewrite !count_app, Hx, Ha, Hsearch. cbn. lia.
  - rewrite !count_app, Hx, Ha, Hsearch. cbn. lia.
Qed.

(** C5, amended: on every page at most one advance interaction goes
    through, and the search stops there: when it reports [clicked], the
    advance is the last interaction but for the settle delay, and none
    went through before it; when it reports not clicked, none went
    through.  Over a whole run of the pagination loop no more advances go
    through than pages are extracted.  A failed attempt does not end the
    search.  When the attempt on an element raises and the element has no
    [href], the loop goes on with the next element of the same selector.
    When the fallback raises as well (reading the [href], or navigating
    to it), the remaining elements of that selector are not tried, and
    the search goes on with the next selector. *)
Theorem one_advance_per_page :
  (forall env sels h,
      let r := fst (run (try_selectors sels) env h) in
      let t := snd (run (try_selectors sels) env h) in
      (count is_advance t <= 1)%nat /\
      (r = Ok true ->
       exists t0 a, t = t0 ++ [a; Ev (Sleep 1200) None] /\
                    is_advance a = true /\ count is_advance t0 = O) /\
      (r = Ok false -> count is_advance t = O)) /\
  (forall fuel env cfg pages current_page collected h,
      let t := snd (run (paginate fuel cfg pages current_page collected) env h) in
      (count is_advance t <= count is_page_extraction t)%nat) /\
  (forall env n rest h e t1,
      click_fails env h n e t1 ->
      is_Exception e = true ->
      no_href env (h ++ t1) n ->
      let ta := t1 ++ [Ev (GetAttribute n "href") None] in
      run (try_nodes (n :: rest)) env h
      = (fst (run (try_nodes rest) env (h ++ ta)),
         ta ++ snd (run (try_nodes rest) env (h ++ ta)))) /\
  (forall env sel sels n rest h e e' t1 t2,
      env_find_elements env h sel = Returns (n :: rest) ->
      click_fails env (h ++ [Ev (FindElements sel) None]) n e t1 ->
      is_Exception e = true ->
      fallback_fails env ((h ++ [Ev (FindElements sel) None]) ++ t1) n e' t2 ->
      is_Exception e' = true ->
      let ta := Ev (FindElements sel) None :: t1 ++ t2 in
      run (try_selectors (sel :: sels)) env h
      = (fst (run (try_selectors sels) env (h ++ ta)),
         ta ++ snd (run (try_selectors sels) env (h ++ ta)))).
Proof.
  split; [| split; [| split]].
  - intros env sels h r t.
    pose proof (try_selectors_shaped sels env h) as H. unfold shaped in H.
    fold r t in H. split; [| split].
    + eapply advance_shape_at_most_one. exact H.
    + intros Hr. rewrite Hr in H. exact H.
    + intros Hr. rewrite Hr in H. exact H.
  - intros. apply paginate_advances.
  - intros env n rest h e t1. apply try_nodes_after_failed_click.
  - intros env sel sels n rest h e e' t1 t2.
    apply try_selectors_after_failed_fallback.
Qed.

End Advances.

Lemma one_advance_per_page_witness :
  (exists t0 a,
      snd (run (try_selectors ["a.next"]) Toy.sticky_next [])
      = t0 ++ [a; Ev (Sleep 1200) None] /\
      is_advance a = true /\ count is_advance t0 = O) /\
  run (try_nodes [1; 2]) Toy.sticky_next []
  = (Ok true,
     [Ev (IsDisplayed 1) None; Ev (Click 1) (Some WebDriverException);
      Ev (GetAttribute 1 "href") None;
      Ev (IsDisplayed 2) None; Ev (Click 2) None; Ev (Sleep 1200) None]) /\
  run (try_selectors ["a.next"; "a.more"]) Toy.broken_link []
  = (Ok true,
     [Ev (FindElements "a.next") None;
      Ev (IsDisplayed 1) None; Ev (Click 1) (Some WebDriverException);
      Ev (GetAttribute 1 "href") None; Ev (Get "/page2") (Some WebDriverException);
      Ev (FindElements "a.more") None;
      Ev (IsDisplayed 3) None; Ev (Click 3) None; Ev (Sleep 1200) None]).
Proof.
  split; [| split].
  - apply (proj1 (proj2 (proj1 (one_advance_per_page (MK := Toy.markup) (PL := Toy.pylib))
                           Toy.sticky_next ["a.next"] []))).
    reflexivity.
  - eapply eq_trans.
    + apply (proj1 (proj2 (proj2 (one_advance_per_page (MK := Toy.markup)
                                    (PL := Toy.pylib))))
               Toy.sticky_next 1%nat [2%nat] [] WebDriverException
               [Ev (IsDisplayed 1) None; Ev (Click 1) (Some WebDriverException)]).
      * right. split; [reflexivity |]. split; reflexivity.
      * reflexivity.
      * left. reflexivity.
    + reflexivity.
  - eapply eq_trans.
    + apply (proj2 (proj2 (proj2 (one_advance_per_page (MK := Toy.markup)
                                    (PL := Toy.pylib))))
               Toy.broken_link "a.next" ["a.more"] 1%nat [2%nat] []
               WebDriverException WebDriverException
               [Ev (IsDisplayed 1) None; Ev (Click 1) (Some WebDriverException)]
               [Ev (GetAttribute 1 "href") None;
                Ev (Get "/page2") (Some WebDriverException)]).
      * reflexivity.
      * right. split; [reflexivity |]. split; reflexivity.
      * reflexivity.
      * right. exists "/page2". split; [discriminate |].
        split; [reflexivity |]. split; reflexivity.
      * reflexivity.
    + reflexivity.
Defined.

(** ** What a session can add to the trace *)

Lemma emits_raise {A} P (e : exn) : emits P (raise (A := A) e).
Proof. intros env h. reflexivity. Qed.

Lemma emits_out_of_fuel {A} P : emits P (out_of_fuel (A := A)).
Proof. intros env h. reflexivity. Qed.

Lemma emits_try_finally {A} P (m : M A) (fin : M unit) :
  emits P m -> emits P fin -> emits P (try_finally m fin).
Proof.
  intros Hm Hf env h. unfold try_finally, run. specialize (Hm env h).
  unfold run in Hm. destruct (m env h) as [[a|e|] t]; cbn [snd] in *;
    try exact Hm;
    specialize (Hf env (h ++ t)); unfold run in Hf;
    destruct (fin env (h ++ t)) as [[[]|e'|] t']; cbn [snd] in *;
    rewrite forallb_app, Hm, Hf; reflexivity.
Qed.

Ltac session_calls :=
  unfold start_driver, driver_get, page_source, find_elements, is_displayed,
    click, get_attribute, execute_script, save_screenshot, write_file,
    driver_quit, sleep, print, log, emit;
  repeat first
    [ apply emits_ret
    | apply emits_raise
    | apply emits_out_of_fuel
    | apply emits_bind; [| intros ?]
    | apply emits_try_except; [| intros ?]
    | apply emits_call; intros ?; reflexivity
    | match goal with |- emits _ (if ?b then _ else _) => destruct b end
    | match goal with |- emits _ (match ?x with _ => _ end) => destruct x end ].

Lemma scroll_is_session_event (e : Event) :
  is_scroll_event e = true -> is_session_event e = true.
Proof. destruct e as [[] q]; try discriminate; reflexivity. Qed.

Lemma search_is_session_event (e : Event) :
  is_search_event e = true -> is_session_event e = true.
Proof. destruct e as [[] q]; try discriminate; reflexivity. Qed.

Lemma scroll_is_prelude_event (e : Event) :
  is_scroll_event e = true -> is_prelude_event e = true.
Proof. destruct e as [[] q]; try discriminate; reflexivity. Qed.

Lemma prelude_is_session_event (e : Event) :
  is_prelude_event e = true -> is_session_event e = true.
Proof. unfold is_prelude_event. rewrite andb_true_iff. tauto. Qed.

Lemma prelude_no_extraction (t : History) :
  forallb is_prelude_event t = true -> count is_page_extraction t = O.
Proof.
  apply count_none. intros e. unfold is_prelude_event.
  rewrite andb_true_iff, negb_true_iff. tauto.
Qed.

Lemma emits_close_buttons (btns : list Elt) :
  emits is_prelude_event (close_buttons btns).
Proof.
  induction btns as [|b rest IH]; cbn [close_buttons]; [apply emits_ret |].
  apply emits_bind; [session_calls |].
  intros [|]; [apply emits_ret | exact IH].
Qed.

Lemma emits_close_login_popup : emits is_prelude_event close_login_popup_best_effort.
Proof.
  unfold close_login_popup_best_effort.
  apply emits_bind.
  - apply emits_try_except; [| intros; apply emits_ret].
    apply emits_bind; [session_calls |]. intros btns. apply emits_close_buttons.
  - intros [|]; session_calls.
Qed.

Lemma emits_selector_text_found (psels : list string) (src : string) :
  emits is_prelude_event (selector_text_found psels src).
Proof.
  induction psels as [|psel rest IH]; cbn [selector_text_found];
    [apply emits_ret |].
  destruct (PyStr.contains psel src); [session_calls | exact IH].
Qed.

Lemma emits_poll_loop (fuel : nat) (cfg : Cfg) (T : Z) :
  forall waited, emits is_prelude_event (poll_loop fuel cfg T waited).
Proof.
  induction fuel as [|fuel IH]; intros waited; cbn [poll_loop];
    [apply emits_out_of_fuel |].
  destruct (waited <? T)%Z; [| apply emits_ret].
  apply emits_bind; [session_calls |]. intros _.
  apply emits_bind; [session_calls |]. intros src.
  apply emits_bind; [apply emits_selector_text_found |].
  intros [|]; [apply emits_ret | apply IH].
Qed.

Lemma emits_resume_wait (fuel : nat) (cfg : Cfg) (T : Z) :
  emits is_prelude_event (resume_wait fuel cfg T).
Proof.
  induction fuel as [|fuel IH]; cbn [resume_wait]; [apply emits_out_of_fuel |].
  apply emits_bind.
  - apply emits_try_except; [| intros; session_calls].
    apply emits_bind; [session_calls |]. intros _.
    apply emits_bind; [apply emits_poll_loop | intros; apply emits_ret].
  - intros [|]; [apply emits_ret | exact IH].
Qed.

Section SessionEvents.
Context {MK : Markup} {PL : PyLib}.

Lemma emits_session_scroll (steps : nat) (pause : Z) :
  emits is_session_event (gradual_scroll steps pause).
Proof.
  eapply emits_weaken; [apply scroll_is_session_event | apply emits_gradual_scroll].
Qed.

Lemma emits_paginate (fuel : nat) (cfg : Cfg) (pages : Z) :
  forall current_page collected,
    emits is_session_event (paginate fuel cfg pages current_page collected).
Proof.
  induction fuel as [|fuel IH]; intros current_page collected; cbn [paginate];
    [apply emits_out_of_fuel |].
  destruct (current_page <? pages)%Z; [| apply emits_ret].
  apply emits_bind.
  - unfold extract_page.
    apply emits_bind; [session_calls |]. intros _.
    apply emits_bind; [apply emits_session_scroll |]. intros _.
    session_calls.
  - intros items. apply emits_bind.
    + eapply emits_weaken; [apply search_is_session_event | apply emits_try_selectors].
    + intros [|]; cbn [negb]; [apply IH | session_calls].
Qed.

Lemma emits_navigate_and_detect (keyword : string) (cfg : Cfg) :
  emits is_prelude_event (navigate_and_detect keyword cfg).
Proof.
  unfold navigate_and_detect.
  apply emits_bind; [session_calls |]. intros template.
  apply emits_bind; [session_calls |]. intros _.
  apply emits_bind; [session_calls |]. intros _.
  apply emits_bind; [session_calls |]. intros _.
  apply emits_bind; [apply emits_close_login_popup |]. intros _.
  apply emits_bind.
  - eapply emits_weaken; [apply scroll_is_prelude_event | apply emits_gradual_scroll].
  - intros _. session_calls.
Qed.

Lemma emits_await_human (fuel : nat) (keyword : string) (cfg : Cfg) (T : Z) :
  emits is_prelude_event (await_human fuel keyword cfg T).
Proof.
  unfold await_human.
  apply emits_bind; [session_calls |]. intros _.
  apply emits_bind; [unfold save_debug_files; session_calls |]. intros _.
  do 4 (apply emits_bind; [session_calls |]; intros _).
  apply emits_resume_wait.
Qed.

Lemma emits_session (fuel : nat) (keyword : string) (cfg : Cfg) (pages : Z)
                    (headless : bool) (T : Z) :
  emits is_session_event
        (scrape_keyword_on_site_auto_resume fuel keyword cfg pages headless T).
Proof.
  unfold scrape_keyword_on_site_auto_resume.
  apply emits_bind; [session_calls |]. intros _.
  apply emits_try_finally; [| unfold release_driver; session_calls].
  unfold session_body.
  apply emits_bind.
  - eapply emits_weaken;
      [apply prelude_is_session_event | apply emits_navigate_and_detect].
  - intros blocked. apply emits_bind.
    + destruct blocked; [| apply emits_ret].
      apply emits_bind.
      * eapply emits_weaken;
          [apply prelude_is_session_event | apply emits_await_human].
      * intros _. unfold recheck. session_calls.
    + intros [|]; [apply emits_ret | apply emits_paginate].
Qed.

End SessionEvents.

(** ** Still blocked after the wait: no pagination *)

(** C1: when the first detection found the page blocked, the wait for the
    human ended, and the page read at line 250 is still blocked, the
    session returns the empty list; after the wait it only reads the page,
    logs the error and quits the driver, and nowhere in the session is a
    page extracted: the pagination loop is never entered. *)
Theorem still_blocked_returns_empty {MK : Markup} {PL : PyLib}
    (fuel : nat) (env : Env) (keyword : string) (cfg : Cfg) (pages : Z)
    (headless : bool) (manual_timeout : Z) (h0 t1 t2 : History) (src : string) :
  let h1 := h0 ++ [Ev (StartDriver headless) None] in
  env_start_driver env h0 headless = Returns tt ->
  run (navigate_and_detect keyword cfg) env h1 = (Ok true, t1) ->
  run (await_human fuel keyword cfg manual_timeout) env (h1 ++ t1) = (Ok tt, t2) ->
  env_page_source env ((h1 ++ t1) ++ t2) = Returns src ->
  looks_blocked (Some src) = true ->
  exists q,
    let t := Ev (StartDriver headless) None :: t1 ++ t2 ++
             [Ev PageSource None; Ev (Log ERROR MsgStillBlocked) None; Ev Quit q] in
    run (scrape_keyword_on_site_auto_resume fuel keyword cfg pages headless
                                            manual_timeout) env h0
    = (Ok [], t) /\
    count is_page_extraction t = O.
Proof.
  intros h1 Hstart Hnav Hwait Hsrc Hblocked.
  destruct (session_still_blocked fuel env keyword cfg pages headless
              manual_timeout h0 t1 t2 src Hstart Hnav Hwait Hsrc Hblocked)
    as [q Hrun].
  exists q. cbn zeta. split; [exact Hrun |].
  pose proof (emits_navigate_and_detect keyword cfg env h1) as H1.
  pose proof (emits_await_human fuel keyword cfg manual_timeout env (h1 ++ t1)) as H2.
  rewrite Hnav in H1. rewrite Hwait in H2. cbn [snd] in H1, H2.
  apply prelude_no_extraction in H1, H2.
  change (Ev ?c None :: ?t) with ([Ev c None] ++ t).
  rewrite !count_app, H1, H2. reflexivity.
Qed.

Lemma still_blocked_returns_empty_witness :
  fst (run (scrape_keyword_on_site_auto_resume (MK := Toy.markup) (PL := Toy.pylib)
              10 "running shoes" Toy.site 2 false 6) Toy.walled [])
  = Ok [].
Proof.
  pose (h1 := [Ev (StartDriver false) None]).
  pose (t1 := snd (run (navigate_and_detect (PL := Toy.pylib) "running shoes" Toy.site)
                       Toy.walled h1)).
  pose (t2 := snd (run (await_human 10 "running shoes" Toy.site 6)
                       Toy.walled (h1 ++ t1))).
  assert (Hstart : env_start_driver Toy.walled [] false = Returns tt)
    by reflexivity.
  assert (Hnav : run (navigate_and_detect (PL := Toy.pylib) "running shoes" Toy.site)
                     Toy.walled ([] ++ [Ev (StartDriver false) None])
                 = (Ok true, t1)) by (vm_compute; reflexivity).
  assert (Hwait : run (await_human 10 "running shoes" Toy.site 6) Toy.walled
                      (([] ++ [Ev (StartDriver false) None]) ++ t1)
                  = (Ok tt, t2)) by (vm_compute; reflexivity).
  destruct (still_blocked_returns_empty (MK := Toy.markup) (PL := Toy.pylib)
              10 Toy.walled "running shoes" Toy.site 2 false 6 [] t1 t2
              "Please solve the CAPTCHA" Hstart Hnav Hwait eq_refl eq_refl)
    as [q [H _]].
  rewrite H. reflexivity.
Defined.

(** ** The CSV sink *)

Lemma run_write_rows (filename : string) (items : list ProductRecord) env h :
  run (write_rows filename items) env h
  = (Ok tt, map (fun it => Ev (CsvRow filename (row_of it)) None) items).
Proof.
  revert h. induction items as [|it rest IH]; intros h; [reflexivity |].
  cbn [write_rows map]. rewrite (run_bind_ok _ _ _ _ _ _ (run_emit _ _ _)).
  rewrite IH. reflexivity.
Qed.

Lemma run_save_to_csv (items : list ProductRecord) (filename : string) env h :
  env_csv_open env h filename = Returns tt ->
  run (save_to_csv items filename) env h = (Ok tt, csv_trace items filename).
Proof.
  intros Hopen. unfold save_to_csv, log.
  rewrite (run_bind_ok _ _ _ _ tt [Ev (CsvOpen filename) None])
    by (unfold csv_open, call, run; rewrite Hopen; reflexivity).
  rewrite (run_bind_ok _ _ _ _ _ _ (run_emit _ _ _)).
  rewrite (run_bind_ok _ _ _ _ _ _ (run_write_rows _ _ _ _)).
  rewrite run_emit. reflexivity.
Qed.

Lemma rows_written_app (filename : string) (t u : History) :
  rows_written filename (t ++ u) = rows_written filename t ++ rows_written filename u.
Proof.
  induction t as [|[c [e|]] t IH]; cbn [app rows_written]; [reflexivity | |];
    destruct c; try exact IH;
    destruct (_ =? _)%string; cbn [app]; rewrite IH; reflexivity.
Qed.

Lemma rows_written_rows (filename : string) (items : list ProductRecord) :
  rows_written filename (map (fun it => Ev (CsvRow filename (row_of it)) None) items)
  = map row_of items.
Proof.
  induction items as [|it rest IH]; [reflexivity |].
  cbn [map rows_written]. rewrite String.eqb_refl, IH. reflexivity.
Qed.

Lemma rows_written_csv_trace (filename : string) (items : list ProductRecord) :
  rows_written filename (csv_trace items filename)
  = map Some headers :: map row_of items.
Proof.
  unfold csv_trace. cbn [rows_written]. rewrite String.eqb_refl.
  rewrite rows_written_app, rows_written_rows. cbn [rows_written].
  rewrite app_nil_r. reflexivity.
Qed.

Lemma rows_written_none (filename : string) (t : History) :
  count is_csv_event t = O -> rows_written filename t = [].
Proof.
  induction t as [|[c q] t IH]; [reflexivity |].
  unfold count in *. destruct c; cbn; try discriminate; try exact IH.
Qed.



(** ** Faults and the outer boundary *)

Section Boundary.
Context {MK : Markup} {PL : PyLib}.

Lemma session_event_not_sink (t : History) :
  forallb is_session_event t = true ->
  count is_csv_event t = O /\ count is_outcome_line t = O.
Proof.
  intros H. split; apply (count_none is_session_event); auto;
    intros e He; unfold is_session_event in He;
    apply negb_true_iff, orb_false_iff in He; tauto.
Qed.

(** A session that began (the driver started) and ended, however it
    ended, quit the driver last. *)
Lemma session_releases (fuel : nat) (env : Env) (keyword : string) (cfg : Cfg)
    (pages : Z) (headless : bool) (T : Z) (h : History) :
  env_start_driver env h headless = Returns tt ->
  fst (run (scrape_keyword_on_site_auto_resume fuel keyword cfg pages headless T)
           env h) <> OutOfFuel ->
  exists t0 q,
    snd (run (scrape_keyword_on_site_auto_resume fuel keyword cfg pages headless T)
             env h) = t0 ++ [Ev Quit q].
Proof.
  intros Hstart. unfold scrape_keyword_on_site_auto_resume.
  rewrite (run_bind_ok _ _ _ _ tt [Ev (StartDriver headless) None])
    by (unfold start_driver, call, run; rewrite Hstart; reflexivity).
  cbv beta. cbn [fst snd].
  destruct (run (session_body fuel keyword cfg pages T) env
                (h ++ [Ev (StartDriver headless) None])) as [r t] eqn:Hbody.
  destruct r as [items|e|].
  - rewrite (run_try_finally_release _ _ _ _ _ Hbody) by discriminate.
    intros _. cbn [snd]. eexists (_ :: t), _. reflexivity.
  - rewrite (run_try_finally_release _ _ _ _ _ Hbody) by discriminate.
    intros _. cbn [snd]. eexists (_ :: t), _. reflexivity.
  - unfold try_finally, run in *. rewrite Hbody. cbn. congruence.
Qed.

(** The Excel export never ends [main] unless Ctrl+C arrives in it. *)
Lemma run_excel_step (items : list ProductRecord) (filename : string) env h :
  (forall h' f its, env_to_excel env h' f its <> Throws KeyboardInterrupt) ->
  exists tx,
    run (if PANDAS_AVAILABLE then save_to_excel items filename else ret tt) env h
    = (Ok tt, tx) /\
    count is_csv_event tx = O /\ count is_outcome_line tx = O.
Proof.
  intros Hx. unfold save_to_excel. destruct PANDAS_AVAILABLE; cbn [negb].
  - rewrite run_try_except, run_bind.
    assert (Hc : run (to_excel filename items) env h =
                 (match env_to_excel env h filename items with
                  | Returns a => Ok a
                  | Throws e => Raise e
                  end,
                  [Ev (ToExcel filename items)
                      (raised_of (env_to_excel env h filename items))]))
      by reflexivity.
    rewrite Hc. clear Hc. specialize (Hx h filename items).
    destruct (env_to_excel env h filename items) as [[]|[]]; cbn;
      try congruence; eexists; repeat split.
  - exists []. repeat split.
Qed.

Lemma scrape_and_save_fault (fuel : nat) (env : Env) (keyword : string) (cfg : Cfg)
    (pages : Z) (headless : bool) (h : History) (e : exn) (ts : History) :
  run (scrape_keyword_on_site_auto_resume fuel keyword cfg pages headless 300)
      env (h ++ [starting]) = (Raise e, ts) ->
  run (scrape_and_save fuel keyword cfg pages headless) env h
  = (Raise e, starting :: ts).
Proof.
  intros Hs. unfold scrape_and_save, print.
  rewrite (run_bind_ok _ _ _ _ _ _ (run_emit _ _ _)). fold starting.
  rewrite (run_bind_raise _ _ _ _ _ _ Hs). reflexivity.
Qed.

Lemma scrape_and_save_normal (fuel : nat) (env : Env) (keyword : string) (cfg : Cfg)
    (pages : Z) (headless : bool) (h : History)
    (items : list ProductRecord) (ts : History) (site_id : string) :
  run (scrape_keyword_on_site_auto_resume fuel keyword cfg pages headless 300)
      env (h ++ [starting]) = (Ok items, ts) ->
  cfg_id cfg = Some site_id ->
  env_csv_open env ((h ++ [starting]) ++ ts) (csv_name_of site_id keyword)
  = Returns tt ->
  (forall h' f its, env_to_excel env h' f its <> Throws KeyboardInterrupt) ->
  exists tx,
    run (scrape_and_save fuel keyword cfg pages headless) env h
    = (Ok tt, starting :: ts ++ csv_trace items (csv_name_of site_id keyword)
                       ++ tx ++ [outcome_line items (csv_name_of site_id keyword)]) /\
    count is_csv_event tx = O /\ count is_outcome_line tx = O.
Proof.
  intros Hs Hid Hopen Hx. unfold scrape_and_save, print.
  rewrite (run_bind_ok _ _ _ _ _ _ (run_emit _ _ _)). fold starting.
  rewrite (run_bind_ok _ _ _ _ _ _ Hs). cbv beta. rewrite Hid.
  rewrite (run_bind_ok _ _ _ _ site_id []) by reflexivity.
  fold (csv_name_of site_id keyword). rewrite app_nil_r.
  rewrite (run_bind_ok _ _ _ _ _ _ (run_save_to_csv items _ _ _ Hopen)).
  match goal with
  | |- context [run (bind (if PANDAS_AVAILABLE then ?a else ?b) _) env ?h'] =>
      destruct (run_excel_step items (replace_csv_xlsx (csv_name_of site_id keyword))
                  env h' Hx) as (tx & Htx & Hc & Ho)
  end.
  rewrite (run_bind_ok _ _ _ _ _ _ Htx).
  exists tx. split; [| auto].
  destruct items; cbn [run emit call raised_of fst snd outcome_line app];
    rewrite ?app_nil_r; reflexivity.
Qed.

(** C9, amended: a fault raised during the session is not caught.  The
    session quits the driver (if it had started) and the fault goes on
    through [main]: the run ends with that fault, no CSV file is opened or
    written, and no outcome line is shown.  When the session returns, the
    file can be opened and no Ctrl+C arrives in the Excel export, the CSV
    is written, header first and one row a record, and the last thing
    shown is the success count or the no-items line. *)
Theorem session_fault_not_caught
    (fuel : nat) (env : Env) (keyword : string) (cfg : Cfg) (pages : Z)
    (headless : bool) (h : History) :
  let session := run (scrape_keyword_on_site_auto_resume fuel keyword cfg pages
                        headless 300) env (h ++ [starting]) in
  let whole := run (scrape_and_save fuel keyword cfg pages headless) env h in
  (forall e,
      fst session = Raise e ->
      fst whole = Raise e /\
      snd whole = starting :: snd session /\
      count is_csv_event (snd whole) = O /\
      count is_outcome_line (snd whole) = O /\
      (env_start_driver env (h ++ [starting]) headless = Returns tt ->
       exists t0 q, snd whole = t0 ++ [Ev Quit q])) /\
  (forall items site_id,
      fst session = Ok items ->
      cfg_id cfg = Some site_id ->
      env_csv_open env ((h ++ [starting]) ++ snd session)
                   (csv_name_of site_id keyword) = Returns tt ->
      (forall h' f its, env_to_excel env h' f its <> Throws KeyboardInterrupt) ->
      exists t0,
        whole = (Ok tt, t0 ++ [outcome_line items (csv_name_of site_id keyword)]) /\
        rows_written (csv_name_of site_id keyword) (snd whole)
        = map Some headers :: map row_of items).
Proof.
  intros session whole.
  pose proof (emits_session fuel keyword cfg pages headless 300 env
                (h ++ [starting])) as Hev.
  fold session in Hev. apply session_event_not_sink in Hev.
  destruct Hev as [Hcsv Hout].
  split.
  - intros e He.
    assert (Hs : session = (Raise e, snd session))
      by (rewrite <- He; destruct session; reflexivity).
    pose proof (scrape_and_save_fault fuel env keyword cfg pages headless h e
                  (snd session) Hs) as Hw.
    fold whole in Hw. rewrite Hw. cbn [fst snd].
    repeat split.
    + change (starting :: snd session) with ([starting] ++ snd session).
      rewrite count_app, Hcsv. reflexivity.
    + change (starting :: snd session) with ([starting] ++ snd session).
      rewrite count_app, Hout. reflexivity.
    + intros Hstart.
      destruct (session_releases fuel env keyword cfg pages headless 300
                  (h ++ [starting]) Hstart) as (t0 & q & Hq).
      * fold session. rewrite He. discriminate.
      * fold session in Hq. rewrite Hq. exists (starting :: t0), q. reflexivity.
  - intros items site_id Hi Hid Hopen Hx.
    assert (Hs : session = (Ok items, snd session))
      by (rewrite <- Hi; destruct session; reflexivity).
    destruct (scrape_and_save_normal fuel env keyword cfg pages headless h items
                (snd session) site_id Hs Hid Hopen Hx) as (tx & Hw & Hc & Ho).
    fold whole in Hw.
    exists (starting :: snd session ++ csv_trace items (csv_name_of site_id keyword) ++ tx).
    split.
    + rewrite Hw. f_equal. cbn [app]. f_equal. rewrite <- !app_assoc. reflexivity.
    + rewrite Hw. cbn [snd].
      change (starting :: ?t) with ([starting] ++ t).
      rewrite !rows_written_app, rows_written_csv_trace.
      rewrite (rows_written_none _ (snd session) Hcsv).
      rewrite (rows_written_none _ tx Hc).
      assert (Hlast : rows_written (csv_name_of site_id keyword)
                        [outcome_line items (csv_name_of site_id keyword)] = [])
        by (destruct items; reflexivity).
      rewrite Hlast. cbn [rows_written starting app]. rewrite app_nil_r.
      reflexivity.
Qed.

End Boundary.

(** C9 as the specification words it fails: the browser dies after the start, the
    fault leaves [main], no CSV is written and no outcome line is shown;
    the driver was quit on the way. *)
Lemma unhandled_fault_leaves_main :
  let r := run (main (MK := Toy.markup) (PL := Toy.pylib) 10) Toy.crashed_browser [] in
  fst r = Raise WebDriverException /\
  count is_csv_event (snd r) = O /\
  count is_outcome_line (snd r) = O /\
  last (snd r) starting = Ev Quit None.
Proof. vm_compute. repeat split. Qed.

Lemma session_fault_not_caught_witness :
  let whole := run (scrape_and_save (MK := Toy.markup) (PL := Toy.pylib)
                      10 "running shoes" Toy.site 2 false) Toy.crashed_browser [] in
  fst whole = Raise WebDriverException /\
  count is_csv_event (snd whole) = O.
Proof.
  destruct (proj1 (session_fault_not_caught (MK := Toy.markup) (PL := Toy.pylib)
                     10 Toy.crashed_browser "running shoes" Toy.site 2 false [])
              WebDriverException)
    as (H1 & _ & H3 & _).
  - vm_compute. reflexivity.
  - split; [exact H1 | exact H3].
Defined.

(** A listing page run through [main]'s tail: three records, a header
    and three rows, and the success line. *)
Example toy_single_page_saved :
  let r := run (scrape_and_save (MK := Toy.markup) (PL := Toy.pylib)
                  5 "running shoes" Toy.site 4 false) Toy.single_page [] in
  fst r = Ok tt /\
  rows_written "toy_running_shoes.csv" (snd r)
  = [[Some "product_name"; Some "price"; Some "rating"; Some "product_url"];
     [Some "Shoe A"; Some "999"; None; Some "https://cdn.example/shoe-a"];
     [Some "Shoe B"; None; None; Some "https://site.example/p/shoe-b"];
     [None; Some "10"; None; Some "https://other.example/c"]] /\
  last (snd r) starting = Ev (Print (Done 3 "toy_running_shoes.csv")) None /\
  count is_page_extraction (snd r) = 1.
Proof. vm_compute. repeat split. Qed.

(** The same through [main] itself, where the Flipkart selectors match
    nothing on the sample page: a headers-only file and the no-items
    line. *)
Example toy_main_headers_only :
  let r := run (main (MK := Toy.markup) (PL := Toy.pylib) 5) Toy.single_page [] in
  fst r = Ok tt /\
  rows_written "flipkart_running_shoes.csv" (snd r)
  = [[Some "product_name"; Some "price"; Some "rating"; Some "product_url"]] /\
  last (snd r) starting = Ev (Print (NoItems "flipkart_running_shoes.csv")) None.
Proof. vm_compute. repeat split. Qed.

(** ** The session always ends *)

Lemma total_ret {A} (a : A) : total (ret a).
Proof. intros env h. discriminate. Qed.

Lemma total_raise {A} (e : exn) : total (raise (A := A) e).
Proof. intros env h. discriminate. Qed.

Lemma total_call {A} (c : Call) (answer : Env -> History -> reply A) :
  total (call c answer).
Proof. intros env h. cbn. destruct (answer env h); discriminate. Qed.

Lemma total_bind {A B} (m : M A) (k : A -> M B) :
  total m -> (forall a, total (k a)) -> total (bind m k).
Proof.
  intros Hm Hk env h. rewrite run_bind. specialize (Hm env h).
  destruct (run m env h) as [[a|e|] t]; cbn [fst] in *; try discriminate;
    [| congruence].
  specialize (Hk a env (h ++ t)). destruct (run (k a) env (h ++ t)) as [r t'].
  exact Hk.
Qed.

Lemma total_try_except {A} (m : M A) catches handler :
  total m -> (forall e, total (handler e)) -> total (try_except m catches handler).
Proof.
  intros Hm Hh env h. rewrite run_try_except. specialize (Hm env h).
  destruct (run m env h) as [[a|e|] t]; cbn [fst] in *; try discriminate;
    [| congruence].
  destruct (catches e); [| discriminate].
  specialize (Hh e env (h ++ t)). destruct (run (handler e) env (h ++ t)) as [r t'].
  exact Hh.
Qed.

Lemma total_try_finally {A} (m : M A) (fin : M unit) :
  total m -> total fin -> total (try_finally m fin).
Proof.
  intros Hm Hf env h. specialize (Hm env h). unfold try_finally, run in *.
  destruct (m env h) as [[a|e|] t]; cbn [fst] in *; try congruence;
    specialize (Hf env (h ++ t)); unfold run in Hf;
    destruct (fin env (h ++ t)) as [[[]|e'|] t']; cbn [fst] in *;
    congruence.
Qed.

Ltac total_calls :=
  unfold start_driver, driver_get, page_source, find_elements, is_displayed,
    click, get_attribute, execute_script, save_screenshot, write_file,
    driver_quit, sleep, print, log, emit, input, csv_open, to_excel;
  repeat first
    [ apply total_ret
    | apply total_raise
    | apply total_call
    | apply total_bind; [| intros ?]
    | apply total_try_except; [| intros ?]
    | match goal with |- total (if ?b then _ else _) => destruct b end
    | match goal with |- total (match ?x with _ => _ end) => destruct x end ].

Lemma total_close_buttons (btns : list Elt) : total (close_buttons btns).
Proof.
  induction btns as [|b rest IH]; cbn [close_buttons]; [apply total_ret |].
  apply total_bind; [total_calls |]. intros [|]; [apply total_ret | exact IH].
Qed.

Lemma total_scroll_steps (n steps : nat) (pause : Z) :
  total (scroll_steps n steps pause).
Proof.
  induction n as [|n IH]; cbn [scroll_steps]; [apply total_ret |].
  apply total_bind; [total_calls |]. intros _.
  apply total_bind; [total_calls |]. intros _. exact IH.
Qed.

Lemma total_try_selectors (sels : list string) : total (try_selectors sels).
Proof.
  intros env h. pose proof (try_selectors_shaped sels env h) as H.
  unfold shaped in H. intros E. rewrite E in H. exact H.
Qed.

Lemma total_resume_wait (fuel : nat) (cfg : Cfg) (T : Z) :
  (S (ticks_to_ceiling T) < fuel)%nat -> total (resume_wait fuel cfg T).
Proof.
  intros Hf env h.
  destruct (resume_wait_total env cfg T h) as (r & t & Hr & Hrun & _).
  rewrite (Hrun fuel Hf). exact Hr.
Qed.

Section Termination.
Context {MK : Markup} {PL : PyLib}.

Lemma total_paginate (cfg : Cfg) (pages : Z) :
  forall (n : nat) (current_page : Z) (collected : list ProductRecord) (fuel : nat),
    Z.to_nat (pages - current_page) = n -> (n < fuel)%nat ->
    total (paginate fuel cfg pages current_page collected).
Proof.
  induction n as [|n IH]; intros current_page collected [|fuel] Hn Hf; try lia;
    cbn [paginate]; destruct (current_page <? pages)%Z eqn:E;
    try apply total_ret.
  - apply Z.ltb_lt in E. lia.
  - apply Z.ltb_lt in E.
    apply total_bind.
    { unfold extract_page, gradual_scroll.
      apply total_bind; [total_calls |]. intros _.
      apply total_bind;
        [apply total_try_except; [apply total_scroll_steps | intros; apply total_ret] |].
      intros _. total_calls. }
    intros items. apply total_bind; [apply total_try_selectors |].
    intros [|]; cbn [negb]; [| total_calls].
    apply IH; lia.
Qed.

(** With fuel for the ticks of the wait and for the pages of the budget,
    a session ends: it returns or raises. *)
Lemma total_session (fuel : nat) (keyword : string) (cfg : Cfg) (pages : Z)
                    (headless : bool) (T : Z) :
  (S (ticks_to_ceiling T) < fuel)%nat ->
  (Z.to_nat pages < fuel)%nat ->
  total (scrape_keyword_on_site_auto_resume fuel keyword cfg pages headless T).
Proof.
  intros Hw Hp. unfold scrape_keyword_on_site_auto_resume.
  apply total_bind; [total_calls |]. intros _.
  apply total_try_finally; [| unfold release_driver; total_calls].
  unfold session_body.
  apply total_bind.
  - unfold navigate_and_detect, close_login_popup_best_effort, gradual_scroll.
    apply total_bind; [total_calls |]. intros template.
    apply total_bind; [total_calls |]. intros _.
    apply total_bind; [total_calls |]. intros _.
    apply total_bind; [total_calls |]. intros _.
    apply total_bind.
    { apply total_bind.
      - apply total_try_except; [| intros; apply total_ret].
        apply total_bind; [total_calls |]. intros btns. apply total_close_buttons.
      - intros [|]; total_calls. }
    intros _.
    apply total_bind;
      [apply total_try_except; [apply total_scroll_steps | intros; apply total_ret] |].
    intros _. total_calls.
  - intros blocked. apply total_bind.
    + destruct blocked; [| apply total_ret].
      apply total_bind.
      * unfold await_human, save_debug_files.
        apply total_bind; [total_calls |]. intros _.
        apply total_bind; [total_calls |]. intros _.
        do 4 (apply total_bind; [total_calls |]; intros _).
        apply total_resume_wait. exact Hw.
      * intros _. unfold recheck. total_calls.
    + intros [|]; [apply total_ret |].
      apply (total_paginate cfg pages (Z.to_nat pages)); [f_equal; lia | exact Hp].
Qed.

End Termination.

(* ===================================================================== *)
(** * Further properties *)
(* ===================================================================== *)

(** ** The best-effort helpers *)

Lemma returns_ret {A} (a : A) : returns (ret a).
Proof. intros env h. exists a. reflexivity. Qed.

Lemma returns_bind {A B} (m : M A) (k : A -> M B) :
  returns m -> (forall a, returns (k a)) -> returns (bind m k).
Proof.
  intros Hm Hk env h. rewrite run_bind. destruct (Hm env h) as [a Ha].
  destruct (run m env h) as [r t]. cbn [fst] in Ha. subst r.
  destruct (Hk a env (h ++ t)) as [b Hb].
  destruct (run (k a) env (h ++ t)) as [r' t']. exists b. exact Hb.
Qed.

(** A bare [except:] around a body that ends, with a handler that
    returns. *)
Lemma returns_try_any {A} (m : M A) (handler : exn -> M A) :
  total m -> (forall e, returns (handler e)) ->
  returns (try_except m any_exn handler).
Proof.
  intros Hm Hh env h. rewrite run_try_except. specialize (Hm env h).
  destruct (run m env h) as [[a|e|] t]; cbn [fst any_exn] in *.
  - exists a. reflexivity.
  - destruct (Hh e env (h ++ t)) as [a Ha].
    destruct (run (handler e) env (h ++ t)) as [r' t']. exists a. exact Ha.
  - congruence.
Qed.

Lemma close_buttons_returns (btns : list Elt) : returns (close_buttons btns).
Proof.
  induction btns as [|b rest IH]; cbn [close_buttons]; [apply returns_ret |].
  apply returns_bind.
  - apply returns_try_any; [total_calls | intros; apply returns_ret].
  - intros [|]; [apply returns_ret | exact IH].
Qed.

Lemma close_login_popup_returns : returns close_login_popup_best_effort.
Proof.
  unfold close_login_popup_best_effort. apply returns_bind.
  - apply returns_try_any; [| intros; apply returns_ret].
    apply total_bind; [total_calls |]. intros btns. apply total_close_buttons.
  - intros [|]; [apply returns_ret |].
    apply returns_try_any; [total_calls | intros; apply returns_ret].
Qed.

Lemma emits_popup_close_buttons (btns : list Elt) :
  emits is_popup_event (close_buttons btns).
Proof.
  induction btns as [|b rest IH]; cbn [close_buttons]; [apply emits_ret |].
  apply emits_bind; [session_calls |].
  intros [|]; [apply emits_ret | exact IH].
Qed.

Lemma emits_popup_cleanup : emits is_popup_event close_login_popup_best_effort.
Proof.
  unfold close_login_popup_best_effort.
  apply emits_bind.
  - apply emits_try_except; [| intros; apply emits_ret].
    apply emits_bind; [session_calls |]. intros btns.
    apply emits_popup_close_buttons.
  - intros [|]; session_calls.
Qed.

(** X1: the popup cleanup never raises, whatever the browser does and
    even when Ctrl+C arrives in it; it only looks for the close button,
    clicks, waits 0.4 s and sends the Escape key: it never navigates or
    reads the page. *)
Theorem popup_cleanup_never_raises (env : Env) (h : History) :
  fst (run close_login_popup_best_effort env h) = Ok tt /\
  forallb is_popup_event (snd (run close_login_popup_best_effort env h)) = true.
Proof.
  split.
  - destruct (close_login_popup_returns env h) as [[] H]. exact H.
  - apply emits_popup_cleanup.
Qed.

Lemma run_scroll_step (k steps : nat) (pause : Z) (env : Env) (h : History) :
  run (scroll_steps (S k) steps pause) env h =
  match env_execute_script env h (ScrollBy steps) with
  | Throws e => (Raise e, [Ev (ExecuteScript (ScrollBy steps)) (Some e)])
  | Returns _ =>
      if env_sleep_interrupted env (h ++ [Ev (ExecuteScript (ScrollBy steps)) None]) pause
      then (Raise KeyboardInterrupt,
            [Ev (ExecuteScript (ScrollBy steps)) None;
             Ev (Sleep pause) (Some KeyboardInterrupt)])
      else let (r, t) := run (scroll_steps k steps pause) env
                             (h ++ [Ev (ExecuteScript (ScrollBy steps)) None;
                                    Ev (Sleep pause) None]) in
           (r, Ev (ExecuteScript (ScrollBy steps)) None :: Ev (Sleep pause) None :: t)
  end.
Proof.
  cbn [scroll_steps]. rewrite run_bind.
  unfold execute_script at 1, call at 1, run at 1.
  destruct (env_execute_script env h (ScrollBy steps)) as [[]|e]; [| reflexivity].
  cbn [raised_of]. rewrite run_bind. unfold sleep at 1, call at 1, run at 1.
  destruct (env_sleep_interrupted env _ pause); [reflexivity |].
  cbn [raised_of]. rewrite <- app_assoc. cbn [app].
  destruct (run (scroll_steps k steps pause) env _) as [r t]. reflexivity.
Qed.

Lemma scroll_steps_bounded (n steps : nat) (pause : Z) (env : Env) :
  forall h,
    let r := fst (run (scroll_steps n steps pause) env h) in
    let t := snd (run (scroll_steps n steps pause) env h) in
    r <> OutOfFuel /\
    (count is_script t <= n)%nat /\
    (count is_sleep t <= count is_script t)%nat /\
    (forall ms q, In (Ev (Sleep ms) q) t -> ms = pause).
Proof.
  induction n as [|n IH]; intros h; cbn zeta.
  - cbn. split; [discriminate | split; [lia | split; [lia |]]].
    intros ms q [].
  - rewrite run_scroll_step.
    destruct (env_execute_script env h (ScrollBy steps)) as [[]|e].
    + destruct (env_sleep_interrupted env _ pause).
      * cbn. split; [discriminate | split; [lia | split; [lia |]]].
        intros ms q [H | [H | []]]; [discriminate | congruence].
      * specialize (IH (h ++ [Ev (ExecuteScript (ScrollBy steps)) None;
                               Ev (Sleep pause) None])).
        cbn zeta in IH.
        destruct (run (scroll_steps n steps pause) env _) as [r t].
        cbn [fst snd] in *. destruct IH as (Hr & Hs & Hz & Hp).
        unfold count in *. cbn [filter is_script is_sleep length].
        split; [exact Hr | split; [lia | split; [lia |]]].
        intros ms q [H | [H | H]]; [discriminate | congruence | eauto].
    + cbn. split; [discriminate | split; [lia | split; [lia |]]].
      intros ms q [H | []]. discriminate.
Qed.

(** X2: [gradual_scroll] swallows every driver fault: it returns, or is
    ended by Ctrl+C and by nothing else; it runs the scroll script at most
    [steps] times, sleeps at most once after each run, always for
    [pause], and does nothing else. *)
Theorem gradual_scroll_bounded (steps : nat) (pause : Z) (env : Env) (h : History) :
  let r := fst (run (gradual_scroll steps pause) env h) in
  let t := snd (run (gradual_scroll steps pause) env h) in
  (r = Ok tt \/ r = Raise KeyboardInterrupt) /\
  (count is_script t <= steps)%nat /\
  (count is_sleep t <= count is_script t)%nat /\
  (forall ms q, In (Ev (Sleep ms) q) t -> ms = pause) /\
  forallb is_scroll_event t = true.
Proof.
  cbn zeta. split; [| split; [| split; [| split]]].
  1-4: pose proof (scroll_steps_bounded steps steps pause env h) as H;
       cbn zeta in H; destruct H as (Hr & Hs & Hz & Hp);
       unfold gradual_scroll; rewrite run_try_except;
       destruct (run (scroll_steps steps steps pause) env h) as [[[]|e|] t];
       cbn [fst snd] in *; try congruence; auto;
       destruct e; cbn [is_Exception exn_eqb negb run ret fst snd];
       rewrite ?app_nil_r; auto.
  apply emits_gradual_scroll.
Qed.

Ltac snapshot_cases H :=
  cbn [In] in H;
  repeat match type of H with
         | _ \/ _ => destruct H as [H | H]
         end;
  try contradiction; try discriminate.

Ltac snapshot_goal src :=
  cbn [is_Exception exn_eqb negb raised_of app fst snd];
  (split; [first [left; reflexivity | right; reflexivity] |]);
  (split; [intros f c q H; snapshot_cases H;
           injection H as <- <- <-; split; reflexivity |]);
  (split; [intros f q H; snapshot_cases H;
           injection H as <- <-; split; try reflexivity;
           exists src; cbn [In]; auto |]);
  intros Hr; try discriminate; cbn [In]; auto 10.

(** X3: a failing debug snapshot is logged, not fatal: [save_debug_files]
    returns unless Ctrl+C arrives.  The only file it writes is
    [prefix.html], with the page source it just read; it takes the
    screenshot [prefix.png] only after that file was written; and when it
    returns, it logged either the success or the warning. *)
Theorem debug_snapshot_not_fatal (prefix : string) (env : Env) (h : History) :
  let r := fst (run (save_debug_files prefix) env h) in
  let t := snd (run (save_debug_files prefix) env h) in
  (r = Ok tt \/ r = Raise KeyboardInterrupt) /\
  (forall f c q, In (Ev (WriteFile f c) q) t ->
                 f = (prefix ++ ".html")%string /\
                 env_page_source env h = Returns c) /\
  (forall f q, In (Ev (SaveScreenshot f) q) t ->
               f = (prefix ++ ".png")%string /\
               exists c, In (Ev (WriteFile (prefix ++ ".html") c) None) t) /\
  (r = Ok tt ->
   In (Ev (Log INFO (MsgSavedDebug prefix)) None) t \/
   In (Ev (Log WARNING MsgDebugFailed) None) t).
Proof.
  unfold save_debug_files, try_except, bind, page_source, write_file,
    save_screenshot, log, emit, call, run, ret.
  destruct (env_page_source env h) as [src|e1] eqn:Hsrc; cbn [raised_of].
  - destruct (env_write_file env _ _ src) as [[]|e2]; cbn [raised_of app].
    + destruct (env_save_screenshot env _ _) as [[]|e3]; cbn [raised_of app].
      * snapshot_goal src.
      * destruct e3; snapshot_goal src.
    + destruct e2; snapshot_goal src.
  - destruct e1; snapshot_goal EmptyString.
Qed.

(** ** Selector precedence and containers *)

Section ExtractorMore.
Context {MK : Markup} {PL : PyLib}.

(** X4: [first_match] gives the match of the first selector, in the
    order of the list, that matches anything: every selector before it
    matched nothing; and it gives [None] exactly when no selector of the
    list matches (so also for an empty or missing list). *)
Theorem first_match_precedence (b : Node) (sels : list string) :
  match first_match b sels with
  | Some el =>
      exists pre sel post,
        sels = pre ++ sel :: post /\
        (forall s, In s pre -> select b s = []) /\
        hd_error (select b sel) = Some el
  | None => forall s, In s sels -> select b s = []
  end.
Proof.
  induction sels as [|sel rest IH]; cbn [first_match].
  - intros s [].
  - unfold select_one. destruct (select b sel) as [|el found] eqn:E; cbn [hd_error].
    + destruct (first_match b rest) as [el|].
      * destruct IH as (pre & sel' & post & -> & Hpre & Hsel).
        exists (sel :: pre), sel', post. repeat split; auto.
        intros s [<- | Hs]; auto.
      * intros s [<- | Hs]; auto.
    + exists [], sel, rest. repeat split; auto.
      * intros s [].
      * rewrite E. reflexivity.
Qed.

Lemma node_in_false (b : Node) (blocks : list Node) :
  node_in b blocks = false <-> forall x, In x blocks -> tag_eqb x b = false.
Proof.
  unfold node_in. induction blocks as [|y r IH]; cbn [existsb].
  - split; [intros _ x [] | reflexivity].
  - rewrite orb_false_iff, IH. split.
    + intros [Hy Hr] x [<- | Hx]; auto.
    + intros H. split; [apply H; now left | intros x Hx; apply H; now right].
Qed.

Lemma distinct_snoc (blocks : list Node) (b : Node) :
  distinct blocks -> node_in b blocks = false -> distinct (blocks ++ [b]).
Proof.
  intros Hd Hb. rewrite node_in_false in Hb.
  induction blocks as [|x r IH]; cbn [app distinct] in *.
  - split; [intros y [] | exact I].
  - destruct Hd as [Hx Hr]. split.
    + intros y Hy. apply in_app_or in Hy. destruct Hy as [Hy | [<- | []]].
      * apply Hx. exact Hy.
      * apply Hb. now left.
    + apply IH; [exact Hr |]. intros y Hy. apply Hb. now right.
Qed.

Lemma node_in_app (b : Node) (l r : list Node) :
  node_in b (l ++ r) = node_in b l || node_in b r.
Proof. unfold node_in. apply existsb_app. Qed.

Lemma append_new_facts (found : list Node) :
  forall blocks,
    (distinct blocks -> distinct (append_new found blocks)) /\
    (forall x, In x (append_new found blocks) -> In x blocks \/ In x found) /\
    (exists more, append_new found blocks = blocks ++ more) /\
    ((forall x, tag_eqb x x = true) ->
     forall b, In b found -> node_in b (append_new found blocks) = true).
Proof.
  induction found as [|b rest IH]; intros blocks; cbn [append_new].
  - split; [auto | split; [auto | split]].
    + exists []. rewrite app_nil_r. reflexivity.
    + intros _ c [].
  - destruct (node_in b blocks) eqn:Hin; cbn [negb].
    + destruct (IH blocks) as (Hd & Hp & [more Hm] & Hc).
      split; [exact Hd | split; [| split]].
      * intros x Hx. destruct (Hp x Hx); auto. right. now right.
      * exists more. exact Hm.
      * intros Hrefl c [<- | Hc']; [| auto].
        rewrite Hm, node_in_app, Hin. reflexivity.
    + destruct (IH (blocks ++ [b])) as (Hd & Hp & [more Hm] & Hc).
      split; [| split; [| split]].
      * intros Hb. apply Hd. apply distinct_snoc; assumption.
      * intros x Hx. destruct (Hp x Hx) as [H | H]; [| right; now right].
        apply in_app_or in H. destruct H as [H | [<- | []]]; auto.
        right. now left.
      * exists ([b] ++ more). rewrite Hm, app_assoc. reflexivity.
      * intros Hrefl c [<- | Hc']; [| auto].
        rewrite Hm, !node_in_app. unfold node_in at 2. cbn [existsb].
        rewrite Hrefl. cbn. rewrite orb_true_r. reflexivity.
Qed.

Lemma node_in_grows (b : Node) (l more : list Node) :
  node_in b l = true -> node_in b (l ++ more) = true.
Proof. intros H. rewrite node_in_app, H. reflexivity. Qed.

Lemma collect_blocks_facts (soup : Node) (sels : list string) :
  forall blocks,
    (distinct blocks -> distinct (collect_blocks soup sels blocks)) /\
    (forall x, In x (collect_blocks soup sels blocks) ->
               In x blocks \/ exists sel, In sel sels /\ In x (select soup sel)) /\
    (exists more, collect_blocks soup sels blocks = blocks ++ more) /\
    ((forall x, tag_eqb x x = true) ->
     forall sel b, In sel sels -> In b (select soup sel) ->
                   node_in b (collect_blocks soup sels blocks) = true).
Proof.
  induction sels as [|sel rest IH]; intros blocks; cbn [collect_blocks].
  - split; [auto | split; [auto | split]].
    + exists []. rewrite app_nil_r. reflexivity.
    + intros _ s c [].
  - destruct (select soup sel) as [|f found] eqn:E.
    + destruct (IH blocks) as (Hd & Hp & Hm & Hc).
      split; [exact Hd | split; [| split; [exact Hm |]]].
      * intros x Hx. destruct (Hp x Hx) as [H | (s & Hs & Hx')]; auto.
        right. exists s. split; [now right | exact Hx'].
      * intros Hrefl s c [<- | Hs] Hb; [rewrite E in Hb; destruct Hb | eauto].
    + destruct (append_new_facts (f :: found) blocks) as (Ad & Ap & [amore Am] & Ac).
      destruct (IH (append_new (f :: found) blocks)) as (Hd & Hp & [more Hm] & Hc).
      split; [auto | split; [| split]].
      * intros x Hx. destruct (Hp x Hx) as [H | (s & Hs & Hx')].
        -- destruct (Ap x H) as [H' | H']; auto.
           right. exists sel. split; [now left | rewrite E; exact H'].
        -- right. exists s. split; [now right | exact Hx'].
      * exists (amore ++ more). rewrite Hm, Am, app_assoc. reflexivity.
      * intros Hrefl s c [<- | Hs] Hb; [| eauto].
        rewrite E in Hb. rewrite Hm. apply node_in_grows. apply Ac; assumption.
Qed.

Lemma items_of_blocks_length (blocks : list Node) (cfg : Cfg) :
  (length (items_of_blocks blocks cfg) <= length blocks)%nat.
Proof.
  induction blocks as [|b rest IH]; cbn [items_of_blocks length]; [lia |].
  destruct (record_of_block b cfg); cbn [length]; lia.
Qed.

(** X5: the containers the extractor works on are those the
    [product_block] selectors find, each kept once: no container equals
    a later one (as [Tag.__eq__] compares them, so equal-looking
    listings are merged), each one was found by some selector, every
    found node is in the list up to that equality, and there are never
    more records than containers. *)
Theorem containers_deduplicated (html : string) (cfg : Cfg) :
  let soup := BeautifulSoup html in
  let blocks := collect_blocks soup (cfg_product_block cfg) [] in
  distinct blocks /\
  (forall b, In b blocks ->
             exists sel, In sel (cfg_product_block cfg) /\ In b (select soup sel)) /\
  ((forall x, tag_eqb x x = true) ->
   forall sel b, In sel (cfg_product_block cfg) -> In b (select soup sel) ->
                 node_in b blocks = true) /\
  (length (parse_products_from_html html cfg) <= length blocks)%nat.
Proof.
  cbn zeta.
  destruct (collect_blocks_facts (BeautifulSoup html) (cfg_product_block cfg) [])
    as (Hd & Hp & _ & Hc).
  split; [| split; [| split]].
  - apply Hd. exact I.
  - intros b Hb. destruct (Hp b Hb) as [[] | H]. exact H.
  - exact Hc.
  - apply items_of_blocks_length.
Qed.

End ExtractorMore.

(** ** What a session returns, and how many pages it reads *)

Lemma run_bind_inv {A B} (m : M A) (k : A -> M B) env h (b : B) :
  fst (run (bind m k) env h) = Ok b ->
  exists a t, run m env h = (Ok a, t) /\ fst (run (k a) env (h ++ t)) = Ok b.
Proof.
  rewrite run_bind. destruct (run m env h) as [[a|e|] t]; cbn [fst];
    try discriminate.
  intros H. exists a, t. split; [reflexivity |].
  destruct (run (k a) env (h ++ t)) as [r t']. exact H.
Qed.

Lemma run_try_finally_inv {A} (m : M A) (fin : M unit) env h (a : A) :
  fst (run (try_finally m fin) env h) = Ok a -> fst (run m env h) = Ok a.
Proof.
  unfold try_finally, run. destruct (m env h) as [[a'|e|] t]; cbn [fst];
    try discriminate;
    destruct (fin env (h ++ t)) as [[[]|e'|] t']; cbn [fst]; congruence.
Qed.

Lemma at_most_emits {A} (P Q : Event -> bool) (m : M A) :
  (forall e, Q e = true -> P e = false) -> emits Q m -> at_most P 0 m.
Proof.
  intros HQ Hm env h. rewrite (count_none Q P _ HQ (Hm env h)). lia.
Qed.

Lemma at_most_bind {A B} P (n k' : nat) (m : M A) (k : A -> M B) :
  at_most P n m -> (forall a, at_most P k' (k a)) ->
  at_most P (n + k') (bind m k).
Proof.
  intros Hm Hk env h. rewrite run_bind. specialize (Hm env h).
  destruct (run m env h) as [[a|e|] t]; cbn [snd] in *; try lia.
  specialize (Hk a env (h ++ t)). destruct (run (k a) env (h ++ t)) as [r t'].
  cbn [snd] in *. rewrite count_app. lia.
Qed.

Lemma at_most_try_finally {A} P (n k : nat) (m : M A) (fin : M unit) :
  at_most P n m -> at_most P k fin -> at_most P (n + k) (try_finally m fin).
Proof.
  intros Hm Hf env h. specialize (Hm env h). unfold try_finally, run in *.
  destruct (m env h) as [[a|e|] t]; cbn [snd] in *; try lia;
    specialize (Hf env (h ++ t)); unfold run in Hf;
    destruct (fin env (h ++ t)) as [[[]|e'|] t']; cbn [snd] in *;
    rewrite count_app; lia.
Qed.

Lemma at_most_more {A} P (n k : nat) (m : M A) :
  (n <= k)%nat -> at_most P n m -> at_most P k m.
Proof. intros Hnk Hm env h. specialize (Hm env h). lia. Qed.

Section SessionMore.
Context {MK : Markup} {PL : PyLib}.

Lemma extract_page_parsed (cfg : Cfg) (current_page : Z) env h items :
  fst (run (extract_page cfg current_page) env h) = Ok items ->
  exists html, items = parse_products_from_html html cfg.
Proof.
  unfold extract_page. intros H.
  apply run_bind_inv in H. destruct H as (_ & t1 & _ & H).
  apply run_bind_inv in H. destruct H as (_ & t2 & _ & H).
  apply run_bind_inv in H. destruct H as (_ & t3 & _ & H).
  apply run_bind_inv in H. destruct H as (html & t4 & _ & H).
  apply run_bind_inv in H. destruct H as (_ & t5 & _ & H).
  cbn in H. injection H as <-. exists html. reflexivity.
Qed.

Lemma paginate_collects (cfg : Cfg) (pages : Z) (fuel : nat) :
  forall current_page collected env h res,
    fst (run (paginate fuel cfg pages current_page collected) env h) = Ok res ->
    exists more, res = collected ++ more /\ Forall has_text more.
Proof.
  induction fuel as [|fuel IH]; intros current_page collected env h res;
    cbn [paginate]; [discriminate |].
  destruct (current_page <? pages)%Z.
  2:{ cbn. intros H. injection H as <-. exists []. rewrite app_nil_r. auto. }
  intros H. apply run_bind_inv in H. destruct H as (items & t1 & Hx & H).
  assert (Hitems : Forall has_text items).
  { destruct (extract_page_parsed cfg current_page env h items) as [html ->].
    - rewrite Hx. reflexivity.
    - apply parsed_has_text. }
  assert (Hcol : match items with [] => collected | _ :: _ => collected ++ items end
                 = collected ++ items)
    by (destruct items; [rewrite app_nil_r |]; reflexivity).
  rewrite Hcol in H. clear Hcol.
  apply run_bind_inv in H. destruct H as (clicked & t2 & _ & H).
  destruct clicked; cbn [negb] in H.
  - apply IH in H. destruct H as (more & -> & Hm).
    exists (items ++ more). rewrite app_assoc. split; [reflexivity |].
    apply Forall_app. auto.
  - apply run_bind_inv in H. destruct H as (_ & t3 & _ & H).
    cbn in H. injection H as <-. exists items. auto.
Qed.

(** X6: the records the pagination loop returns are those it was given,
    in order, followed by records that each have a non-empty name or a
    non-empty price; so every record a session returns, and hence every
    row written to the CSV file, has a non-empty name or price. *)
Theorem session_records_have_text :
  (forall fuel env cfg pages current_page collected h res,
      fst (run (paginate fuel cfg pages current_page collected) env h) = Ok res ->
      exists more, res = collected ++ more /\ Forall has_text more) /\
  (forall fuel env keyword cfg pages headless manual_timeout h items,
      fst (run (scrape_keyword_on_site_auto_resume fuel keyword cfg pages headless
                  manual_timeout) env h) = Ok items ->
      Forall has_text items).
Proof.
  split.
  - intros. eapply paginate_collects. eassumption.
  - intros fuel env keyword cfg pages headless T h items H.
    unfold scrape_keyword_on_site_auto_resume in H.
    apply run_bind_inv in H. destruct H as (_ & t0 & _ & H).
    apply run_try_finally_inv in H. unfold session_body in H.
    apply run_bind_inv in H. destruct H as (blocked & t1 & _ & H).
    apply run_bind_inv in H. destruct H as (still & t2 & _ & H).
    destruct still.
    + cbn in H. injection H as <-. constructor.
    + apply paginate_collects in H. destruct H as (more & -> & Hm). exact Hm.
Qed.

Lemma at_most_paginate (cfg : Cfg) (pages : Z) (fuel : nat) :
  forall current_page collected,
    at_most is_page_extraction (Z.to_nat (pages - current_page))
            (paginate fuel cfg pages current_page collected).
Proof.
  induction fuel as [|fuel IH]; intros current_page collected env h;
    cbn [paginate]; [cbn; lia |].
  destruct (current_page <? pages)%Z eqn:E; [| cbn; lia].
  apply Z.ltb_lt in E.
  replace (Z.to_nat (pages - current_page))
    with (1 + (0 + Z.to_nat (pages - (current_page + 1))))%nat by lia.
  revert env h. apply at_most_bind.
  - intros env h. destruct (extract_page_trace cfg current_page env h)
      as (t & -> & Hread).
    change (Ev ?c None :: t) with ([Ev c None] ++ t).
    rewrite count_app, (proj1 (reading_no_extraction t Hread)). cbn. lia.
  - intros items. apply at_most_bind.
    + eapply at_most_emits; [| apply emits_try_selectors].
      intros [[] q]; try discriminate; reflexivity.
    + intros [|]; cbn [negb]; [apply IH |].
      eapply at_most_more; [apply Nat.le_0_l |].
      eapply (at_most_emits _ is_prelude_event); [| session_calls].
      intros e. unfold is_prelude_event.
      rewrite andb_true_iff, negb_true_iff. tauto.
Qed.

(** X7: the page budget is respected: from page [current_page] on, the
    pagination loop extracts at most [pages - current_page] pages, and
    with fuel for that many rounds it ends; with an exhausted or
    non-positive budget it returns what it was given without touching the
    browser.  A whole session extracts at most [pages] pages. *)
Theorem page_budget_respected :
  (forall fuel env cfg pages current_page collected h,
      (count is_page_extraction
         (snd (run (paginate fuel cfg pages current_page collected) env h))
       <= Z.to_nat (pages - current_page))%nat /\
      ((pages <= current_page)%Z ->
       run (paginate (S fuel) cfg pages current_page collected) env h
       = (Ok collected, [])) /\
      ((Z.to_nat (pages - current_page) < fuel)%nat ->
       fst (run (paginate fuel cfg pages current_page collected) env h)
       <> OutOfFuel)) /\
  (forall fuel env keyword cfg pages headless manual_timeout h,
      (count is_page_extraction
         (snd (run (scrape_keyword_on_site_auto_resume fuel keyword cfg pages
                      headless manual_timeout) env h))
       <= Z.to_nat pages)%nat).
Proof.
  split.
  - intros fuel env cfg pages current_page collected h. split; [| split].
    + apply at_most_paginate.
    + intros Hle. cbn [paginate].
      replace (current_page <? pages)%Z with false
        by (symmetry; apply Z.ltb_ge; exact Hle).
      reflexivity.
    + intros Hf. eapply total_paginate; [reflexivity | exact Hf].
  - intros fuel env keyword cfg pages headless T h. revert env h.
    change (at_most is_page_extraction (Z.to_nat pages)
              (scrape_keyword_on_site_auto_resume fuel keyword cfg pages headless T)).
    unfold scrape_keyword_on_site_auto_resume.
    assert (Hquiet : forall e, is_prelude_event e = true -> is_page_extraction e = false).
    { intros e. unfold is_prelude_event.
      rewrite andb_true_iff, negb_true_iff. tauto. }
    replace (Z.to_nat pages) with (0 + ((0 + (0 + Z.to_nat (pages - 0))) + 0))%nat
      by (rewrite Z.sub_0_r; lia).
    apply at_most_bind;
      [eapply at_most_emits; [exact Hquiet | session_calls] |]. intros _.
    apply at_most_try_finally;
      [| eapply at_most_emits; [exact Hquiet | unfold release_driver; session_calls]].
    unfold session_body. apply at_most_bind;
      [eapply at_most_emits; [exact Hquiet | apply emits_navigate_and_detect] |].
    intros blocked. apply at_most_bind.
    + eapply at_most_emits; [exact Hquiet |].
      destruct blocked; [| apply emits_ret].
      apply emits_bind; [apply emits_await_human |].
      intros _. unfold recheck. session_calls.
    + intros [|]; [| apply at_most_paginate].
      eapply at_most_more; [apply Nat.le_0_l |].
      eapply at_most_emits; [exact Hquiet | apply emits_ret].
Qed.

End SessionMore.

Lemma session_records_have_text_witness :
  Forall has_text
         (parse_products_from_html (MK := Toy.markup) (PL := Toy.pylib)
            "<div.item> listing" Toy.site).
Proof.
  apply (proj2 (session_records_have_text (MK := Toy.markup) (PL := Toy.pylib))
           5 Toy.single_page "running shoes" Toy.site 4%Z false 300%Z []).
  vm_compute. reflexivity.
Defined.

(** ** The driver is started once and quit once *)

Lemma scroll_is_body_event (e : Event) :
  is_scroll_event e = true -> is_body_event e = true.
Proof. destruct e as [[] q]; try discriminate; reflexivity. Qed.

Lemma search_is_body_event (e : Event) :
  is_search_event e = true -> is_body_event e = true.
Proof. destruct e as [[] q]; try discriminate; reflexivity. Qed.

Lemma popup_is_body_event (e : Event) :
  is_popup_event e = true -> is_body_event e = true.
Proof. destruct e as [[] q]; try discriminate; reflexivity. Qed.

Lemma body_selector_text_found (psels : list string) (src : string) :
  emits is_body_event (selector_text_found psels src).
Proof.
  induction psels as [|psel rest IH]; cbn [selector_text_found];
    [apply emits_ret |].
  destruct (PyStr.contains psel src); [session_calls | exact IH].
Qed.

Lemma body_poll_loop (fuel : nat) (cfg : Cfg) (T : Z) :
  forall waited, emits is_body_event (poll_loop fuel cfg T waited).
Proof.
  induction fuel as [|fuel IH]; intros waited; cbn [poll_loop];
    [apply emits_out_of_fuel |].
  destruct (waited <? T)%Z; [| apply emits_ret].
  apply emits_bind; [session_calls |]. intros _.
  apply emits_bind; [session_calls |]. intros src.
  apply emits_bind; [apply body_selector_text_found |].
  intros [|]; [apply emits_ret | apply IH].
Qed.

Lemma body_resume_wait (fuel : nat) (cfg : Cfg) (T : Z) :
  emits is_body_event (resume_wait fuel cfg T).
Proof.
  induction fuel as [|fuel IH]; cbn [resume_wait]; [apply emits_out_of_fuel |].
  apply emits_bind.
  - apply emits_try_except; [| intros; session_calls].
    apply emits_bind; [session_calls |]. intros _.
    apply emits_bind; [apply body_poll_loop | intros; apply emits_ret].
  - intros [|]; [apply emits_ret | exact IH].
Qed.

Section Release.
Context {MK : Markup} {PL : PyLib}.

Lemma body_paginate (fuel : nat) (cfg : Cfg) (pages : Z) :
  forall current_page collected,
    emits is_body_event (paginate fuel cfg pages current_page collected).
Proof.
  induction fuel as [|fuel IH]; intros current_page collected; cbn [paginate];
    [apply emits_out_of_fuel |].
  destruct (current_page <? pages)%Z; [| apply emits_ret].
  apply emits_bind.
  - unfold extract_page.
    apply emits_bind; [session_calls |]. intros _.
    apply emits_bind;
      [eapply emits_weaken; [apply scroll_is_body_event | apply emits_gradual_scroll] |].
    intros _. session_calls.
  - intros items. apply emits_bind.
    + eapply emits_weaken; [apply search_is_body_event | apply emits_try_selectors].
    + intros [|]; cbn [negb]; [apply IH | session_calls].
Qed.

Lemma body_session_body (fuel : nat) (keyword : string) (cfg : Cfg) (pages T : Z) :
  emits is_body_event (session_body fuel keyword cfg pages T).
Proof.
  unfold session_body. apply emits_bind.
  - unfold navigate_and_detect.
    apply emits_bind; [session_calls |]. intros template.
    apply emits_bind; [session_calls |]. intros _.
    apply emits_bind; [session_calls |]. intros _.
    apply emits_bind; [session_calls |]. intros _.
    apply emits_bind.
    { eapply emits_weaken; [apply popup_is_body_event | apply emits_popup_cleanup]. }
    intros _. apply emits_bind;
      [eapply emits_weaken; [apply scroll_is_body_event | apply emits_gradual_scroll] |].
    intros _. session_calls.
  - intros blocked. apply emits_bind.
    + destruct blocked; [| apply emits_ret].
      apply emits_bind.
      * unfold await_human.
        apply emits_bind; [session_calls |]. intros _.
        apply emits_bind; [unfold save_debug_files; session_calls |]. intros _.
        do 4 (apply emits_bind; [session_calls |]; intros _).
        apply body_resume_wait.
      * intros _. unfold recheck. session_calls.
    + intros [|]; [apply emits_ret | apply body_paginate].
Qed.

(** X8: with fuel for the wait and for the page budget a session always
    ends.  If the driver cannot be started, the session raises that fault
    and does nothing else.  Otherwise it starts the driver first, quits
    it last, and neither starts nor quits it (nor touches the CSV file or
    the terminal prompts) in between, however the body ends; a failing
    [quit] is swallowed: the outcome is that of the body. *)
Theorem driver_started_and_quit_once
    (fuel : nat) (env : Env) (keyword : string) (cfg : Cfg) (pages : Z)
    (headless : bool) (T : Z) (h : History) :
  (S (ticks_to_ceiling T) < fuel)%nat ->
  (Z.to_nat pages < fuel)%nat ->
  let r := fst (run (scrape_keyword_on_site_auto_resume fuel keyword cfg pages
                       headless T) env h) in
  let t := snd (run (scrape_keyword_on_site_auto_resume fuel keyword cfg pages
                       headless T) env h) in
  r <> OutOfFuel /\
  match env_start_driver env h headless with
  | Throws e => r = Raise e /\ t = [Ev (StartDriver headless) (Some e)]
  | Returns _ =>
      exists body q,
        t = Ev (StartDriver headless) None :: body ++ [Ev Quit q] /\
        forallb is_body_event body = true /\
        r = fst (run (session_body fuel keyword cfg pages T) env
                     (h ++ [Ev (StartDriver headless) None]))
  end.
Proof.
  intros Hw Hp. cbn zeta. split.
  - apply total_session; assumption.
  - pose proof (total_session fuel keyword cfg pages headless T Hw Hp env h) as Htot.
    unfold scrape_keyword_on_site_auto_resume in *. rewrite run_bind in *.
    assert (Hs : run (start_driver headless) env h =
                 (match env_start_driver env h headless with
                  | Returns a => Ok a
                  | Throws e => Raise e
                  end,
                  [Ev (StartDriver headless)
                      (raised_of (env_start_driver env h headless))]))
      by reflexivity.
    rewrite Hs in *. clear Hs.
    destruct (env_start_driver env h headless) as [[]|e]; cbn [raised_of] in *.
    + pose proof (body_session_body fuel keyword cfg pages T env
                    (h ++ [Ev (StartDriver headless) None])) as Hbody.
      destruct (run (session_body fuel keyword cfg pages T) env
                    (h ++ [Ev (StartDriver headless) None])) as [rb tb] eqn:Eb.
      assert (Hrb : rb <> OutOfFuel).
      { intros ->. unfold try_finally, run in Htot, Eb. rewrite Eb in Htot.
        cbn in Htot. congruence. }
      rewrite (run_try_finally_release _ _ _ _ _ Eb Hrb) in *.
      cbn [fst snd] in *. eexists tb, _. repeat split. exact Hbody.
    + split; reflexivity.
Qed.

End Release.

Lemma driver_started_and_quit_once_witness :
  exists body q,
    snd (run (scrape_keyword_on_site_auto_resume (MK := Toy.markup) (PL := Toy.pylib)
                10 "running shoes" Toy.site 2 false 6) Toy.crashed_browser [])
    = Ev (StartDriver false) None :: body ++ [Ev Quit q] /\
    forallb is_body_event body = true /\
    fst (run (scrape_keyword_on_site_auto_resume (MK := Toy.markup) (PL := Toy.pylib)
                10 "running shoes" Toy.site 2 false 6) Toy.crashed_browser [])
    = fst (run (session_body (MK := Toy.markup) (PL := Toy.pylib)
                  10 "running shoes" Toy.site 2 6) Toy.crashed_browser
               ([] ++ [Ev (StartDriver false) None])).
Proof.
  apply (proj2 (driver_started_and_quit_once (MK := Toy.markup) (PL := Toy.pylib)
                  10 Toy.crashed_browser "running shoes" Toy.site 2%Z false 6%Z []
                  ltac:(vm_compute; lia) ltac:(vm_compute; lia))).
Defined.

(** ** Navigation faults and missing keys *)

Lemma sleep_first {B} (ms : Z) (k : unit -> M B) (env : Env) (h : History) :
  exists q rest, snd (run (bind (sleep ms) k) env h) = Ev (Sleep ms) q :: rest.
Proof.
  unfold run, bind, sleep, call.
  destruct (env_sleep_interrupted env h ms); cbn [raised_of].
  - eexists _, []. reflexivity.
  - destruct (k tt env _) as [r t]. eexists _, t. reflexivity.
Qed.

Section Navigation.
Context {MK : Markup} {PL : PyLib}.

(** X9: a navigation that fails with a [WebDriverException] is logged
    and the session goes on with the settle delay and the cleanup; any
    other fault of the navigation ends the navigation phase at once with
    that fault, before any page is read. *)
Theorem navigation_failure_not_fatal
    (env : Env) (keyword : string) (cfg : Cfg) (template : string)
    (h : History) (e : exn) :
  let url := PyStr.format_q template (quote_plus keyword) in
  cfg_url cfg = Some template ->
  env_get env (h ++ [Ev (Log INFO (MsgOpening url)) None]) url = Throws e ->
  if is_WebDriverException e
  then exists q rest,
         snd (run (navigate_and_detect keyword cfg) env h)
         = [Ev (Log INFO (MsgOpening url)) None; Ev (Get url) (Some e);
            Ev (Log WARNING MsgPageLoadWarning) None; Ev (Sleep 1000) q] ++ rest
  else run (navigate_and_detect keyword cfg) env h
       = (Raise e, [Ev (Log INFO (MsgOpening url)) None; Ev (Get url) (Some e)]).
Proof.
  intros url Hurl Hget. unfold navigate_and_detect. rewrite Hurl.
  rewrite (run_bind_ok _ _ _ _ template []) by reflexivity.
  fold url. unfold log.
  rewrite (run_bind_ok _ _ _ _ _ _ (run_emit _ _ _)). rewrite app_nil_r.
  destruct (is_WebDriverException e) eqn:E.
  - rewrite (run_bind_ok _ _ _ _ tt
               [Ev (Get url) (Some e); Ev (Log WARNING MsgPageLoadWarning) None]).
    2:{ rewrite run_try_except. unfold driver_get, call, run. rewrite Hget, E.
        reflexivity. }
    cbn [fst snd].
    match goal with
    | |- context [run (bind (sleep 1000) ?k) env ?h'] =>
        destruct (sleep_first 1000 k env h') as (q & rest & ->)
    end.
    exists q, rest. reflexivity.
  - rewrite (run_bind_raise _ _ _ _ e [Ev (Get url) (Some e)]).
    + reflexivity.
    + rewrite run_try_except. unfold driver_get, call, run. rewrite Hget, E.
      reflexivity.
Qed.

(** X10: a profile without the [url] key makes the session open the
    browser, raise [KeyError] before any navigation, and quit the
    browser. *)
Theorem missing_url_key
    (fuel : nat) (env : Env) (keyword : string) (cfg : Cfg) (pages : Z)
    (headless : bool) (T : Z) (h : History) :
  cfg_url cfg = None ->
  env_start_driver env h headless = Returns tt ->
  exists q,
    run (scrape_keyword_on_site_auto_resume fuel keyword cfg pages headless T) env h
    = (Raise KeyError, [Ev (StartDriver headless) None; Ev Quit q]).
Proof.
  intros Hurl Hstart. unfold scrape_keyword_on_site_auto_resume.
  rewrite (run_bind_ok _ _ _ _ tt [Ev (StartDriver headless) None])
    by (unfold start_driver, call, run; rewrite Hstart; reflexivity).
  cbv beta.
  assert (Hbody : run (session_body fuel keyword cfg pages T) env
                      (h ++ [Ev (StartDriver headless) None])
                  = (Raise KeyError, [])).
  { unfold session_body, navigate_and_detect. rewrite Hurl. reflexivity. }
  rewrite (run_try_finally_release _ _ _ _ _ Hbody) by discriminate.
  eexists. reflexivity.
Qed.

(** X11: when the last block detection finds the page clear, the result
    of the session is that of the pagination loop, run right after it
    from page 0 with nothing collected: straight after the first
    detection if that one is clear (no notice, no snapshot, no wait), or
    after the re-check that follows the wait. *)
Theorem clear_page_goes_to_pagination
    (fuel : nat) (env : Env) (keyword : string) (cfg : Cfg) (pages : Z)
    (headless : bool) (T : Z) (h : History) :
  let h1 := h ++ [Ev (StartDriver headless) None] in
  env_start_driver env h headless = Returns tt ->
  (forall t1 r tp,
      run (navigate_and_detect keyword cfg) env h1 = (Ok false, t1) ->
      run (paginate fuel cfg pages 0 []) env (h1 ++ t1) = (r, tp) ->
      r <> OutOfFuel ->
      exists q,
        run (scrape_keyword_on_site_auto_resume fuel keyword cfg pages headless T)
            env h
        = (r, Ev (StartDriver headless) None :: t1 ++ tp ++ [Ev Quit q])) /\
  (forall t1 t2 src r tp,
      run (navigate_and_detect keyword cfg) env h1 = (Ok true, t1) ->
      run (await_human fuel keyword cfg T) env (h1 ++ t1) = (Ok tt, t2) ->
      env_page_source env ((h1 ++ t1) ++ t2) = Returns src ->
      looks_blocked (Some src) = false ->
      run (paginate fuel cfg pages 0 []) env
          (((h1 ++ t1) ++ t2) ++ [Ev PageSource None; Ev (Log INFO MsgContinuing) None])
      = (r, tp) ->
      r <> OutOfFuel ->
      exists q,
        run (scrape_keyword_on_site_auto_resume fuel keyword cfg pages headless T)
            env h
        = (r, Ev (StartDriver headless) None :: t1 ++ t2 ++
              [Ev PageSource None; Ev (Log INFO MsgContinuing) None] ++ tp ++
              [Ev Quit q])).
Proof.
  intros h1 Hstart. split.
  - intros t1 r tp Hnav Hpag Hr.
    assert (Hbody : run (session_body fuel keyword cfg pages T) env h1
                    = (r, t1 ++ tp)).
    { unfold session_body. rewrite (run_bind_ok _ _ _ _ _ _ Hnav).
      rewrite (run_bind_ok _ _ _ _ false []) by reflexivity.
      rewrite !app_nil_r. cbn [app]. rewrite Hpag. reflexivity. }
    eexists. unfold scrape_keyword_on_site_auto_resume.
    rewrite (run_bind_ok _ _ _ _ tt [Ev (StartDriver headless) None])
      by (unfold start_driver, call, run; rewrite Hstart; reflexivity).
    cbv beta. fold h1.
    rewrite (run_try_finally_release _ _ _ _ _ Hbody Hr).
    cbn [fst snd app]. rewrite <- !app_assoc. reflexivity.
  - intros t1 t2 src r tp Hnav Hwait Hsrc Hclear Hpag Hr.
    assert (Hre : run recheck env ((h1 ++ t1) ++ t2)
                  = (Ok false, [Ev PageSource None; Ev (Log INFO MsgContinuing) None])).
    { unfold recheck, run, bind, page_source, call. rewrite Hsrc. simpl.
      rewrite Hclear. reflexivity. }
    assert (Hbody : run (session_body fuel keyword cfg pages T) env h1
                    = (r, t1 ++ t2 ++
                          [Ev PageSource None; Ev (Log INFO MsgContinuing) None] ++ tp)).
    { unfold session_body. rewrite (run_bind_ok _ _ _ _ _ _ Hnav).
      rewrite (run_bind_ok _ _ _ _ false
                 (t2 ++ [Ev PageSource None; Ev (Log INFO MsgContinuing) None])).
      - cbn [fst snd]. rewrite !app_assoc in *. rewrite Hpag.
        cbn [fst snd]. rewrite <- !app_assoc. reflexivity.
      - rewrite (run_bind_ok _ _ _ _ _ _ Hwait), Hre. reflexivity. }
    eexists. unfold scrape_keyword_on_site_auto_resume.
    rewrite (run_bind_ok _ _ _ _ tt [Ev (StartDriver headless) None])
      by (unfold start_driver, call, run; rewrite Hstart; reflexivity).
    cbv beta. fold h1.
    rewrite (run_try_finally_release _ _ _ _ _ Hbody Hr).
    cbn [fst snd app]. rewrite <- !app_assoc. reflexivity.
Qed.

End Navigation.

Lemma navigation_failure_not_fatal_witness :
  exists q rest,
    snd (run (navigate_and_detect (PL := Toy.pylib) "usb cable" Toy.site)
             Worlds.slow_site [])
    = [Ev (Log INFO (MsgOpening "https://site.example/search?q=usb+cable")) None;
       Ev (Get "https://site.example/search?q=usb+cable") (Some WebDriverException);
       Ev (Log WARNING MsgPageLoadWarning) None; Ev (Sleep 1000) q] ++ rest.
Proof.
  exact (navigation_failure_not_fatal (PL := Toy.pylib)
           Worlds.slow_site "usb cable" Toy.site
           "https://site.example/search?q={q}" [] WebDriverException
           eq_refl eq_refl).
Defined.

Lemma missing_url_key_witness :
  exists q,
    run (scrape_keyword_on_site_auto_resume (MK := Toy.markup) (PL := Toy.pylib)
           5 "usb cable" Worlds.no_url 2 false 300) Toy.single_page []
    = (Raise KeyError, [Ev (StartDriver false) None; Ev Quit q]).
Proof.
  apply (missing_url_key (MK := Toy.markup) (PL := Toy.pylib)); reflexivity.
Defined.

Lemma clear_page_goes_to_pagination_witness :
  exists q,
    run (scrape_keyword_on_site_auto_resume (MK := Toy.markup) (PL := Toy.pylib)
           5 "usb cable" Toy.site 3 false 300) Toy.single_page []
    = (Ok (parse_products_from_html (MK := Toy.markup) (PL := Toy.pylib)
             "<div.item> listing" Toy.site),
       Ev (StartDriver false) None ::
       snd (run (navigate_and_detect (PL := Toy.pylib) "usb cable" Toy.site)
                Toy.single_page [Ev (StartDriver false) None]) ++
       snd (run (paginate (MK := Toy.markup) (PL := Toy.pylib) 5 Toy.site 3 0 [])
                Toy.single_page
                ([Ev (StartDriver false) None] ++
                 snd (run (navigate_and_detect (PL := Toy.pylib) "usb cable" Toy.site)
                          Toy.single_page [Ev (StartDriver false) None]))) ++
       [Ev Quit q]).
Proof.
  apply (proj1 (clear_page_goes_to_pagination (MK := Toy.markup) (PL := Toy.pylib)
                  5 Toy.single_page "usb cable" Toy.site 3%Z false 300%Z []
                  eq_refl)).
  - vm_compute. reflexivity.
  - vm_compute. reflexivity.
  - discriminate.
Defined.

(** ** Elements that are not displayed *)

Lemma click_or_navigate_hidden (env : Env) (n : Elt) (h : History) :
  env_is_displayed env h n = Returns false ->
  run (click_or_navigate n) env h = (Ok false, [Ev (IsDisplayed n) None]).
Proof.
  intros H. unfold click_or_navigate, try_except, bind, is_displayed, call, run.
  rewrite H. reflexivity.
Qed.

Lemma try_nodes_hidden (env : Env) :
  (forall h n, env_is_displayed env h n = Returns false) ->
  forall nodes h,
    run (try_nodes nodes) env h
    = (Ok false, map (fun n => Ev (IsDisplayed n) None) nodes).
Proof.
  intros Hhid. induction nodes as [|n rest IH]; intros h; [reflexivity |].
  cbn [try_nodes map].
  rewrite (run_bind_ok _ _ _ _ _ _ (click_or_navigate_hidden env n h (Hhid h n))).
  rewrite IH. reflexivity.
Qed.

(** X12: a next-page element that is not displayed is skipped without a
    click, and its [href] is never read or followed: when no found
    element is displayed, the search reports not clicked, having only
    looked elements up and asked whether they are displayed. *)
Theorem hidden_elements_not_followed (env : Env) (sels : list string) (h : History) :
  (forall h' n, env_is_displayed env h' n = Returns false) ->
  (forall h' sel, env_find_elements env h' sel <> Throws KeyboardInterrupt) ->
  exists t,
    run (try_selectors sels) env h = (Ok false, t) /\
    forallb is_look_event t = true.
Proof.
  intros Hhid Hfind. revert h.
  induction sels as [|sel rest IH]; intros h.
  - exists []. split; reflexivity.
  - cbn [try_selectors].
    assert (Hone : exists t,
               run (try_except (nodes <- find_elements sel ;; try_nodes nodes)
                               is_Exception (fun _ => ret false)) env h
               = (Ok false, t) /\ forallb is_look_event t = true).
    { rewrite run_try_except, run_bind.
      assert (Hf : run (find_elements sel) env h =
                   (match env_find_elements env h sel with
                    | Returns a => Ok a
                    | Throws e => Raise e
                    end,
                    [Ev (FindElements sel) (raised_of (env_find_elements env h sel))]))
        by reflexivity.
      rewrite Hf. clear Hf. specialize (Hfind h sel).
      destruct (env_find_elements env h sel) as [nodes|e]; cbn [raised_of].
      - rewrite (try_nodes_hidden env Hhid). eexists. split; [reflexivity |].
        cbn [app forallb is_look_event andb]. clear.
        induction nodes as [|n ns IHn]; [reflexivity | exact IHn].
      - destruct e; try congruence; cbn; eexists; split; reflexivity. }
    destruct Hone as (t & Ht & Hlook).
    rewrite (run_bind_ok _ _ _ _ _ _ Ht).
    destruct (IH (h ++ t)) as (t' & Ht' & Hlook').
    rewrite Ht'. eexists. split; [reflexivity |].
    cbn [snd]. rewrite forallb_app, Hlook, Hlook'. reflexivity.
Qed.

Lemma hidden_elements_not_followed_witness :
  exists t,
    run (try_selectors ["a.prev"; "a.next"]) Worlds.hidden_link [] = (Ok false, t) /\
    forallb is_look_event t = true.
Proof.
  apply hidden_elements_not_followed.
  - reflexivity.
  - intros h' sel. cbn. destruct (sel =? "a.next")%string; discriminate.
Defined.

(** ** The menu *)

Section Menu.
Context {MK : Markup} {PL : PyLib}.

Lemma run_menu (fuel : nat) (env : Env) (h : History) :
  run (main fuel) env h =
  let (r, t) :=
    run (answer <- input AskChoice ;;
         match SITES (PyStr.strip answer) with
         | None => print (Text "Invalid choice. Exiting.")
         | Some cfg =>
             print (Text "Example keywords: mobile, shoes, laptop, saree, watch, headphones, bags") ;;
             answer <- input AskKeyword ;;
             match PyStr.strip answer with
             | EmptyString => print (Text "No keyword. Exiting.")
             | String _ _ =>
                 answer3 <- input AskPages ;;
                 answer4 <- input AskHeadless ;;
                 scrape_and_save fuel (PyStr.strip answer) cfg (pages_of answer3)
                                 (headless_of answer4)
             end
         end) env (h ++ menu) in
  (r, menu ++ t).
Proof.
  unfold main, print.
  do 7 rewrite (run_bind_ok _ _ _ _ _ _ (run_emit _ _ _)).
  rewrite <- !app_assoc. cbn [app fst snd]. fold menu.
  match goal with
  | |- (fst (run ?a env _), _) = (let (_, _) := run ?b env _ in _) =>
      assert (Heq : a = b)
  end.
  { reflexivity. }
  rewrite Heq.
  destruct (run _ env (h ++ menu)) as [r t]. reflexivity.
Qed.

End Menu.

Section MenuFacts.
Context {MK : Markup} {PL : PyLib}.

(** X13: [main] opens no browser and writes no file unless the operator
    picked a site of the menu and gave a keyword that is not blank: with
    another choice it prints the error and returns; with a blank keyword
    it prints that there is no keyword and returns; and a fault of the
    first prompt (end of input, Ctrl+C) leaves [main] uncaught. *)
Theorem main_needs_site_and_keyword (fuel : nat) (env : Env) (h : History) :
  (forall a,
      env_input env (h ++ menu) AskChoice = Returns a ->
      SITES (PyStr.strip a) = None ->
      run (main fuel) env h
      = (Ok tt, menu ++ [Ev (Input AskChoice) None;
                         Ev (Print (Text "Invalid choice. Exiting.")) None])) /\
  (forall a cfg k,
      env_input env (h ++ menu) AskChoice = Returns a ->
      SITES (PyStr.strip a) = Some cfg ->
      env_input env (h ++ menu ++ [Ev (Input AskChoice) None; examples_line])
                AskKeyword = Returns k ->
      PyStr.strip k = "" ->
      run (main fuel) env h
      = (Ok tt, menu ++ [Ev (Input AskChoice) None; examples_line;
                         Ev (Input AskKeyword) None;
                         Ev (Print (Text "No keyword. Exiting.")) None])) /\
  (forall e,
      env_input env (h ++ menu) AskChoice = Throws e ->
      run (main fuel) env h = (Raise e, menu ++ [Ev (Input AskChoice) (Some e)])).
Proof.
  split; [| split].
  - intros a Ha Hs. rewrite run_menu.
    unfold run, bind, input, call, print, emit. rewrite Ha. cbn [raised_of].
    rewrite Hs. reflexivity.
  - intros a cfg k Ha Hs Hk Hblank. rewrite run_menu.
    rewrite (run_bind_ok _ _ _ _ a [Ev (Input AskChoice) None])
      by (unfold input, call, run; rewrite Ha; reflexivity).
    cbv beta. rewrite Hs. unfold print.
    rewrite (run_bind_ok _ _ _ _ _ _ (run_emit _ _ _)). fold examples_line.
    rewrite <- !app_assoc. cbn [app].
    rewrite (run_bind_ok _ _ _ _ k [Ev (Input AskKeyword) None])
      by (unfold input, call, run; rewrite Hk; reflexivity).
    cbv beta. rewrite Hblank. reflexivity.
  - intros e He. rewrite run_menu.
    unfold run, bind, input, call. rewrite He. reflexivity.
Qed.

(** X14: with a site of the menu and a keyword, [main] runs the scrape
    on that site with the keyword stripped of surrounding blanks, with the
    page budget [int] reads from the stripped answer (from ["2"] when it
    is blank, and 2 when [int] raises [ValueError]), and headless exactly
    when the stripped, lowercased answer is ["y"]; its outcome is that of
    the scrape. *)
Theorem main_runs_with_operator_choices
    (fuel : nat) (env : Env) (h : History) (a1 a2 a3 a4 : string) (cfg : Cfg) :
  let asked1 := [Ev (Input AskChoice) None; examples_line] in
  let asked2 := asked1 ++ [Ev (Input AskKeyword) None] in
  let asked3 := asked2 ++ [Ev (Input AskPages) None] in
  let asked := menu ++ asked3 ++ [Ev (Input AskHeadless) None] in
  let pages := match py_int (or_default (PyStr.strip a3) "2") with
               | Some n => n
               | None => 2%Z
               end in
  let headless := (or_default (PyStr.lower (PyStr.strip a4)) "n" =? "y")%string in
  env_input env (h ++ menu) AskChoice = Returns a1 ->
  SITES (PyStr.strip a1) = Some cfg ->
  env_input env (h ++ menu ++ asked1) AskKeyword = Returns a2 ->
  PyStr.strip a2 <> "" ->
  env_input env (h ++ menu ++ asked2) AskPages = Returns a3 ->
  env_input env (h ++ menu ++ asked3) AskHeadless = Returns a4 ->
  run (main fuel) env h
  = (fst (run (scrape_and_save fuel (PyStr.strip a2) cfg pages headless) env
              (h ++ asked)),
     asked ++ snd (run (scrape_and_save fuel (PyStr.strip a2) cfg pages headless) env
                       (h ++ asked))).
Proof.
  intros asked1 asked2 asked3 asked pages headless H1 Hs H2 Hk H3 H4.
  subst asked asked3 asked2 asked1. cbn [app] in *.
  rewrite run_menu.
  rewrite (run_bind_ok _ _ _ _ a1 [Ev (Input AskChoice) None])
    by (unfold input, call, run; rewrite H1; reflexivity).
  cbv beta. rewrite Hs. unfold print.
  rewrite (run_bind_ok _ _ _ _ _ _ (run_emit _ _ _)). fold examples_line.
  rewrite <- !app_assoc. cbn [app].
  rewrite (run_bind_ok _ _ _ _ a2 [Ev (Input AskKeyword) None])
    by (unfold input, call, run; rewrite H2; reflexivity).
  cbv beta. destruct (PyStr.strip a2) as [|c k] eqn:Ek; [congruence |].
  rewrite <- !app_assoc. cbn [app].
  rewrite (run_bind_ok _ _ _ _ a3 [Ev (Input AskPages) None])
    by (unfold input, call, run; rewrite H3; reflexivity).
  rewrite <- !app_assoc. cbn [app].
  rewrite (run_bind_ok _ _ _ _ a4 [Ev (Input AskHeadless) None])
    by (unfold input, call, run; rewrite H4; reflexivity).
  rewrite <- !app_assoc. cbn [app fst snd].
  fold pages. fold headless. unfold pages_of, headless_of. fold pages. fold headless.
  f_equal; try (rewrite <- app_assoc; reflexivity).
Qed.

End MenuFacts.

Lemma main_needs_site_and_keyword_witness :
  run (main (MK := Toy.markup) (PL := Toy.pylib) 5) Worlds.wrong_choice []
  = (Ok tt, menu ++ [Ev (Input AskChoice) None;
                     Ev (Print (Text "Invalid choice. Exiting.")) None]) /\
  run (main (MK := Toy.markup) (PL := Toy.pylib) 5) Worlds.no_keyword []
  = (Ok tt, menu ++ [Ev (Input AskChoice) None; examples_line;
                     Ev (Input AskKeyword) None;
                     Ev (Print (Text "No keyword. Exiting.")) None]).
Proof.
  split.
  - apply (proj1 (main_needs_site_and_keyword (MK := Toy.markup) (PL := Toy.pylib)
                    5 Worlds.wrong_choice []) "4"); reflexivity.
  - apply (proj1 (proj2 (main_needs_site_and_keyword (MK := Toy.markup)
                           (PL := Toy.pylib) 5 Worlds.no_keyword []))
             "3" snapdeal "   "); reflexivity.
Defined.

Lemma main_runs_with_operator_choices_witness :
  fst (run (main (MK := Toy.markup) (PL := Toy.pylib) 5) Worlds.vague_operator [])
  = fst (run (scrape_and_save (MK := Toy.markup) (PL := Toy.pylib)
                5 "usb cable" amazon_in 2 true) Worlds.vague_operator
             ([] ++ menu ++
              [Ev (Input AskChoice) None; examples_line; Ev (Input AskKeyword) None;
               Ev (Input AskPages) None; Ev (Input AskHeadless) None])).
Proof.
  rewrite (main_runs_with_operator_choices (MK := Toy.markup) (PL := Toy.pylib)
             5 Worlds.vague_operator [] "2" " usb cable " "lots" " Y " amazon_in
             eq_refl eq_refl eq_refl ltac:(discriminate) eq_refl eq_refl).
  reflexivity.
Defined.

(** ** More on the block detector *)

Lemma lower_app (a b : string) :
  PyStr.lower (a ++ b)%string = (PyStr.lower a ++ PyStr.lower b)%string.
Proof. induction a as [|c a IH]; cbn; [reflexivity | rewrite IH; reflexivity]. Qed.

Lemma string_app_assoc (a b c : string) :
  ((a ++ b) ++ c = a ++ b ++ c)%string.
Proof. induction a as [|x a IH]; cbn; [reflexivity | rewrite IH; reflexivity]. Qed.

Lemma occurs_in_embedded (p s pre post : string) :
  PyStr.occurs_in p s -> PyStr.occurs_in p (pre ++ s ++ post)%string.
Proof.
  intros [a [b ->]]. exists (pre ++ a)%string, (b ++ post)%string.
  rewrite !string_app_assoc. reflexivity.
Qed.

(** X15: block detection is monotone in the text: a text that embeds a
    blocked text is blocked too, whatever surrounds it; so one indicator
    word anywhere in a page (a "login" link in a footer) marks the whole
    page as blocked. *)
Theorem blocked_text_stays_blocked (t pre post : string) :
  looks_blocked (Some t) = true ->
  looks_blocked (Some (pre ++ t ++ post)%string) = true.
Proof.
  rewrite !looks_blocked_unfold, !any_token_in_iff.
  intros [token [Hin Hocc]]. exists token. split; [exact Hin |].
  rewrite !lower_app. apply occurs_in_embedded. exact Hocc.
Qed.

Lemma blocked_text_stays_blocked_witness :
  looks_blocked (Some "<html><body>Shoes ... <a>Login</a></body></html>") = true.
Proof.
  apply (blocked_text_stays_blocked "Login" "<html><body>Shoes ... <a>"
                                    "</a></body></html>").
  reflexivity.
Defined.

Lemma please_verify_has_verify (low : string) :
  PyStr.contains "please verify" low = true -> PyStr.contains "verify" low = true.
Proof.
  rewrite !contains_iff. intros [pre [post ->]].
  exists (pre ++ "please ")%string, post.
  rewrite string_app_assoc. reflexivity.
Qed.

(** X16: the indicator ["please verify"] never decides: on every text
    [looks_blocked] answers as it would with that indicator removed from
    [BLOCK_INDICATORS], since ["verify"] is tried before it. *)
Theorem please_verify_is_redundant (page_text : option string) :
  looks_blocked page_text =
  match page_text with
  | Some t => any_token_in indicators_without_please_verify (PyStr.lower t)
  | None => false
  end.
Proof.
  destruct page_text as [t|]; [| reflexivity].
  rewrite looks_blocked_unfold.
  unfold BLOCK_INDICATORS, indicators_without_please_verify. cbn [any_token_in].
  pose proof (please_verify_has_verify (PyStr.lower t)) as H.
  destruct (PyStr.contains "captcha" (PyStr.lower t)); [reflexivity |].
  destruct (PyStr.contains "verify" (PyStr.lower t)); [reflexivity |].
  destruct (PyStr.contains "are you human" (PyStr.lower t)); [reflexivity |].
  destruct (PyStr.contains "access denied" (PyStr.lower t)); [reflexivity |].
  destruct (PyStr.contains "please verify" (PyStr.lower t)); [| reflexivity].
  specialize (H eq_refl). discriminate.
Qed.

(** ** More on the sinks *)

Section SinksMore.
Context {MK : Markup} {PL : PyLib}.

(** X17: the Excel export is optional and never fatal: without pandas
    [save_to_excel] does nothing at all; with pandas an export that
    returns is followed by the success line, a failing export is
    followed by the warning line and swallowed, and only a Ctrl+C during
    the export escapes, with nothing logged; in no case does it touch
    the CSV file. *)
Theorem excel_export_is_optional
    (items : list ProductRecord) (filename : string) (env : Env) (h : History) :
  let r := fst (run (save_to_excel items filename) env h) in
  let t := snd (run (save_to_excel items filename) env h) in
  (r = Ok tt \/ r = Raise KeyboardInterrupt) /\
  (PANDAS_AVAILABLE = false -> t = []) /\
  (r = Raise KeyboardInterrupt ->
   env_to_excel env h filename items = Throws KeyboardInterrupt) /\
  count is_csv_event t = O /\
  (PANDAS_AVAILABLE = true ->
   match env_to_excel env h filename items with
   | Returns _ =>
       r = Ok tt /\
       t = [Ev (ToExcel filename items) None;
            Ev (Log INFO (MsgExcelSaved filename)) None]
   | Throws e =>
       if is_Exception e
       then r = Ok tt /\
            t = [Ev (ToExcel filename items) (Some e);
                 Ev (Log WARNING MsgExcelFailed) None]
       else r = Raise e /\
            t = [Ev (ToExcel filename items) (Some e)]
   end).
Proof.
  unfold save_to_excel, try_except, bind, to_excel, log, emit, call, run, ret.
  destruct PANDAS_AVAILABLE; cbn [negb].
  - destruct (env_to_excel env h filename items) as [[]|[]];
      cbn [raised_of is_Exception exn_eqb negb fst snd];
      (split; [first [left; reflexivity | right; reflexivity] |]);
      (split; [discriminate |]);
      (split; [intros Hr; try discriminate; reflexivity |]);
      (split; [reflexivity |]);
      intros _; split; reflexivity.
  - cbn. split; [left; reflexivity |]. split; [reflexivity |].
    split; [discriminate |]. split; [reflexivity | discriminate].
Qed.

(** X18: when the session returned its records but the output file
    cannot be opened, or the profile has no [id] to name it, the records
    are lost: [main] ends with that fault (the fault of [open], or
    [KeyError]), no row is written and no outcome line is shown. *)
Theorem unwritable_output_loses_records
    (fuel : nat) (env : Env) (keyword : string) (cfg : Cfg) (pages : Z)
    (headless : bool) (h : History) (items : list ProductRecord) (ts : History) :
  run (scrape_keyword_on_site_auto_resume fuel keyword cfg pages headless 300)
      env (h ++ [starting]) = (Ok items, ts) ->
  (forall site_id e,
      cfg_id cfg = Some site_id ->
      env_csv_open env ((h ++ [starting]) ++ ts) (csv_name_of site_id keyword)
      = Throws e ->
      run (scrape_and_save fuel keyword cfg pages headless) env h
      = (Raise e, starting :: ts ++
                  [Ev (CsvOpen (csv_name_of site_id keyword)) (Some e)])) /\
  (cfg_id cfg = None ->
   run (scrape_and_save fuel keyword cfg pages headless) env h
   = (Raise KeyError, starting :: ts)).
Proof.
  intros Hs. split.
  - intros site_id e Hid Hopen. unfold scrape_and_save, print.
    rewrite (run_bind_ok _ _ _ _ _ _ (run_emit _ _ _)). fold starting.
    rewrite (run_bind_ok _ _ _ _ _ _ Hs). cbv beta. rewrite Hid.
    rewrite (run_bind_ok _ _ _ _ site_id []) by reflexivity.
    fold (csv_name_of site_id keyword). rewrite app_nil_r.
    rewrite (run_bind_raise _ _ _ _ e
               [Ev (CsvOpen (csv_name_of site_id keyword)) (Some e)]).
    + reflexivity.
    + unfold save_to_csv.
      apply run_bind_raise. unfold csv_open, call, run. rewrite Hopen. reflexivity.
  - intros Hid. unfold scrape_and_save, print.
    rewrite (run_bind_ok _ _ _ _ _ _ (run_emit _ _ _)). fold starting.
    rewrite (run_bind_ok _ _ _ _ _ _ Hs). cbv beta. rewrite Hid.
    cbn [fst snd]. rewrite app_nil_r. reflexivity.
Qed.

End SinksMore.

(** With pandas installed and an export that fails. *)
Lemma excel_export_is_optional_witness :
  fst (run (save_to_excel (PL := Worlds.with_pandas) [] "out.xlsx")
           Worlds.slow_site []) = Ok tt /\
  snd (run (save_to_excel (PL := Worlds.with_pandas) [] "out.xlsx")
           Worlds.slow_site [])
  = [Ev (ToExcel "out.xlsx" []) (Some OtherError);
     Ev (Log WARNING MsgExcelFailed) None].
Proof.
  exact (proj2 (proj2 (proj2 (proj2
           (excel_export_is_optional (PL := Worlds.with_pandas)
              [] "out.xlsx" Worlds.slow_site []))))
           eq_refl).
Defined.

Lemma unwritable_output_loses_records_witness :
  fst (run (scrape_and_save (MK := Toy.markup) (PL := Toy.pylib)
              5 "usb cable" Toy.site 1 false) Worlds.read_only_disk [])
  = Raise OtherError.
Proof.
  pose (ts := snd (run (scrape_keyword_on_site_auto_resume (MK := Toy.markup)
                          (PL := Toy.pylib) 5 "usb cable" Toy.site 1 false 300)
                       Worlds.read_only_disk ([] ++ [starting]))).
  assert (Hs : run (scrape_keyword_on_site_auto_resume (MK := Toy.markup)
                      (PL := Toy.pylib) 5 "usb cable" Toy.site 1 false 300)
                   Worlds.read_only_disk ([] ++ [starting])
               = (Ok (parse_products_from_html (MK := Toy.markup) (PL := Toy.pylib)
                        "<div.item> listing" Toy.site), ts))
    by (vm_compute; reflexivity).
  rewrite (proj1 (unwritable_output_loses_records (MK := Toy.markup) (PL := Toy.pylib)
                    5 Worlds.read_only_disk "usb cable" Toy.site 1%Z false [] _ ts Hs)
             "toy" OtherError eq_refl eq_refl).
  reflexivity.
Defined.

(** ** File names *)

Lemma string_length_app (a b : string) :
  String.length (a ++ b)%string = (String.length a + String.length b)%nat.
Proof. induction a as [|c a IH]; cbn; [reflexivity | rewrite IH; reflexivity]. Qed.

(** X20: the Excel file takes the name of the CSV file with the
    extension swapped, provided [.csv] occurs in that name at its end
    only; (the [replace] of line 366 rewrites every occurrence). *)
Theorem excel_name_swaps_extension (name : string) :
  csv_only_at_end name ->
  replace_csv_xlsx (name ++ ".csv") = (name ++ ".xlsx")%string.
Proof.
  induction name as [|c r IH]; intros Hend; [reflexivity |].
  change (String c r ++ ".csv")%string with (String c (r ++ ".csv")).
  cbn [replace_csv_xlsx].
  destruct (PyStr.startswith (String c (r ++ ".csv")) ".csv") eqn:E.
  - apply startswith_iff in E. destruct E as [post E].
    pose proof (Hend EmptyString post E) as ->.
    apply (f_equal String.length) in E. cbn in E.
    rewrite string_length_app in E. cbn in E. lia.
  - cbn [append]. f_equal. apply IH.
    intros pre post H. apply (Hend (String c pre) post). cbn. rewrite H. reflexivity.
Qed.

Lemma excel_name_swaps_extension_witness :
  replace_csv_xlsx "toy_usb_cable.csv" = "toy_usb_cable.xlsx".
Proof.
  apply (excel_name_swaps_extension "toy_usb_cable").
  intros pre post H.
  repeat (destruct pre as [|? pre]; cbn in H;
          [try discriminate; injection H as <-; reflexivity
          | try discriminate; injection H as <- H]).
Defined.

(** A keyword that holds [.csv] gets every occurrence rewritten. *)
Example excel_name_of_odd_keyword :
  replace_csv_xlsx (csv_name_of "toy" "data.csv files") = "toy_data.xlsx_files.xlsx".
Proof. reflexivity. Qed.

(** X21: the keyword part of the file names ([safe_kw] of line 362, and
    the debug prefix of line 213) has the length of the keyword, holds no
    blank, and is the keyword itself when that has none. *)
Theorem keyword_sanitised (keyword : string) :
  let safe := PyStr.replace_char " " "_" keyword in
  String.length safe = String.length keyword /\
  PyStr.contains " " safe = false /\
  (PyStr.contains " " keyword = false -> safe = keyword) /\
  PyStr.replace_char " " "_" safe = safe.
Proof.
  cbn zeta. induction keyword as [|c r (Hl & Hc & Hid & Hi)].
  - repeat split.
  - cbn [PyStr.replace_char].
    destruct (Ascii.eqb c " ") eqn:E.
    + apply Ascii.eqb_eq in E. subst c.
      split; [cbn [String.length]; rewrite Hl; reflexivity |].
      split; [cbn [PyStr.contains PyStr.startswith]; exact Hc |].
      split; [cbn; discriminate |].
      cbn [PyStr.replace_char]. rewrite Hi. reflexivity.
    + assert (E' : Ascii.eqb " " c = false) by (rewrite Ascii.eqb_sym; exact E).
      split; [cbn [String.length]; rewrite Hl; reflexivity |].
      split; [cbn [PyStr.contains PyStr.startswith]; rewrite E'; exact Hc |].
      split.
      * cbn [PyStr.contains PyStr.startswith]. rewrite E'. cbn [andb orb].
        intros H. rewrite (Hid H). reflexivity.
      * cbn [PyStr.replace_char]. rewrite E, Hi. reflexivity.
Qed.

(** ** A wait without a timeout, and a wall to the end *)

(** X22: with a ceiling of zero or less the wait does not poll at all:
    it prints its line and ends, so the re-check follows at once. *)
Theorem no_wait_without_timeout (env : Env) (cfg : Cfg) (T : Z) (h : History)
                                (fuel : nat) :
  (T <= 0)%Z ->
  run (resume_wait (S (S fuel)) cfg T) env h = (Ok tt, [press_enter]).
Proof.
  intros HT. rewrite resume_wait_step.
  rewrite poll_loop_stop by (apply Z.ltb_ge; exact HT). reflexivity.
Qed.

Lemma no_wait_without_timeout_witness :
  run (resume_wait 2 Toy.site 0) Toy.walled [] = (Ok tt, [press_enter]).
Proof. apply no_wait_without_timeout. lia. Defined.

Section WalledToTheEnd.
Context {MK : Markup} {PL : PyLib}.

(** X23: a wall that never clears is a soft failure: when nothing else
    fails, [main] gives up after the wait, writes a headers-only CSV file
    and shows the no-items line, and returns normally. *)
Theorem walled_run_writes_headers_only
    (fuel : nat) (env : Env) (keyword : string) (cfg : Cfg) (pages : Z)
    (headless : bool) (h : History) (site_id : string) :
  never_fails env ->
  stays_walled env cfg ->
  cfg_url cfg <> None ->
  cfg_id cfg = Some site_id ->
  (forall h', env_csv_open env h' (csv_name_of site_id keyword) = Returns tt) ->
  (forall h' f its, env_to_excel env h' f its <> Throws KeyboardInterrupt) ->
  (S (ticks_to_ceiling 300) < fuel)%nat ->
  exists t0,
    run (scrape_and_save fuel keyword cfg pages headless) env h
    = (Ok tt, t0 ++ [Ev (Print (NoItems (csv_name_of site_id keyword))) None]) /\
    rows_written (csv_name_of site_id keyword) t0 = [map Some headers].
Proof.
  intros NF WALL Hurl Hid Hopen Hx Hf.
  destruct (session_walled env cfg NF WALL fuel keyword pages headless 300
              (h ++ [starting]) Hurl Hf) as (ts & Hs & _).
  destruct (scrape_and_save_normal fuel env keyword cfg pages headless h []
              ts site_id Hs Hid (Hopen _) Hx) as (tx & Hw & Hc & _).
  pose proof (emits_session fuel keyword cfg pages headless 300 env
                (h ++ [starting])) as Hev.
  rewrite Hs in Hev. cbn [snd] in Hev.
  apply session_event_not_sink in Hev. destruct Hev as [Hcsv _].
  exists (starting :: ts ++ csv_trace [] (csv_name_of site_id keyword) ++ tx).
  split.
  - rewrite Hw. cbn [outcome_line app]. rewrite <- !app_assoc. reflexivity.
  - change (starting :: ?t) with ([starting] ++ t).
    rewrite !rows_written_app, rows_written_csv_trace.
    rewrite (rows_written_none _ ts Hcsv), (rows_written_none _ tx Hc).
    reflexivity.
Qed.

End WalledToTheEnd.

Lemma walled_run_writes_headers_only_witness :
  exists t0,
    run (scrape_and_save (MK := Toy.markup) (PL := Toy.pylib)
           200 "running shoes" Toy.site 2 false) Toy.walled []
    = (Ok tt, t0 ++ [Ev (Print (NoItems (csv_name_of "toy" "running shoes"))) None]) /\
    rows_written (csv_name_of "toy" "running shoes") t0 = [map Some headers].
Proof.
  apply (walled_run_writes_headers_only (MK := Toy.markup) (PL := Toy.pylib)).
  - exact toy_walled_never_fails.
  - exact toy_walled_stays_walled.
  - discriminate.
  - reflexivity.
  - reflexivity.
  - discriminate.
  - vm_compute. lia.
Defined.

(** ** A next-page link that always works *)

Section Endless.
Context {MK : Markup} {PL : PyLib}.
Variables (env : Env) (cfg : Cfg).
Hypothesis NF : never_fails env.
Hypothesis NEXT : always_next env cfg.

Lemma try_selectors_advances (h : History) :
  exists t,
    run (try_selectors (cfg_next_button cfg)) env h = (Ok true, t) /\
    count is_advance t = 1 /\ count is_page_extraction t = O.
Proof.
  destruct NEXT as [(sel & rest & -> & Hfind) Hshown].
  destruct (Hfind h) as (n & ns & Hf).
  exists [Ev (FindElements sel) None; Ev (IsDisplayed n) None;
          Ev (Click n) None; Ev (Sleep 1200) None].
  split; [| split; reflexivity].
  cbn [try_selectors].
  rewrite (run_bind_ok _ _ _ _ true
             [Ev (FindElements sel) None; Ev (IsDisplayed n) None;
              Ev (Click n) None; Ev (Sleep 1200) None]); [reflexivity |].
  apply run_try_except_ok.
  rewrite (run_bind_ok _ _ _ _ (n :: ns) [Ev (FindElements sel) None])
    by (unfold find_elements, call, run; rewrite Hf; reflexivity).
  cbn [try_nodes].
  rewrite (run_bind_ok _ _ _ _ true
             [Ev (IsDisplayed n) None; Ev (Click n) None; Ev (Sleep 1200) None]);
    [reflexivity |].
  unfold click_or_navigate. apply run_try_except_ok.
  rewrite (run_bind_ok _ _ _ _ true [Ev (IsDisplayed n) None])
    by (unfold is_displayed, call, run; rewrite Hshown; reflexivity).
  rewrite (run_bind_ok _ _ _ _ tt [Ev (Click n) None])
    by (unfold click, call, run; rewrite (nf_click env NF); reflexivity).
  rewrite (run_bind_ok _ _ _ _ _ _ (run_sleep_nf env NF 1200 _)).
  reflexivity.
Qed.

Lemma extract_page_nf (current_page : Z) (h : History) :
  exists items t,
    run (extract_page cfg current_page) env h = (Ok items, t) /\
    count is_page_extraction t = 1 /\ count is_advance t = O.
Proof.
  destruct (extract_page_trace cfg current_page env h) as (t' & Ht' & Hread).
  destruct (reading_no_extraction t' Hread) as [Hx Ha].
  assert (Hok : exists items, fst (run (extract_page cfg current_page) env h) = Ok items).
  { unfold extract_page, log.
    rewrite (run_bind_ok _ _ _ _ _ _ (run_emit _ _ _)).
    rewrite (run_bind_ok _ _ _ _ _ _ (run_gradual_scroll_nf env NF 6 500 _)).
    rewrite (run_bind_ok _ _ _ _ _ _ (run_sleep_nf env NF 1000 _)).
    match goal with
    | |- context [run (bind page_source _) env ?h'] =>
        destruct (nf_page env NF h') as [src Hsrc];
        rewrite (run_bind_ok _ _ _ _ src [Ev PageSource None])
          by (unfold page_source, call, run; rewrite Hsrc; reflexivity)
    end.
    eexists. reflexivity. }
  destruct Hok as [items Hitems].
  destruct (run (extract_page cfg current_page) env h) as [r t].
  cbn [fst snd] in *. subst r t. exists items. eexists. split; [reflexivity |].
  change (Ev ?c None :: t') with ([Ev c None] ++ t').
  rewrite !count_app, Hx, Ha. split; reflexivity.
Qed.

Lemma paginate_endless (pages : Z) :
  forall (n : nat) (current_page : Z) (collected : list ProductRecord)
         (h : History) (fuel : nat),
    Z.to_nat (pages - current_page) = n -> (n < fuel)%nat ->
    exists res t,
      run (paginate fuel cfg pages current_page collected) env h = (Ok res, t) /\
      count is_page_extraction t = n /\ count is_advance t = n.
Proof.
  induction n as [|n IH]; intros current_page collected h [|fuel] Hn Hf; try lia;
    cbn [paginate]; destruct (current_page <? pages)%Z eqn:E.
  - apply Z.ltb_lt in E. lia.
  - exists collected, []. repeat split.
  - destruct (extract_page_nf current_page h) as (items & t1 & H1 & Hx1 & Ha1).
    rewrite (run_bind_ok _ _ _ _ _ _ H1).
    destruct (try_selectors_advances (h ++ t1)) as (t2 & H2 & Ha2 & Hx2).
    rewrite (run_bind_ok _ _ _ _ _ _ H2). cbn [negb].
    apply Z.ltb_lt in E.
    match goal with
    | |- context [run (paginate fuel cfg pages ?c ?l) env ?h'] =>
        destruct (IH c l h' fuel ltac:(lia) ltac:(lia)) as (res & t3 & H3 & Hx3 & Ha3)
    end.
    rewrite H3. exists res. eexists. split; [reflexivity |].
    cbn [fst snd]. rewrite !count_app, Hx1, Ha1, Hx2, Ha2, Hx3, Ha3.
    split; reflexivity.
  - apply Z.ltb_ge in E. lia.
Qed.

End Endless.

(** X24: when nothing fails and a next-page link can always be clicked,
    the pagination loop extracts exactly [pages] pages and clicks the
    link exactly [pages] times: also after the last extraction, so it
    leaves the browser one page further than it read. *)
Theorem budget_is_used_in_full {MK : Markup} {PL : PyLib}
    (fuel : nat) (env : Env) (cfg : Cfg) (pages : Z) (h : History) :
  never_fails env ->
  always_next env cfg ->
  (Z.to_nat pages < fuel)%nat ->
  exists res t,
    run (paginate fuel cfg pages 0 []) env h = (Ok res, t) /\
    count is_page_extraction t = Z.to_nat pages /\
    count is_advance t = Z.to_nat pages.
Proof.
  intros NF NEXT Hf.
  apply (paginate_endless env cfg NF NEXT pages (Z.to_nat pages)); [| exact Hf].
  f_equal. lia.
Qed.

Lemma toy_endless_never_fails : never_fails Worlds.endless.
Proof.
  constructor; intros; try reflexivity; cbn;
    try (eexists; reflexivity).
  destruct (sel =? "a.next")%string; eexists; reflexivity.
Qed.

Lemma budget_is_used_in_full_witness :
  exists res t,
    run (paginate (MK := Toy.markup) (PL := Toy.pylib) 5 Toy.site 3 0 [])
        Worlds.endless [] = (Ok res, t) /\
    count is_page_extraction t = Z.to_nat 3 /\
    count is_advance t = Z.to_nat 3.
Proof.
  apply (budget_is_used_in_full (MK := Toy.markup) (PL := Toy.pylib)).
  - exact toy_endless_never_fails.
  - split.
    + exists "a.next", []. split; [reflexivity |].
      intros h. exists 7, []. reflexivity.
    + reflexivity.
  - vm_compute. lia.
Defined.

(** ** The configured profiles *)

Lemma format_q_suffix (pre v : string) :
  PyStr.contains "{" pre = false ->
  PyStr.format_q (pre ++ "{q}") v = (pre ++ v)%string.
Proof.
  induction pre as [|c r IH]; intros H.
  - cbn. induction v as [|x v IHv]; cbn; [reflexivity | rewrite IHv at 1; reflexivity].
  - cbn [PyStr.contains PyStr.startswith] in H.
    apply orb_false_iff in H. destruct H as [Hc Hr].
    rewrite andb_true_r in Hc.
    change (String c r ++ "{q}")%string with (String c (r ++ "{q}")).
    cbn [PyStr.format_q PyStr.startswith]. rewrite Hc. cbn [andb].
    cbn [append]. rewrite (IH Hr). reflexivity.
Qed.

(** X25: every profile of the menu is complete: it has an [id] and a
    [url] (so the [KeyError]s of a missing key cannot come from the
    menu), each of its selector lists has a candidate, and its URL
    template ends in the [{q}] field: the search URL is a fixed prefix
    followed by the encoded keyword. *)
Theorem menu_profiles_complete (choice : string) (cfg : Cfg) :
  SITES choice = Some cfg ->
  (exists site_id, cfg_id cfg = Some site_id) /\
  (exists template prefix,
      cfg_url cfg = Some template /\
      forall v, PyStr.format_q template v = (prefix ++ v)%string) /\
  cfg_product_block cfg <> [] /\ cfg_name cfg <> [] /\ cfg_price cfg <> [] /\
  cfg_rating cfg <> [] /\ cfg_next_button cfg <> [].
Proof.
  unfold SITES. intros H.
  destruct (choice =? "1")%string;
    [| destruct (choice =? "2")%string; [| destruct (choice =? "3")%string]];
    try discriminate; injection H as <-;
    (split; [eexists; reflexivity |]);
    (split; [| repeat split; discriminate]).
  - exists "https://www.flipkart.com/search?q={q}", "https://www.flipkart.com/search?q=".
    split; [reflexivity |]. intros v.
    apply (format_q_suffix "https://www.flipkart.com/search?q=" v). reflexivity.
  - exists "https://www.amazon.in/s?k={q}", "https://www.amazon.in/s?k=".
    split; [reflexivity |]. intros v.
    apply (format_q_suffix "https://www.amazon.in/s?k=" v). reflexivity.
  - exists "https://www.snapdeal.com/search?keyword={q}",
           "https://www.snapdeal.com/search?keyword=".
    split; [reflexivity |]. intros v.
    apply (format_q_suffix "https://www.snapdeal.com/search?keyword=" v). reflexivity.
Qed.

Lemma menu_profiles_complete_witness :
  exists template prefix,
    cfg_url snapdeal = Some template /\
    forall v, PyStr.format_q template v = (prefix ++ v)%string.
Proof.
  exact (proj1 (proj2 (menu_profiles_complete "3" snapdeal eq_refl))).
Defined.
